(** * SENTINAL fraud scoring engine: a shallow embedding

    The development follows the Python sources
    [backend/core/fraud_detector.py], [backend/models/autoencoder.py] and
    [backend/models/preprocessor.py].

    Conventions of the embedding:
    - Python [float]s are idealised as exact rationals ([Q]); numeric results
      are compared with [==] ([Qeq]).  NaN and infinities are not represented.
    - Python [dict]s read only through [get]/[in] are [gmap string val];
      dicts that are iterated ([ml_predictions], [rule_predictions],
      [self.models]) are insertion-ordered association lists.
    - A function that may raise returns [result A = exn + A]; a
      [try ... except Exception] block is a [match] on that sum. *)

From Stdlib Require Import QArith Qabs Qround Qminmax Lqa ZArith String Ascii List.
From stdpp Require Import base option gmap strings pretty.

Local Open Scope Q_scope.

(** ** Exceptions and the error monad *)

Inductive exn_kind :=
| TypeError | ValueError | AttributeError | IndexError | KeyError | RuntimeError.

Record exn := Raise { exn_kind_of : exn_kind; exn_msg : string }.

(** [str(e)] *)
Definition str_exn (e : exn) : string := exn_msg e.

Definition result (A : Type) : Type := exn + A.

Definition ret {A} (a : A) : result A := inr a.
Definition raise {A} (k : exn_kind) (msg : string) : result A := inl (Raise k msg).

Definition bind {A B} (m : result A) (f : A -> result B) : result B :=
  match m with
  | inl e => inl e
  | inr a => f a
  end.

Notation "'do' p <- m ;; k" := (bind m (fun p => k))
  (at level 10, p pattern, m at level 99, k at level 200).

(** ** Numbers *)

Definition Qltb (x y : Q) : bool := negb (Qle_bool y x).
Definition Qgtb (x y : Q) : bool := Qltb y x.
Definition Qgeb (x y : Q) : bool := Qle_bool y x.

Definition Qsum (l : list Q) : Q := fold_left Qplus l 0.

(** The arithmetic mean of a non-empty list, as [np.mean] computes it on
    numbers: the sum divided by the number of elements. *)
Definition Qmean (l : list Q) : Q := Qsum l / inject_Z (Z.of_nat (length l)).

(** Stable insertion sort on rationals. *)
Fixpoint Qinsert (x : Q) (l : list Q) : list Q :=
  match l with
  | [] => [x]
  | y :: l' => if Qle_bool x y then x :: l else y :: Qinsert x l'
  end.

Definition Qsort (l : list Q) : list Q := fold_right Qinsert [] l.

(** ** Strings *)

(** [needle in hay] on Python strings. *)
Fixpoint str_contains (needle hay : string) : bool :=
  if String.prefix needle hay then true
  else match hay with
       | EmptyString => false
       | String _ hay' => str_contains needle hay'
       end.

Definition ascii_lower (c : ascii) : ascii :=
  let n := nat_of_ascii c in
  if (65 <=? n)%nat && (n <=? 90)%nat then ascii_of_nat (n + 32) else c.

(** [s.lower()], on the ASCII range. *)
Fixpoint str_lower (s : string) : string :=
  match s with
  | EmptyString => EmptyString
  | String c s' => String (ascii_lower c) (str_lower s')
  end.

(** ** Dynamically typed values *)

(** The fields of [datetime] the engine reads. *)
Record datetime := { dt_hour : Z; dt_weekday : Z; dt_month : Z; dt_day : Z }.

Inductive val :=
| VNone
| VBool (b : bool)
| VNum (q : Q)
| VStr (s : string)
| VTime (t : datetime).

(** Truth value of an object in a condition. *)
Definition truthy (v : val) : bool :=
  match v with
  | VNone => false
  | VBool b => b
  | VNum q => negb (Qeq_bool q 0)
  | VStr s => negb (String.eqb s "")
  | VTime _ => true
  end.

(** [v is None] *)
Definition is_none (v : val) : bool :=
  match v with VNone => true | _ => false end.

(** [v == s] for a string literal [s] *)
Definition val_eq_str (v : val) (s : string) : bool :=
  match v with VStr s' => String.eqb s' s | _ => false end.

(** [d.get(k)] and [d.get(k, default)] *)
Definition dict_get (d : gmap string val) (k : string) : val :=
  default VNone (d !! k).
Definition dict_get_default (d : gmap string val) (k : string) (dflt : val) : val :=
  default dflt (d !! k).

(** A value stored under a key of [ml_predictions] or [rule_predictions]:
    normally a dict, but the outer handlers of [_run_ml_models] and
    [_run_rules] store a bare string under the key ['error']. *)
Inductive entry :=
| EDict (d : gmap string val)
| EStr (s : string).

(** ['error' in pred]: key membership on a dict, substring test on a str. *)
Definition contains_error (pred : entry) : bool :=
  match pred with
  | EDict d => bool_decide (is_Some (d !! "error"%string))
  | EStr s => str_contains "error" s
  end.

(** [pred.get(k, default)]; a [str] has no attribute [get]. *)
Definition entry_get (pred : entry) (k : string) (dflt : val) : result val :=
  match pred with
  | EDict d => ret (dict_get_default d k dflt)
  | EStr _ => raise AttributeError "'str' object has no attribute 'get'"
  end.

(** Insertion-ordered dictionaries. *)
Definition odict (V : Type) : Type := list (string * V).

(** [d[k] = v]: overwrite in place, or append a new key. *)
Fixpoint odict_set {V} (d : odict V) (k : string) (v : V) : odict V :=
  match d with
  | [] => [(k, v)]
  | (k', v') :: d' =>
      if String.eqb k' k then (k', v) :: d' else (k', v') :: odict_set d' k v
  end.

Fixpoint odict_get {V} (d : odict V) (k : string) : option V :=
  match d with
  | [] => None
  | (k', v') :: d' => if String.eqb k' k then Some v' else odict_get d' k
  end.

(** ** Library primitives that are not rational arithmetic

    [float(str)], [datetime.fromisoformat], [np.log1p], the square root
    inside [std], the [f'{x:,.2f}'] formatter and the metrics sink
    [utils.metrics.record_prediction_time] (not part of the sources at hand)
    are parameters of the development. *)
Class Externals := {
  float_of_str : string -> option Q;
  fromisoformat : string -> option datetime;
  log1p : Q -> Q;
  sqrt : Q -> Q;
  format_money : Q -> string;
  record_prediction_time : Q -> result unit
}.

(** [np.percentile(a, q)] with the default linear interpolation: the value
    at the virtual index [(n - 1) * q / 100] of the sorted sample.  On an
    empty sample numpy gives no usable number (it fails or yields NaN
    depending on the version); the model raises. *)
Definition np_percentile (a : list Q) (q : Q) : result Q :=
  if Qltb q 0 || Qltb 100 q then
    raise ValueError "Percentiles must be in the range [0, 100]"
  else
    match Qsort a with
    | [] => raise IndexError "percentile of an empty array"
    | (x0 :: _) as s =>
        let n := length s in
        let h := inject_Z (Z.of_nat (n - 1)) * q / 100 in
        let lo := Z.to_nat (Qfloor h) in
        let hi := Nat.min (lo + 1) (n - 1) in
        let gamma := h - inject_Z (Qfloor h) in
        let prev := nth lo s x0 in
        let next := nth hi s x0 in
        ret (prev + gamma * (next - prev))
    end.

(** * [backend/core/fraud_detector.py] *)

Module FraudDetector.
Section Engine.
Context `{Externals}.

(** [float(v)] *)
Definition py_float (v : val) : result Q :=
  match v with
  | VNum q => ret q
  | VBool b => ret (if b then 1 else 0)
  | VStr s =>
      match float_of_str s with
      | Some q => ret q
      | None => raise ValueError "could not convert string to float"
      end
  | VNone => raise TypeError "float() argument must be a string or a real number, not 'NoneType'"
  | VTime _ => raise TypeError "float() argument must be a string or a real number, not 'datetime.datetime'"
  end.

(** Element conversion inside [np.mean]: numbers and booleans only. *)
Definition np_number (v : val) : result Q :=
  match v with
  | VNum q => ret q
  | VBool b => ret (if b then 1 else 0)
  | _ => raise TypeError "unsupported operand type for np.mean"
  end.

Fixpoint np_numbers (l : list val) : result (list Q) :=
  match l with
  | [] => ret []
  | v :: l' => do q <- np_number v ;; do qs <- np_numbers l' ;; ret (q :: qs)
  end.

(** [np.mean(l)] on a non-empty Python list. *)
Definition np_mean (l : list val) : result Q :=
  do qs <- np_numbers l ;; ret (Qmean qs).

(** ** Configuration ([backend/config.py]) *)

Record Settings := { FRAUD_THRESHOLD : Q; CONFIDENCE_THRESHOLD : Q }.

Definition default_settings : Settings :=
  {| FRAUD_THRESHOLD := 0.7; CONFIDENCE_THRESHOLD := 0.8 |}.

(** ** [FraudDetector._ensemble_predictions] *)

Record prediction := {
  fraud_probability : Q;
  risk_score : Q;
  confidence_score : Q;
  is_fraud : bool;
  method : string
}.

(** The first loop: collect probabilities and confidences of the models
    whose prediction carries no ['error']. *)
Fixpoint ml_loop (items : odict entry) (ml_probs ml_confidences : list val)
  : result (list val * list val) :=
  match items with
  | [] => ret (ml_probs, ml_confidences)
  | (model_name, pred) :: rest =>
      if negb (contains_error pred) then
        do p <- entry_get pred "fraud_probability" (VNum 0) ;;
        do c <- entry_get pred "confidence_score" (VNum 0.5) ;;
        ml_loop rest (ml_probs ++ [p]) (ml_confidences ++ [c])
      else ml_loop rest ml_probs ml_confidences
  end.

(** The second loop: collect the risk scores of the triggered rules. *)
Fixpoint rule_loop (items : odict entry) (rule_scores : list val)
  : result (list val) :=
  match items with
  | [] => ret rule_scores
  | (rule_name, pred) :: rest =>
      if negb (contains_error pred) then
        do t <- entry_get pred "triggered" (VBool false) ;;
        if truthy t then
          do s <- entry_get pred "risk_score" (VNum 0) ;;
          rule_loop rest (rule_scores ++ [s])
        else rule_loop rest rule_scores
      else rule_loop rest rule_scores
  end.

(** The body of the [try] block. *)
Definition _ensemble_predictions_try (settings : Settings)
    (ml_predictions rule_predictions : odict entry) : result prediction :=
  do (ml_probs, ml_confidences) <- ml_loop ml_predictions [] [] ;;
  do rule_scores <- rule_loop rule_predictions [] ;;
  do (ml_fraud_prob, ml_confidence) <-
     match ml_probs with
     | _ :: _ =>
         do p <- np_mean ml_probs ;; do c <- np_mean ml_confidences ;; ret (p, c)
     | [] => ret (0.5, 0.5)
     end ;;
  do rule_risk_score <-
     match rule_scores with
     | _ :: _ => np_mean rule_scores
     | [] => ret 0.1
     end ;;
  let final_fraud_prob := 0.7 * ml_fraud_prob + 0.3 * rule_risk_score in
  let final_confidence := ml_confidence in
  let is_fraud := Qgtb final_fraud_prob (FRAUD_THRESHOLD settings) in
  ret {| fraud_probability := final_fraud_prob;
         risk_score := rule_risk_score;
         confidence_score := final_confidence;
         is_fraud := is_fraud;
         method := "ensemble" |}.

(** The verdict of the [except] branch. *)
Definition fallback_prediction : prediction :=
  {| fraud_probability := 0.5;
     risk_score := 0.5;
     confidence_score := 0.5;
     is_fraud := false;
     method := "fallback" |}.

Definition _ensemble_predictions (settings : Settings)
    (ml_predictions rule_predictions : odict entry) : prediction :=
  match _ensemble_predictions_try settings ml_predictions rule_predictions with
  | inr p => p
  | inl _ => fallback_prediction
  end.

(** ** The rule battery *)

Definition rule_result (triggered : bool) (risk : Q) (reason : string)
  : gmap string val :=
  {[ "triggered"%string := VBool triggered;
     "risk_score"%string := VNum risk;
     "reason"%string := VStr reason ]}.

Definition _amount_threshold_rule (transaction_data : gmap string val)
  : result (gmap string val) :=
  do amount <- py_float (dict_get_default transaction_data "amount" (VNum 0)) ;;
  if Qgtb amount 10000 then
    ret (rule_result true 0.8 ("High amount: $" +:+ format_money amount))
  else if Qgtb amount 5000 then
    ret (rule_result true 0.6 ("Unusual amount: $" +:+ format_money amount))
  else
    ret (rule_result false 0.1 "Amount within normal range").

Definition _velocity_rule (transaction_data : gmap string val)
  : result (gmap string val) :=
  ret (rule_result false 0.2 "Velocity check passed").

(** [abs(v)] *)
Definition py_abs (v : val) : result Q :=
  match v with
  | VNum q => ret (Qabs q)
  | VBool b => ret (if b then 1 else 0)
  | _ => raise TypeError "bad operand type for abs()"
  end.

Definition _location_rule (transaction_data : gmap string val)
  : result (gmap string val) :=
  let lat := dict_get transaction_data "latitude" in
  let lon := dict_get transaction_data "longitude" in
  if is_none lat || is_none lon then
    ret (rule_result true 0.7 "Missing location data")
  else
    do a <- py_abs lat ;;
    do invalid <- (if Qgtb a 90 then ret true
                   else do b <- py_abs lon ;; ret (Qgtb b 180)) ;;
    if (invalid : bool) then
      ret (rule_result true 0.9 "Invalid coordinates")
    else
      ret (rule_result false 0.1 "Location data valid").

(** The [isinstance(timestamp, str)] conversion shared by the time rule and
    the basic preprocessing; the result is the object whose attributes are
    read next. *)
Definition to_datetime (timestamp : val) : result val :=
  match timestamp with
  | VStr s =>
      match fromisoformat s with
      | Some t => ret (VTime t)
      | None => raise ValueError "Invalid isoformat string"
      end
  | v => ret v
  end.

(** Attribute access [dt.hour], [dt.weekday()], ... *)
Definition dt_attr (f : datetime -> Z) (dt : val) : result Z :=
  match dt with
  | VTime t => ret (f t)
  | _ => raise AttributeError "object has no such attribute"
  end.

Definition _time_pattern_rule (transaction_data : gmap string val)
  : result (gmap string val) :=
  let timestamp := dict_get transaction_data "timestamp" in
  if negb (truthy timestamp) then
    ret (rule_result true 0.6 "Missing timestamp")
  else
    do dt <- to_datetime timestamp ;;
    do hour <- dt_attr dt_hour dt ;;
    if (2 <=? hour)%Z && (hour <=? 5)%Z then
      ret (rule_result true 0.5 ("Unusual hour: " +:+ pretty hour +:+ ":00"))
    else
      ret (rule_result false 0.1 "Normal time pattern").

Definition high_risk_categories : list string :=
  ["gambling"; "cryptocurrency"; "adult"; "pharmacy"]%string.

Definition _merchant_risk_rule (transaction_data : gmap string val)
  : result (gmap string val) :=
  do merchant_category <-
     match dict_get_default transaction_data "merchant_category" (VStr "") with
     | VStr s => ret (str_lower s)
     | _ => raise AttributeError "object has no attribute 'lower'"
     end ;;
  if existsb (fun cat => str_contains cat merchant_category) high_risk_categories then
    ret (rule_result true 0.7
           ("High-risk merchant category: " +:+ merchant_category))
  else
    ret (rule_result false 0.1 "Standard merchant category").

(** A rule with its [__name__]. *)
Definition rule : Type := gmap string val -> result (gmap string val).

(** [_load_rules] *)
Definition _load_rules : list (string * rule) :=
  [ ("_amount_threshold_rule"%string, _amount_threshold_rule);
    ("_velocity_rule"%string, _velocity_rule);
    ("_location_rule"%string, _location_rule);
    ("_time_pattern_rule"%string, _time_pattern_rule);
    ("_merchant_risk_rule"%string, _merchant_risk_rule) ].

(** ** [_run_rules] *)

(** The entry recorded for a rule that raised. *)
Definition error_entry (e : exn) : entry :=
  EDict {[ "error"%string := VStr (str_exn e) ]}.

(** One iteration of the [for rule in self.rules] loop, with its inner
    [try ... except]. *)
Definition run_rule (transaction_data : gmap string val)
    (rule_results : odict entry) (r : string * rule) : odict entry :=
  let (rule_name, rule) := r in
  match rule transaction_data with
  | inr result => odict_set rule_results rule_name (EDict result)
  | inl e => odict_set rule_results rule_name (error_entry e)
  end.

Definition _run_rules (rules : list (string * rule))
    (transaction_data : gmap string val) : odict entry :=
  fold_left (run_rule transaction_data) rules [].

(** ** Models and [_run_ml_models]

    A model is an object loaded from disk; the engine only asks whether it
    has [predict_proba], and otherwise calls [predict].  Both take and return
    arrays and may raise.  The thread pool and the event loop only schedule
    these calls; a prediction is a function of the model and the data.  What
    a model changes in itself while it predicts (an [AutoencoderModel] refits
    its scaler) is not represented. *)

Inductive ndarray :=
| Arr1 (xs : list Q)
| Arr2 (rows : list (list Q)).

Record model := {
  predict_proba : option (ndarray -> result ndarray);
  predict : option (ndarray -> result ndarray)
}.

(** The result of indexing an array once. *)
Inductive item :=
| IScalar (q : Q)
| IRow (xs : list Q).

Definition list_index (xs : list Q) (i : nat) : result Q :=
  match nth_error xs i with
  | Some q => ret q
  | None => raise IndexError "index out of bounds"
  end.

(** [a[0]] *)
Definition nd_first (a : ndarray) : result item :=
  match a with
  | Arr1 xs => do q <- list_index xs 0 ;; ret (IScalar q)
  | Arr2 rows =>
      match rows with
      | r :: _ => ret (IRow r)
      | [] => raise IndexError "index 0 is out of bounds"
      end
  end.

(** [len(x)] *)
Definition item_len (x : item) : result nat :=
  match x with
  | IRow xs => ret (length xs)
  | IScalar _ => raise TypeError "object of type 'numpy.float64' has no len()"
  end.

(** [x[i]] *)
Definition item_index (x : item) (i : nat) : result Q :=
  match x with
  | IRow xs => list_index xs i
  | IScalar _ => raise IndexError "invalid index to scalar variable"
  end.

(** [float(x)] on an indexed array: a scalar, or an array of one element. *)
Definition item_float (x : item) : result Q :=
  match x with
  | IScalar q => ret q
  | IRow [q] => ret q
  | IRow _ => raise TypeError "only length-1 arrays can be converted to Python scalars"
  end.

(** The dict returned for a successful prediction.  Its third key,
    ['prediction'] (the raw output as a list), is never read by the engine
    and is left out. *)
Definition ml_result (fraud_prob confidence : Q) : gmap string val :=
  {[ "fraud_probability"%string := VNum fraud_prob;
     "confidence_score"%string := VNum confidence ]}.

Definition _predict_with_model_try (model_name : string) (m : model)
    (data : ndarray) : result (gmap string val) :=
  do f <- match predict_proba m, predict m with
          | Some f, _ => ret f
          | None, Some f => ret f
          | None, None => raise AttributeError "object has no attribute 'predict'"
          end ;;
  do prediction <- f data ;;
  match predict_proba m with
  | Some _ =>
      do first <- nd_first prediction ;;
      do n <- item_len first ;;
      do fraud_prob <- (if (1 <? n)%nat then item_index first 1
                        else item_index first 0) ;;
      ret (ml_result fraud_prob fraud_prob)
  | None =>
      do first <- nd_first prediction ;;
      do p <- item_float first ;;
      ret (ml_result p 0.8)
  end.

Definition _predict_with_model (model_name : string) (m : model)
    (data : ndarray) : gmap string val :=
  match _predict_with_model_try model_name m data with
  | inr d => d
  | inl e => {[ "error"%string := VStr (str_exn e) ]}
  end.

(** [_predict_with_model] never raises, so every gathered result is stored
    under the model's name. *)
Definition run_model (data : ndarray) (predictions : odict entry)
    (nm : string * model) : odict entry :=
  let (model_name, m) := nm in
  odict_set predictions model_name (EDict (_predict_with_model model_name m data)).

Definition _run_ml_models (models : odict model) (processed_data : ndarray)
  : odict entry :=
  fold_left (run_model processed_data) models [].

(** ** Preprocessing *)

Definition _basic_preprocessing (transaction_data : gmap string val)
  : result ndarray :=
  do amount <- py_float (dict_get_default transaction_data "amount" (VNum 0)) ;;
  let features := [amount; if Qgtb amount 0 then log1p amount else 0] in
  let timestamp := dict_get transaction_data "timestamp" in
  do features <-
     (if truthy timestamp then
        do dt <- to_datetime timestamp ;;
        do hour <- dt_attr dt_hour dt ;;
        do weekday <- dt_attr dt_weekday dt ;;
        do month <- dt_attr dt_month dt ;;
        do day <- dt_attr dt_day dt ;;
        ret (features ++ [inject_Z hour; inject_Z weekday;
                          inject_Z month; inject_Z day])
      else ret (features ++ [0; 0; 0; 0])) ;;
  do lat <- py_float (dict_get_default transaction_data "latitude" (VNum 0)) ;;
  do lon <- py_float (dict_get_default transaction_data "longitude" (VNum 0)) ;;
  let features := features ++ [lat; lon] in
  let card_type := dict_get_default transaction_data "card_type" (VStr "unknown") in
  let merchant_category :=
    dict_get_default transaction_data "merchant_category" (VStr "unknown") in
  let flag (b : bool) : Q := if b then 1 else 0 in
  ret (Arr2 [features ++ [flag (val_eq_str card_type "credit");
                          flag (val_eq_str card_type "debit");
                          flag (val_eq_str merchant_category "online");
                          flag (val_eq_str merchant_category "retail")]]).

(** [self.preprocessor] is an object with a [transform] method, or [None]. *)
Definition preprocessor : Type := gmap string val -> result ndarray.

Definition _preprocess_transaction (pre : option preprocessor)
    (transaction_data : gmap string val) : result ndarray :=
  match pre with
  | Some transform =>
      match transform transaction_data with
      | inr a => ret a
      | inl _ => _basic_preprocessing transaction_data
      end
  | None => _basic_preprocessing transaction_data
  end.

(** ** Risk metrics *)

Definition _get_risk_level (risk_score : Q) : string :=
  if Qgeb risk_score 0.8 then "critical"
  else if Qgeb risk_score 0.6 then "high"
  else if Qgeb risk_score 0.4 then "medium"
  else "low".

Definition _get_recommended_action (risk_score : Q) : string :=
  if Qgeb risk_score 0.8 then "block"
  else if Qgeb risk_score 0.6 then "review"
  else if Qgeb risk_score 0.4 then "monitor"
  else "approve".

Record risk_metrics := {
  composite_risk_score : Q;
  risk_factors : list string;
  risk_level : string;
  recommended_action : string
}.

(** [min(a, b)]: the first argument unless the second is smaller. *)
Definition py_min (a b : Q) : Q := if Qltb b a then b else a.

Definition _calculate_risk_metrics_try (p : prediction)
    (transaction_data : gmap string val) : result risk_metrics :=
  do amount <- py_float (dict_get_default transaction_data "amount" (VNum 0)) ;;
  let risk_factors := [] in
  let risk_factors :=
    if Qgtb amount 10000 then risk_factors ++ ["high_amount"%string]
    else risk_factors in
  let risk_factors :=
    if is_none (dict_get transaction_data "latitude")
    then risk_factors ++ ["missing_location"%string] else risk_factors in
  let risk_factors :=
    if is_none (dict_get transaction_data "ip_address")
    then risk_factors ++ ["missing_ip"%string] else risk_factors in
  let base_risk := fraud_probability p in
  let factor_multiplier := 1 + inject_Z (Z.of_nat (length risk_factors)) * 0.1 in
  let composite_risk := py_min 1 (base_risk * factor_multiplier) in
  ret {| composite_risk_score := composite_risk;
         risk_factors := risk_factors;
         risk_level := _get_risk_level composite_risk;
         recommended_action := _get_recommended_action composite_risk |}.

Definition _calculate_risk_metrics (p : prediction)
    (transaction_data : gmap string val) : risk_metrics :=
  match _calculate_risk_metrics_try p transaction_data with
  | inr m => m
  | inl _ =>
      {| composite_risk_score := 0.5;
         risk_factors := ["calculation_error"%string];
         risk_level := "medium";
         recommended_action := "review" |}
  end.

(** ** The detector and [detect_fraud] *)

Record detector := {
  models : odict model;
  preprocessor_of : option preprocessor;
  rules : list (string * rule);
  prediction_count : Z;
  avg_prediction_time : Q
}.

(** [__init__], given what [_load_models] and [_load_preprocessor] found. *)
Definition init (ms : odict model) (pre : option preprocessor) : detector :=
  {| models := ms;
     preprocessor_of := pre;
     rules := _load_rules;
     prediction_count := 0;
     avg_prediction_time := 0 |}.

(** [_update_performance_metrics], with the arithmetic evaluated exactly;
    [FraudDetectorBinary64] evaluates the same update in binary64, where it
    rounds. *)
Definition _update_performance_metrics (self : detector) (prediction_time : Q)
  : detector :=
  let count := (prediction_count self + 1)%Z in
  {| models := models self;
     preprocessor_of := preprocessor_of self;
     rules := rules self;
     prediction_count := count;
     avg_prediction_time :=
       (avg_prediction_time self * inject_Z (count - 1) + prediction_time)
       / inject_Z count |}.

(** What the clock contributes to one call: the elapsed milliseconds between
    the two [datetime.now()] readings, and the final ISO timestamp. *)
Record clock := { elapsed_ms : Q; now_iso : string }.

Record detection := {
  r_transaction_id : val;
  r_fraud_probability : Q;
  r_risk_score : Q;
  r_confidence_score : Q;
  r_is_fraud : bool;
  r_detection_method : string;
  r_ml_predictions : odict entry;
  r_rule_predictions : odict entry;
  r_risk_metrics : risk_metrics;
  r_prediction_time_ms : Q;
  r_timestamp : string
}.

(** [detect_fraud]: the outcome of the call and the detector afterwards.  An
    exception is logged and re-raised; the counters are updated only when
    the call reaches [_update_performance_metrics]. *)
Definition detect_fraud (settings : Settings) (self : detector)
    (transaction_data : gmap string val) (clk : clock)
  : result detection * detector :=
  match _preprocess_transaction (preprocessor_of self) transaction_data with
  | inl e => (inl e, self)
  | inr processed_data =>
      let ml_predictions := _run_ml_models (models self) processed_data in
      let rule_predictions := _run_rules (rules self) transaction_data in
      let final_prediction :=
        _ensemble_predictions settings ml_predictions rule_predictions in
      let risk := _calculate_risk_metrics final_prediction transaction_data in
      let prediction_time := elapsed_ms clk in
      match record_prediction_time prediction_time with
      | inl e => (inl e, self)
      | inr _ =>
          let self' := _update_performance_metrics self prediction_time in
          (inr {| r_transaction_id := dict_get transaction_data "transaction_id";
                  r_fraud_probability := fraud_probability final_prediction;
                  r_risk_score := risk_score final_prediction;
                  r_confidence_score := confidence_score final_prediction;
                  r_is_fraud := is_fraud final_prediction;
                  r_detection_method := method final_prediction;
                  r_ml_predictions := ml_predictions;
                  r_rule_predictions := rule_predictions;
                  r_risk_metrics := risk;
                  r_prediction_time_ms := prediction_time;
                  r_timestamp := now_iso clk |},
           self')
      end
  end.

(** A run of the detector over a sequence of calls. *)
Fixpoint run_calls (settings : Settings) (self : detector)
    (calls : list (gmap string val * clock)) : list (result detection) * detector :=
  match calls with
  | [] => ([], self)
  | (txn, clk) :: rest =>
      let (r, self') := detect_fraud settings self txn clk in
      let (rs, self'') := run_calls settings self' rest in
      (r :: rs, self'')
  end.

(** ** Loading and reloading models

    [disk] is what [os.path.exists] and [joblib.load] answer for a path:
    [None] when there is no such file, an object when the file loads, an
    exception when loading it raises. *)

Definition disk : Type := string -> option (result model).

Fixpoint ends_with_slash (s : string) : bool :=
  match s with
  | EmptyString => false
  | String c EmptyString => Ascii.eqb c "/"
  | String _ s' => ends_with_slash s'
  end.

(** [os.path.join(a, b)] on POSIX paths. *)
Definition os_path_join (a b : string) : string :=
  if String.prefix "/" b then b
  else if String.eqb a "" || ends_with_slash a then a +:+ b
  else a +:+ "/" +:+ b.

(** One [if os.path.exists(path): self.models[name] = joblib.load(path)]:
    the dictionary afterwards, and the exception if loading raised. *)
Definition load_if_exists (fs : disk) (model_path name file : string)
    (ms : odict model) : odict model * option exn :=
  match fs (os_path_join model_path file) with
  | None => (ms, None)
  | Some (inr m) => (odict_set ms name m, None)
  | Some (inl e) => (ms, Some e)
  end.

(** [_load_models] updates [self.models] in place.  The handler installs
    the default models, [AutoencoderModel()] and [LSTMModel()], which are
    given. *)
Definition _load_models (fs : disk) (model_path : string)
    (default_autoencoder default_lstm : model) (ms : odict model)
  : odict model :=
  let handler (ms : odict model) :=
    odict_set (odict_set ms "autoencoder" default_autoencoder)
      "lstm" default_lstm in
  let (ms1, e1) := load_if_exists fs model_path "autoencoder" "autoencoder.joblib" ms in
  match e1 with
  | Some _ => handler ms1
  | None =>
      let (ms2, e2) := load_if_exists fs model_path "lstm" "lstm.joblib" ms1 in
      match e2 with
      | Some _ => handler ms2
      | None =>
          let (ms3, e3) :=
            load_if_exists fs model_path "ensemble" "ensemble.joblib" ms2 in
          match e3 with
          | Some _ => handler ms3
          | None => ms3
          end
      end
  end.

(** [reload_models]: [_load_models] on the models already held. *)
Definition reload_models (fs : disk) (model_path : string)
    (default_autoencoder default_lstm : model) (self : detector) : detector :=
  {| models := _load_models fs model_path default_autoencoder default_lstm
                 (models self);
     preprocessor_of := preprocessor_of self;
     rules := rules self;
     prediction_count := prediction_count self;
     avg_prediction_time := avg_prediction_time self |}.

End Engine.
End FraudDetector.

(** ** The performance counters in binary64

    [avg_prediction_time] is a Python [float].  The counters of
    [FraudDetector] evaluate the update of [_update_performance_metrics]
    exactly, over the rationals; this module evaluates the same expression
    in IEEE 754 binary64, as the interpreter does.  [prediction_count] is a
    Python [int]; where it meets a float it is converted to one, without
    rounding as long as it is below 2^53. *)

From Stdlib Require Floats.

Module FraudDetectorBinary64.
Import Floats.

Record counters := {
  prediction_count : Z;
  avg_prediction_time : float
}.

(** [__init__]: [prediction_count = 0] and [avg_prediction_time = 0.0]. *)
Definition init : counters :=
  {| prediction_count := 0; avg_prediction_time := 0%float |}.

Definition float_of_int (n : Z) : float := of_uint63 (Uint63.of_Z n).

Definition _update_performance_metrics (self : counters)
    (prediction_time : float) : counters :=
  let count := (prediction_count self + 1)%Z in
  {| prediction_count := count;
     avg_prediction_time :=
       ((avg_prediction_time self * float_of_int (count - 1) + prediction_time)
        / float_of_int count)%float |}.

(** The counters of a fresh detector after the successful calls that
    recorded the given prediction times, in order. *)
Definition run_updates (times : list float) : counters :=
  fold_left _update_performance_metrics times init.

End FraudDetectorBinary64.

(** * [backend/models/autoencoder.py] *)

Module AutoencoderModel.

Definition matrix : Type := list (list Q).

(** The scaler and the network are objects of the ML libraries; the model
    keeps them as functions that may raise. *)
Record model := {
  scaler_fit_transform : matrix -> result matrix;
  autoencoder_predict : matrix -> result matrix;
  threshold : option Q
}.

Definition preprocess_data (self : model) (data : matrix) : matrix :=
  match scaler_fit_transform self data with
  | inr data_scaled => data_scaled
  | inl _ => data
  end.

Definition predict (self : model) (X : matrix) : matrix :=
  let X_processed := preprocess_data self X in
  match autoencoder_predict self X_processed with
  | inr predictions => predictions
  | inl _ => X_processed
  end.

(** Elementwise [a - b] on rows, with numpy's broadcasting of a length-one
    operand. *)
Definition sub_row (a b : list Q) : result (list Q) :=
  if (length a =? length b)%nat then ret (zip_with Qminus a b)
  else match a, b with
       | [x], _ => ret (map (fun y => x - y) b)
       | _, [y] => ret (map (fun x => x - y) a)
       | _, _ => raise ValueError "operands could not be broadcast together"
       end.

Fixpoint sub_rows (A B : matrix) : result matrix :=
  match A, B with
  | [], [] => ret []
  | a :: A', b :: B' =>
      do r <- sub_row a b ;; do R <- sub_rows A' B' ;; ret (r :: R)
  | _, _ => raise ValueError "operands could not be broadcast together"
  end.

(** [X - X_reconstructed] *)
Definition matrix_sub (A B : matrix) : result matrix :=
  if (length A =? length B)%nat then sub_rows A B
  else match A, B with
       | [a], _ => sub_rows (map (fun _ => a) B) B
       | _, [b] => sub_rows A (map (fun _ => b) A)
       | _, _ => raise ValueError "operands could not be broadcast together"
       end.

(** [np.mean(np.square(X - X_reconstructed), axis=1)] *)
Definition reconstruction_errors (X X_reconstructed : matrix) : result (list Q) :=
  do D <- matrix_sub X X_reconstructed ;;
  ret (map (fun r => Qmean (map (fun d => d * d) r)) D).

Definition set_threshold (self : model) (t : Q) : model :=
  {| scaler_fit_transform := scaler_fit_transform self;
     autoencoder_predict := autoencoder_predict self;
     threshold := Some t |}.

(** [_calculate_threshold], called by [fit] on the training part of the
    data. *)
Definition _calculate_threshold (self : model) (X : matrix) : model :=
  let X_reconstructed := predict self X in
  match (do errs <- reconstruction_errors X X_reconstructed ;;
         np_percentile errs 95) with
  | inr t => set_threshold self t
  | inl _ => set_threshold self 0.1
  end.

(** ** Scoring with the threshold *)

(** [detect_anomalies]: the reconstruction errors and, for each, whether it
    exceeds the threshold.  Comparing with a threshold that is still [None]
    raises; the handler answers zeros and [False] for every sample. *)
Definition detect_anomalies (self : model) (X : matrix) : list Q * list bool :=
  match (do errs <- reconstruction_errors X (predict self X) ;;
         match threshold self with
         | Some t => ret (errs, map (fun e => Qgtb e t) errs)
         | None => raise TypeError "'>' not supported between 'float' and 'NoneType'"
         end) with
  | inr r => r
  | inl _ => (repeat 0 (length X), repeat false (length X))
  end.

(** [np.clip(x, 0, 1)] *)
Definition np_clip01 (x : Q) : Q :=
  if Qltb x 0 then 0 else if Qltb 1 x then 1 else x.

(** [get_anomaly_score]: errors divided by the threshold and clipped to
    [0, 1] when the threshold is set and not zero, the raw errors
    otherwise. *)
Definition get_anomaly_score (self : model) (X : matrix) : list Q :=
  match reconstruction_errors X (predict self X) with
  | inr errs =>
      match threshold self with
      | Some t =>
          if negb (Qeq_bool t 0) then map (fun e => np_clip01 (e / t)) errs
          else errs
      | None => errs
      end
  | inl _ => repeat 0 (length X)
  end.

End AutoencoderModel.

(** * [backend/models/preprocessor.py] *)

Module TransactionPreprocessor.
Section Preprocessor.
Context `{Externals}.

(** ** Data frames

    A frame is a list of records.  [user_id], [timestamp] (seconds since the
    epoch) and [amount] are present in every record; [merchant], [category]
    and [location] may be missing ([None] stands for NaN).  The [location]
    column as a whole may be absent from a frame. *)

Record row := {
  user_id : string;
  timestamp : Z;
  amount : Q;
  merchant : option string;
  category : option string;
  location : option string
}.

Record frame := { has_location : bool; rows : list row }.

(** The per-user aggregates of [groupby('user_id').agg(...)], after
    [fillna(0)]. *)
Record user_stats := {
  amount_mean : Q;
  amount_std : Q;
  amount_min : Q;
  amount_max : Q;
  amount_count : Q;
  merchant_nunique : Q;
  category_nunique : Q
}.

(** A record of the frame returned by [create_features]. *)
Record features := {
  raw : row;
  hour : Z;
  day_of_week : Z;
  is_weekend : Q;
  is_night : Q;
  amount_log : Q;
  amount_rounded : Q;
  stats : user_stats;
  merchant_frequency : option Q;
  merchant_rare : Q;
  time_since_last : Q;
  high_amount : Q;
  velocity_risk : Q
}.

Definition flag (b : bool) : Q := if b then 1 else 0.

Definition Qlist_min (x0 : Q) (l : list Q) : Q :=
  fold_left (fun m x => if Qltb x m then x else m) l x0.
Definition Qlist_max (x0 : Q) (l : list Q) : Q :=
  fold_left (fun m x => if Qltb m x then x else m) l x0.

(** pandas [std]: the sample standard deviation; NaN on fewer than two
    values, which [fillna(0)] turns into 0. *)
Definition sample_std (l : list Q) : Q :=
  match l with
  | [] | [_] => 0
  | _ =>
      let m := Qmean l in
      sqrt (Qsum (map (fun x => (x - m) * (x - m)) l)
            / inject_Z (Z.of_nat (length l - 1)))
  end.

Definition count_distinct (l : list string) : Q :=
  inject_Z (Z.of_nat (length (nodup string_dec l))).

(** The group of a user in a frame. *)
Definition group_of (rs : list row) (u : string) : list row :=
  List.filter (fun r => String.eqb (user_id r) u) rs.

Definition stats_of (rs : list row) (u : string) : user_stats :=
  let g := group_of rs u in
  let amounts := map amount g in
  {| amount_mean := Qmean amounts;
     amount_std := sample_std amounts;
     amount_min := Qlist_min (hd 0 amounts) amounts;
     amount_max := Qlist_max (hd 0 amounts) amounts;
     amount_count := inject_Z (Z.of_nat (length amounts));
     merchant_nunique := count_distinct (omap merchant g);
     category_nunique := count_distinct (omap category g) |}.

(** [df['merchant'].map(df['merchant'].value_counts())] *)
Definition merchant_count (rs : list row) (m : option string) : option Q :=
  match m with
  | None => None
  | Some s =>
      Some (inject_Z (Z.of_nat (length
        (List.filter (fun r => bool_decide (merchant r = Some s)) rs))))
  end.

Definition is_integer (a : Q) : bool :=
  (Qnum a mod Zpos (Qden a) =? 0)%Z.

(** The columns computed before the sort; [time_since_last] and the two risk
    indicators are filled in afterwards.  [amount_log] is a number for
    amounts above -1; [np.log1p] gives -inf at -1 and NaN below, which are
    not represented. *)
Definition features_of (rs : list row) (r : row) : features :=
  let h := ((timestamp r mod 86400) / 3600)%Z in
  let dow := ((timestamp r / 86400 + 3) mod 7)%Z in
  let mf := merchant_count rs (merchant r) in
  {| raw := r;
     hour := h;
     day_of_week := dow;
     is_weekend := flag ((dow =? 5)%Z || (dow =? 6)%Z);
     is_night := flag ((22 <=? h)%Z || (h <=? 6)%Z);
     amount_log := log1p (amount r);
     amount_rounded := flag (is_integer (amount r));
     stats := stats_of rs (user_id r);
     merchant_frequency := mf;
     merchant_rare := flag (match mf with Some c => Qltb c 5 | None => false end);
     time_since_last := 0;
     high_amount := 0;
     velocity_risk := 0 |}.

(** [sort_values(['user_id', 'timestamp'])]: a stable sort. *)
Definition key_le (a b : features) : bool :=
  match String.compare (user_id (raw a)) (user_id (raw b)) with
  | Lt => true
  | Gt => false
  | Eq => (timestamp (raw a) <=? timestamp (raw b))%Z
  end.

Fixpoint insert_by_key (x : features) (l : list features) : list features :=
  match l with
  | [] => [x]
  | y :: l' => if key_le x y then x :: l else y :: insert_by_key x l'
  end.

Definition sort_by_key (l : list features) : list features :=
  fold_right insert_by_key [] l.

Definition with_velocity (f : features) (tsl : Q) : features :=
  {| raw := raw f;
     hour := hour f;
     day_of_week := day_of_week f;
     is_weekend := is_weekend f;
     is_night := is_night f;
     amount_log := amount_log f;
     amount_rounded := amount_rounded f;
     stats := stats f;
     merchant_frequency := merchant_frequency f;
     merchant_rare := merchant_rare f;
     time_since_last := tsl;
     high_amount :=
       flag (Qgtb (amount (raw f))
               (amount_mean (stats f) + 2 * amount_std (stats f)));
     velocity_risk := flag (Qltb tsl 1) |}.

(** [groupby('user_id')['timestamp'].diff()] in hours on the sorted frame,
    with the default of 24 hours for the first record of a user. *)
Fixpoint add_velocity (prev : option features) (l : list features) : list features :=
  match l with
  | [] => []
  | f :: l' =>
      let tsl :=
        match prev with
        | Some p =>
            if String.eqb (user_id (raw p)) (user_id (raw f))
            then inject_Z (timestamp (raw f) - timestamp (raw p)) / 3600
            else 24
        | None => 24
        end in
      with_velocity f tsl :: add_velocity (Some f) l'
  end.

Definition create_features (df : frame) : list features :=
  add_velocity None (sort_by_key (map (features_of (rows df)) (rows df))).

(** ** Fitted state *)

(** [RobustScaler]: median and interquartile range of one column.  A
    column is a list of finite numbers; the scaler refuses an infinity,
    which no column of this embedding holds. *)
Record scaler := { center : Q; scale : Q }.

Definition robust_fit (col : list Q) : result scaler :=
  match col with
  | [] => raise ValueError "Found array with 0 sample(s)"
  | _ =>
      do med <- np_percentile col 50 ;;
      do q25 <- np_percentile col 25 ;;
      do q75 <- np_percentile col 75 ;;
      let iqr := q75 - q25 in
      ret {| center := med; scale := if Qeq_bool iqr 0 then 1 else iqr |}
  end.

Definition robust_transform (s : scaler) (col : list Q) : result (list Q) :=
  match col with
  | [] => raise ValueError "Found array with 0 sample(s)"
  | _ => ret (map (fun x => (x - center s) / scale s) col)
  end.

(** [LabelEncoder]: the sorted distinct labels; a label is encoded as its
    position. *)
Fixpoint insert_label (x : string) (l : list string) : list string :=
  match l with
  | [] => [x]
  | y :: l' => if String.leb x y then x :: l else y :: insert_label x l'
  end.

Definition label_fit (col : list string) : list string :=
  fold_right insert_label [] (nodup string_dec col).

Fixpoint index_of (x : string) (l : list string) (i : nat) : option nat :=
  match l with
  | [] => None
  | y :: l' => if String.eqb y x then Some i else index_of x l' (S i)
  end.

(** [encoder.transform([v])[0]] *)
Definition label_transform (classes : list string) (v : string) : result Q :=
  match index_of v classes 0 with
  | Some i => ret (inject_Z (Z.of_nat i))
  | None => raise ValueError "y contains previously unseen labels"
  end.

Record state := {
  scalers : odict scaler;
  encoders : odict (list string);
  feature_names : list string;
  is_fitted : bool
}.

(** [__init__] *)
Definition new : state :=
  {| scalers := []; encoders := []; feature_names := []; is_fitted := false |}.

Definition numerical_features : list string :=
  ["amount"; "amount_log"; "hour"; "day_of_week";
   "amount_mean"; "amount_std"; "amount_min"; "amount_max";
   "merchant_frequency"; "time_since_last"]%string.

Definition categorical_features : list string :=
  ["merchant"; "category"; "location"]%string.

Definition binary_features : list string :=
  ["is_weekend"; "is_night"; "amount_rounded"; "merchant_rare";
   "high_amount"; "velocity_risk"]%string.

(** The numeric columns of the frame of features, by name; [None] in a cell
    is NaN. *)
Definition numeric_columns : odict (features -> option Q) :=
  [ ("amount"%string, fun f => Some (amount (raw f)));
    ("amount_log"%string, fun f => Some (amount_log f));
    ("hour"%string, fun f => Some (inject_Z (hour f)));
    ("day_of_week"%string, fun f => Some (inject_Z (day_of_week f)));
    ("amount_mean"%string, fun f => Some (amount_mean (stats f)));
    ("amount_std"%string, fun f => Some (amount_std (stats f)));
    ("amount_min"%string, fun f => Some (amount_min (stats f)));
    ("amount_max"%string, fun f => Some (amount_max (stats f)));
    ("amount_count"%string, fun f => Some (amount_count (stats f)));
    ("merchant_nunique"%string, fun f => Some (merchant_nunique (stats f)));
    ("category_nunique"%string, fun f => Some (category_nunique (stats f)));
    ("merchant_frequency"%string, merchant_frequency);
    ("time_since_last"%string, fun f => Some (time_since_last f));
    ("is_weekend"%string, fun f => Some (is_weekend f));
    ("is_night"%string, fun f => Some (is_night f));
    ("amount_rounded"%string, fun f => Some (amount_rounded f));
    ("merchant_rare"%string, fun f => Some (merchant_rare f));
    ("high_amount"%string, fun f => Some (high_amount f));
    ("velocity_risk"%string, fun f => Some (velocity_risk f)) ].

(** The string columns, by name; [location] only when the frame has it. *)
Definition string_column (df : frame) (name : string)
  : option (features -> option string) :=
  if String.eqb name "merchant" then Some (fun f => merchant (raw f))
  else if String.eqb name "category" then Some (fun f => category (raw f))
  else if String.eqb name "location" then
    if has_location df then Some (fun f => location (raw f)) else None
  else None.

(** [df_features[[feature]].fillna(0)] *)
Definition column_fillna0 (get : features -> option Q) (fs : list features) : list Q :=
  map (fun f => default 0 (get f)) fs.

(** [df_features[feature].fillna('unknown').astype(str)] *)
Definition column_fillna_unknown (get : features -> option string)
    (fs : list features) : list string :=
  map (fun f => default "unknown"%string (get f)) fs.

Fixpoint fit_scalers (fs : list features) (names : list string)
    (acc : odict scaler) : result (odict scaler) :=
  match names with
  | [] => ret acc
  | feature :: rest =>
      match odict_get numeric_columns feature with
      | Some get =>
          do s <- robust_fit (column_fillna0 get fs) ;;
          fit_scalers fs rest (odict_set acc feature s)
      | None => fit_scalers fs rest acc
      end
  end.

Fixpoint fit_encoders (df : frame) (fs : list features) (names : list string)
    (acc : odict (list string)) : odict (list string) :=
  match names with
  | [] => acc
  | feature :: rest =>
      match string_column df feature with
      | Some get =>
          fit_encoders df fs rest
            (odict_set acc feature (label_fit (column_fillna_unknown get fs)))
      | None => fit_encoders df fs rest acc
      end
  end.

Definition fit (self : state) (df : frame) : result state :=
  let df_features := create_features df in
  do scalers' <- fit_scalers df_features numerical_features (scalers self) ;;
  let encoders' := fit_encoders df df_features categorical_features (encoders self) in
  ret {| scalers := scalers';
         encoders := encoders';
         feature_names :=
           numerical_features
           ++ map (fun feat => feat +:+ "_encoded") categorical_features
           ++ binary_features;
         is_fitted := true |}.

(** ** [transform] *)

Fixpoint transform_numerical (fs : list features) (scs : odict scaler)
  : result (list (list Q)) :=
  match scs with
  | [] => ret []
  | (feature, sc) :: rest =>
      match odict_get numeric_columns feature with
      | Some get =>
          do scaled <- robust_transform sc (column_fillna0 get fs) ;;
          do cols <- transform_numerical fs rest ;;
          ret (scaled :: cols)
      | None => transform_numerical fs rest
      end
  end.

(** The inner loop over the values of one categorical column: an unseen
    value is retried as ['unknown'], inside the [except ValueError]
    handler. *)
Fixpoint encode_values (classes : list string) (vals : list string)
  : result (list Q) :=
  match vals with
  | [] => ret []
  | v :: rest =>
      do code <- match label_transform classes v with
                 | inr c => ret c
                 | inl _ => label_transform classes "unknown"
                 end ;;
      do codes <- encode_values classes rest ;;
      ret (code :: codes)
  end.

Fixpoint transform_categorical (df : frame) (fs : list features)
    (encs : odict (list string)) : result (list (list Q)) :=
  match encs with
  | [] => ret []
  | (feature, classes) :: rest =>
      match string_column df feature with
      | Some get =>
          do encoded <- encode_values classes (column_fillna_unknown get fs) ;;
          do cols <- transform_categorical df fs rest ;;
          ret (encoded :: cols)
      | None => transform_categorical df fs rest
      end
  end.

Definition transform_binary (fs : list features) : list (list Q) :=
  omap (fun feature =>
          match odict_get numeric_columns feature with
          | Some get => Some (column_fillna0 get fs)
          | None => None
          end) binary_features.

(** [np.column_stack]: one row per record. *)
Definition column_stack (n : nat) (cols : list (list Q)) : list (list Q) :=
  map (fun i => map (fun c => nth i c 0) cols) (seq 0 n).

Definition transform (self : state) (df : frame) : result (list (list Q)) :=
  if negb (is_fitted self) then
    raise ValueError "Preprocessor must be fitted before transforming"
  else
    let df_features := create_features df in
    do numerical <- transform_numerical df_features (scalers self) ;;
    do categorical <- transform_categorical df df_features (encoders self) ;;
    let binary := transform_binary df_features in
    ret (column_stack (length df_features) (numerical ++ categorical ++ binary)).

Definition fit_transform (self : state) (df : frame) : result (list (list Q)) :=
  do self' <- fit self df ;; transform self' df.

End Preprocessor.
End TransactionPreprocessor.

(** * The specification's vocabulary

    Definitions that follow the words of the specification, to be compared
    with the functions above. *)

Module Spec.
Import FraudDetector.

(** ** Ensemble combination *)

(** A numeric or boolean field of a prediction. *)
Definition field_num (p : entry) (k : string) : option Q :=
  match p with
  | EDict d => match d !! k with Some (VNum q) => Some q | _ => None end
  | EStr _ => None
  end.

Definition field_bool (p : entry) (k : string) : option bool :=
  match p with
  | EDict d => match d !! k with Some (VBool b) => Some b | _ => None end
  | EStr _ => None
  end.

(** The [key] of every prediction not marked error. *)
Definition successful (key : string) (ml : odict entry) : list Q :=
  omap (fun kv => if contains_error kv.2 then None else field_num kv.2 key) ml.

(** The risk scores of the triggered rule results not marked error. *)
Definition triggered_scores (rp : odict entry) : list Q :=
  omap (fun kv =>
          if contains_error kv.2 then None
          else match field_bool kv.2 "triggered" with
               | Some true => field_num kv.2 "risk_score"
               | _ => None
               end) rp.

Definition arithmetic_mean (l : list Q) : Q :=
  fold_right Qplus 0 l / inject_Z (Z.of_nat (length l)).

(** "Arithmetic mean of fraud_probability over model predictions not marked
    error (0.5 if none succeeded)". *)
Definition ml_aggregate (ml : odict entry) : Q :=
  match successful "fraud_probability" ml with
  | [] => 0.5
  | ps => arithmetic_mean ps
  end.

(** "Arithmetic mean of risk_score over triggered, non-error rule results
    (0.1 if none triggered)". *)
Definition rule_aggregate (rp : odict entry) : Q :=
  match triggered_scores rp with
  | [] => 0.1
  | ss => arithmetic_mean ss
  end.

(** The aggregate the two branches of [_ensemble_predictions] compute, on
    the collected numbers. *)
Definition mean_or (dflt : Q) (l : list Q) : Q :=
  match l with [] => dflt | _ => Qmean l end.

(** ** Ranges *)

Definition in_unit (x : Q) : Prop := 0 <= x /\ x <= 1.

(** "Clamped to [0, 1]". *)
Definition clamp01 (x : Q) : Q := Qmax 0 (Qmin 1 x).

(** ** Predictions as the engine produces them

    [_predict_with_model] returns either an error marker or a probability
    with a confidence; a rule of the battery returns a trigger flag, a risk
    score in [0, 1] and a reason. *)

Definition ml_entry_wf (e : entry) : Prop :=
  (exists msg, e = EDict {[ "error"%string := VStr msg ]})
  \/ (exists p c, e = EDict (ml_result p c)).

Definition rule_entry_wf (e : entry) : Prop :=
  (exists msg, e = EDict {[ "error"%string := VStr msg ]})
  \/ (exists t r s, e = EDict (rule_result t r s) /\ in_unit r).

Definition rule_ok (f : rule) : Prop :=
  forall txn d, f txn = inr d ->
    exists t r s, d = rule_result t r s /\ in_unit r.

(** What [_run_rules] is to record for one rule: its result, or an error
    entry carrying the message of the exception it raised. *)
Definition rule_outcome (f : rule) (txn : gmap string val) : entry :=
  match f txn with
  | inr d => EDict d
  | inl e => EDict {[ "error"%string := VStr (str_exn e) ]}
  end.

(** ** Risk metrics *)

(** "The risk factors are exactly: amount above 10,000, missing location
    (latitude absent), and missing ip_address". *)
Definition enumerated_risk_factors (amount : Q) (txn : gmap string val)
  : list string :=
  (if Qltb 10000 amount then ["high_amount"%string] else [])
  ++ (if is_none (dict_get txn "latitude") then ["missing_location"%string] else [])
  ++ (if is_none (dict_get txn "ip_address") then ["missing_ip"%string] else []).

(** "base_fraud_probability x (1 + 0.1 x number of risk factors)". *)
Definition composite_formula (base : Q) (n : nat) : Q :=
  base * (1 + 0.1 * inject_Z (Z.of_nat n)).

(** "A valid transaction with amount > 0". *)
Definition valid_transaction (txn : gmap string val) : Prop :=
  exists a, txn !! "amount"%string = Some (VNum a) /\ 0 < a.

(** ** Performance counters *)

(** The recorded prediction times of the successful calls of a run. *)
Definition successful_times (rs : list (result detection)) : list Q :=
  omap (fun r => match r with
                 | inr d => Some (r_prediction_time_ms d)
                 | inl _ => None
                 end) rs.

(** The invariant of the counters: the count is the number of recorded
    times and the average times the count is their sum. *)
Definition counters_track (self : detector) (ts : list Q) : Prop :=
  prediction_count self = Z.of_nat (length ts)
  /\ avg_prediction_time self * inject_Z (Z.of_nat (length ts))
     == fold_right Qplus 0 ts.

End Spec.

(** ** The mean of prediction times that are floats *)

Module Binary64Spec.
Import Floats FraudDetectorBinary64.

(** The rational number a finite float stands for. *)
Definition exact (x : float) : option Q :=
  match Prim2SF x with
  | S754_zero _ => Some 0
  | S754_finite s m e =>
      Some ((if s then -1 else 1) * inject_Z (Zpos m) * 2 ^ e)
  | _ => None
  end.

(** "(t1 + ... + tn) / n", evaluated in binary64 from left to right. *)
Definition float_mean (times : list float) : float :=
  (fold_left add times 0 / float_of_int (Z.of_nat (length times)))%float.

(** Prediction times of 0.1, 0.2, 0.6 and 0.1 ms: the floats that
    [total_seconds() * 1000] gives for 100, 200, 600 and 100 microseconds. *)
Definition recorded_times : list float :=
  [ 0x1.999999999999ap-4; 0x1.999999999999ap-3;
    0x1.3333333333333p-1; 0x1.999999999999ap-4 ]%float.

End Binary64Spec.

(** An instance of the external primitives for evaluating the model on
    inputs whose outcome does not depend on them. *)
Definition stub_externals : Externals :=
  {| float_of_str := fun _ => None;
     fromisoformat := fun _ => None;
     log1p := fun x => x;
     sqrt := fun x => x;
     format_money := fun _ => "0.00"%string;
     record_prediction_time := fun _ => inr tt |}.


(** * The specification's vocabulary for the anomaly model *)

Module AutoencoderSpec.
Import AutoencoderModel.

(** "[calibrate_threshold(X_normal, contamination_rate)] sets the decision
    threshold as the contamination-rate-th percentile (default 90th) of the
    per-sample reconstruction error on the training set". *)
Definition spec_default_percentile : Q := 90.

Definition spec_calibrate_threshold (self : model) (X_normal : matrix)
    (percentile : Q) : result Q :=
  do errs <- reconstruction_errors X_normal (predict self X_normal) ;;
  np_percentile errs percentile.

(** A list sorted in increasing order. *)
Fixpoint increasing (l : list Q) : Prop :=
  match l with
  | [] => True
  | x :: l' => Forall (fun y => x <= y) l' /\ increasing l'
  end.

(** A network that reconstructs every sample as the origin, behind a scaler
    that leaves the data as they are. *)
Definition origin_network : model :=
  {| scaler_fit_transform := fun X => inr X;
     autoencoder_predict := fun X => inr (map (map (fun _ => 0)) X);
     threshold := None |}.

End AutoencoderSpec.

(** * The specification's vocabulary for the preprocessor *)

Module PreprocessorSpec.
Import TransactionPreprocessor.
Section Spec.
Context `{Externals}.

(** The frame holding a single incoming transaction. *)
Definition single (r : row) : frame := {| has_location := false; rows := [r] |}.

(** Positions of the scaled aggregates in a feature vector produced with a
    state from [fit]: the order of [numerical_features]. *)
Definition mean_index : nat := 4.
Definition std_index : nat := 5.
Definition min_index : nat := 6.
Definition max_index : nat := 7.

(** "At inference time the per-identity aggregates are looked up from the
    fitted state, never recomputed from the incoming transaction": the
    aggregate entry of the feature vector of a transaction is determined by
    the fitted state and the identity of the transaction. *)
Definition aggregates_looked_up_from_state : Prop :=
  exists lookup : state -> string -> Q,
    forall (corpus : frame) (st : state) (r : row) (v : list Q),
      fit new corpus = inr st ->
      transform st (single r) = inr [v] ->
      nth mean_index v 0 == lookup st (user_id r).

(** "A categorical value not seen at fit time does not fail: it is mapped to
    the reserved unknown bucket": every value is encoded, as itself when it
    is a fitted class and as the class ['unknown'] otherwise. *)
Definition unseen_maps_to_unknown (classes : list string) (v : string)
  : Prop :=
  exists code, encode_values classes [v] = inr [code]
    /\ (index_of v classes 0 = None ->
        label_transform classes "unknown" = inr code).

End Spec.
End PreprocessorSpec.

(** ** Sample inputs *)

Module Samples.
Import FraudDetector.
#[local] Existing Instance stub_externals.

Definition noon : datetime :=
  {| dt_hour := 12; dt_weekday := 0; dt_month := 3; dt_day := 4 |}.

(** A card payment of 50 with location, address, category and time. *)
Definition payment : gmap string val :=
  {[ "transaction_id"%string := VStr "tx-1";
     "amount"%string := VNum 50;
     "latitude"%string := VNum 48;
     "longitude"%string := VNum 2;
     "ip_address"%string := VStr "10.0.0.1";
     "card_type"%string := VStr "credit";
     "merchant_category"%string := VStr "retail";
     "timestamp"%string := VTime noon ]}.

(** The same payment for 15,000. *)
Definition large_payment : gmap string val :=
  <[ "amount"%string := VNum 15000 ]> payment.

(** The same payment with [merchant_category] set to [None]. *)
Definition payment_without_category : gmap string val :=
  <[ "merchant_category"%string := VNone ]> payment.

(** A classifier whose [predict_proba] answers [[1 - p, p]]. *)
Definition classifier (p : Q) : model :=
  {| predict_proba := Some (fun _ => inr (Arr2 [[1 - p; p]]));
     predict := Some (fun _ => inr (Arr1 [if Qltb 0.5 p then 1 else 0])) |}.

(** A model without [predict_proba] whose [predict] answers the score [x];
    an outlier detector, for instance, answers -1 or 1. *)
Definition scorer (x : Q) : model :=
  {| predict_proba := None;
     predict := Some (fun _ => inr (Arr1 [x])) |}.

Definition tick (ms : Q) : clock :=
  {| elapsed_ms := ms; now_iso := "2024-03-04T12:00:00" |}.

Definition detector_with (name : string) (m : model) : detector :=
  init [(name, m)] None.

End Samples.

Module PreprocessorSamples.
Import TransactionPreprocessor PreprocessorSpec.
#[local] Existing Instance stub_externals.

Definition purchase (u : string) (t : Z) (a : Q) (m : option string) : row :=
  {| user_id := u; timestamp := t; amount := a; merchant := m;
     category := Some "grocery"%string; location := None |}.

(** A training frame: two users, every merchant present. *)
Definition corpus : frame :=
  {| has_location := false;
     rows := [ purchase "alice" 0 10 (Some "market"%string);
               purchase "alice" 3600 30 (Some "bakery"%string);
               purchase "bob" 7200 20 (Some "market"%string) ] |}.

(** The same frame with one merchant missing. *)
Definition corpus_with_gap : frame :=
  {| has_location := false;
     rows := [ purchase "alice" 0 10 (Some "market"%string);
               purchase "alice" 3600 30 None;
               purchase "bob" 7200 20 (Some "market"%string) ] |}.

(** Incoming transactions of alice, the day after. *)
Definition incoming (a : Q) (m : string) : row :=
  purchase "alice" 86400 a (Some m).

Definition fitted : state :=
  Eval vm_compute in
    match fit new corpus with inr st => st | inl _ => new end.

Definition fitted_with_gap : state :=
  Eval vm_compute in
    match fit new corpus_with_gap with inr st => st | inl _ => new end.

(** The feature vectors [transform] returns for two incoming transactions
    of alice that differ in their amount only. *)
Definition vector_of_100 : list Q :=
  Eval vm_compute in
    match transform fitted (single (incoming 100 "market")) with
    | inr [v] => v
    | _ => []
    end.

Definition vector_of_200 : list Q :=
  Eval vm_compute in
    match transform fitted (single (incoming 200 "market")) with
    | inr [v] => v
    | _ => []
    end.

End PreprocessorSamples.

(** * Vocabulary for further properties of the code *)

From Stdlib Require Import Sorting.Sorted.
From Stdlib Require OrderedTypeEx.

Module ExtraSpec.
Import FraudDetector.

(** The value under a key is a number, or the key is absent. *)
Definition number_or_absent (txn : gmap string val) (k : string) : Prop :=
  txn !! k = None \/ exists q, txn !! k = Some (VNum q).

Definition number_none_or_absent (txn : gmap string val) (k : string) : Prop :=
  txn !! k = None \/ txn !! k = Some VNone \/ exists q, txn !! k = Some (VNum q).

Definition time_none_or_absent (txn : gmap string val) (k : string) : Prop :=
  txn !! k = None \/ txn !! k = Some VNone \/ exists t, txn !! k = Some (VTime t).

Definition string_or_absent (txn : gmap string val) (k : string) : Prop :=
  txn !! k = None \/ exists s, txn !! k = Some (VStr s).

(** The fields read by [_basic_preprocessing] have the types it converts. *)
Definition basic_inputs_ok (txn : gmap string val) : Prop :=
  number_or_absent txn "amount"
  /\ time_none_or_absent txn "timestamp"
  /\ number_or_absent txn "latitude"
  /\ number_or_absent txn "longitude".

(** The fields read by the rules have the types the rules handle. *)
Definition rule_inputs_ok (txn : gmap string val) : Prop :=
  number_or_absent txn "amount"
  /\ time_none_or_absent txn "timestamp"
  /\ number_none_or_absent txn "latitude"
  /\ number_none_or_absent txn "longitude"
  /\ string_or_absent txn "merchant_category".
End ExtraSpec.

Module RiskSpec.

(** The order of the risk levels and of the actions. *)
Definition level_rank (s : string) : nat :=
  if String.eqb s "critical" then 3
  else if String.eqb s "high" then 2
  else if String.eqb s "medium" then 1
  else 0.

Definition action_rank (s : string) : nat :=
  if String.eqb s "block" then 3
  else if String.eqb s "review" then 2
  else if String.eqb s "monitor" then 1
  else 0.

End RiskSpec.

Module ModelSpec.
Import FraudDetector.

(** The vote of a model on the data, as probability and confidence, read off
    the shape of what it returns: the second entry of the first row of
    [predict_proba] (the first entry when the row has only one), or the
    scalar [predict] returns with confidence 0.8. *)
Definition model_vote (m : model) (data : ndarray) : option (Q * Q) :=
  match predict_proba m, predict m with
  | Some f, _ =>
      match f data with
      | inr (Arr2 ((_ :: p1 :: _) :: _)) => Some (p1, p1)
      | inr (Arr2 ([p0] :: _)) => Some (p0, p0)
      | _ => None
      end
  | None, Some g =>
      match g data with
      | inr (Arr1 (p :: _)) => Some (p, 0.8)
      | inr (Arr2 ([p] :: _)) => Some (p, 0.8)
      | _ => None
      end
  | None, None => None
  end.

End ModelSpec.

Module AnomalySpec.

(** The number of flagged samples. *)
Definition count_true (l : list bool) : nat := length (List.filter id l).

End AnomalySpec.

(** The number of elements of a sample above a value. *)
Definition count_above (t : Q) (l : list Q) : nat :=
  length (List.filter (fun e => Qgtb e t) l).

Module FeatureSpec.
Import TransactionPreprocessor.

(** A record comes before another in the order of
    [sort_values(['user_id', 'timestamp'])]: a smaller user, or the same
    user and a timestamp that is not later. *)
Definition user_then_time (a b : row) : Prop :=
  String.compare (user_id a) (user_id b) = Lt
  \/ (user_id a = user_id b /\ (timestamp a <= timestamp b)%Z).

End FeatureSpec.

Module EncodingSpec.
Import TransactionPreprocessor.
Section Spec.
Context `{Externals}.

(** A label can be encoded with the classes of an encoder: it is one of
    them, or ['unknown'] is. *)
Definition encodable (classes : list string) (v : string) : bool :=
  existsb (String.eqb v) classes || existsb (String.eqb "unknown") classes.

(** Every label of every categorical column of a frame can be encoded with
    the encoders of a state. *)
Definition labels_encodable (st : state) (df : frame) : bool :=
  forallb (fun '(feature, classes) =>
             match string_column df feature with
             | Some get =>
                 forallb (fun f => encodable classes (default "unknown"%string (get f)))
                         (create_features df)
             | None => true
             end) (encoders st).

(** The amounts on which every numerical column is a finite number: above
    -1, where [np.log1p] is finite, and at most 10^15, far from the overflow
    of a sum or of a square in binary64. *)
Definition amounts_in_range (df : frame) : Prop :=
  Forall (fun r => -1 < amount r /\ amount r <= 1000000000000000) (rows df).

(** The number of columns of the matrix of a state fitted from scratch. *)
Definition feature_count (df : frame) : nat :=
  length numerical_features
  + (if has_location df then 3 else 2)
  + length binary_features.

End Spec.
End EncodingSpec.

(** ** Further sample inputs *)

Module LoaderSamples.
Import FraudDetector Samples.

(** The payment with the amount set to [None]. *)
Definition payment_with_none_amount : gmap string val :=
  <[ "amount"%string := VNone ]> payment.

(** The payment at a betting site. *)
Definition betting_payment : gmap string val :=
  <[ "merchant_category"%string := VStr "Online Gambling" ]> payment.

(** A model directory whose [lstm.joblib] is corrupt. *)
Definition broken_disk : disk :=
  fun path =>
    if String.eqb path "models/lstm.joblib"
    then Some (inl (Raise RuntimeError "corrupt file"))
    else None.

(** A model directory that holds a classifier as [autoencoder.joblib]. *)
Definition stocked_disk : disk :=
  fun path =>
    if String.eqb path "models/autoencoder.joblib"
    then Some (inr (classifier 0.2))
    else None.

End LoaderSamples.

Module AnomalySamples.
Import AutoencoderModel AutoencoderSpec.

(** The network that reconstructs the origin, with the threshold 2. *)
Definition calibrated_network : model := set_threshold origin_network 2.

End AnomalySamples.

Module FeatureSamples.
Import TransactionPreprocessor PreprocessorSpec PreprocessorSamples.
#[local] Existing Instance stub_externals.

(** The record of bob in the frame of features of the training frame. *)
Definition bob_record : features :=
  with_velocity
    (features_of (rows corpus) (purchase "bob" 7200 20 (Some "market"%string)))
    24.

(** The second record of alice, one hour after her first. *)
Definition alice_second_record : features :=
  with_velocity
    (features_of (rows corpus) (purchase "alice" 3600 30 (Some "bakery"%string)))
    (inject_Z (3600 - 0) / 3600).

End FeatureSamples.
(** * Properties of the fraud detector *)

Section FraudDetectorProperties.
Import FraudDetector Spec.
Context `{Externals}.

Lemma Qle_bool_false_lt (x y : Q) : Qle_bool x y = false -> y < x.
Proof.
  intros Hb. apply Qnot_le_lt. intros Hle.
  apply Qle_bool_iff in Hle. congruence.
Qed.

Lemma Qltb_true (x y : Q) : Qltb x y = true <-> x < y.
Proof.
  unfold Qltb. split.
  - intros Hb. apply Qle_bool_false_lt. now destruct (Qle_bool y x).
  - intros Hlt. destruct (Qle_bool y x) eqn:E; [|reflexivity].
    apply Qle_bool_iff in E. lra.
Qed.

Lemma Qltb_false (x y : Q) : Qltb x y = false <-> y <= x.
Proof.
  unfold Qltb. split.
  - intros Hb. apply Qle_bool_iff. now destruct (Qle_bool y x).
  - intros Hle. apply Qle_bool_iff in Hle. now rewrite Hle.
Qed.

(** ** The error monad *)

Lemma bind_inr {A B} (m : result A) (f : A -> result B) (b : B) :
  bind m f = inr b -> exists a, m = inr a /\ f a = inr b.
Proof. destruct m as [e|a]; simpl; [discriminate|]. intros Hf. now exists a. Qed.

Lemma Forall_odict_set {V} (P : V -> Prop) (d : odict V) k v :
  Forall (fun kv => P kv.2) d -> P v -> Forall (fun kv => P kv.2) (odict_set d k v).
Proof.
  intros Hd Hv. induction d as [|[k' v'] d IH]; simpl.
  - constructor; [exact Hv|constructor].
  - inversion Hd; subst. destruct (String.eqb k' k).
    + constructor; [exact Hv|assumption].
    + constructor; [assumption|apply IH; assumption].
Qed.

Lemma predict_with_model_wf name m data :
  ml_entry_wf (EDict (_predict_with_model name m data)).
Proof.
  unfold _predict_with_model.
  destruct (_predict_with_model_try name m data) as [e|d] eqn:E.
  { left. eexists. reflexivity. }
  right. unfold _predict_with_model_try in E.
  apply bind_inr in E as (f & _ & E). apply bind_inr in E as (prediction & _ & E).
  destruct (predict_proba m).
  - apply bind_inr in E as (first & _ & E). apply bind_inr in E as (n & _ & E).
    apply bind_inr in E as (p & _ & E). inversion E. eauto.
  - apply bind_inr in E as (first & _ & E). apply bind_inr in E as (p & _ & E).
    inversion E. eauto.
Qed.

Lemma run_ml_models_wf ms data :
  Forall (fun kv => ml_entry_wf kv.2) (_run_ml_models ms data).
Proof.
  unfold _run_ml_models.
  assert (Hgen : forall acc, Forall (fun kv => ml_entry_wf kv.2) acc ->
            Forall (fun kv => ml_entry_wf kv.2) (fold_left (run_model data) ms acc)).
  { induction ms as [|[name m] ms IH]; intros acc Hacc; simpl; [exact Hacc|].
    apply IH. apply Forall_odict_set; [exact Hacc|apply predict_with_model_wf]. }
  apply Hgen. constructor.
Qed.

Ltac bind_inv H :=
  let a := fresh "a" in
  let Ha := fresh "Ha" in
  apply bind_inr in H; destruct H as (a & Ha & H).

Lemma in_unit_const (x : Q) : Qle_bool 0 x = true -> Qle_bool x 1 = true -> in_unit x.
Proof. intros H0 H1. split; now apply Qle_bool_iff. Qed.

Ltac rule_result_tac :=
  match goal with
  | H : ret _ = inr _ |- _ =>
      inversion H; subst; clear H; do 3 eexists; split;
      [reflexivity | apply in_unit_const; reflexivity]
  end.

Lemma amount_rule_ok : rule_ok _amount_threshold_rule.
Proof.
  intros txn d Hd. unfold _amount_threshold_rule in Hd. bind_inv Hd.
  destruct (Qgtb a 10000); [rule_result_tac|].
  destruct (Qgtb a 5000); rule_result_tac.
Qed.

Lemma velocity_rule_ok : rule_ok _velocity_rule.
Proof. intros txn d Hd. unfold _velocity_rule in Hd. rule_result_tac. Qed.

Lemma location_rule_ok : rule_ok _location_rule.
Proof.
  intros txn d Hd. unfold _location_rule in Hd.
  destruct (is_none _ || is_none _); [rule_result_tac|].
  bind_inv Hd. bind_inv Hd. destruct a0; rule_result_tac.
Qed.

Lemma time_rule_ok : rule_ok _time_pattern_rule.
Proof.
  intros txn d Hd. unfold _time_pattern_rule in Hd.
  destruct (negb _); [rule_result_tac|].
  bind_inv Hd. bind_inv Hd.
  destruct (_ && _); rule_result_tac.
Qed.

Lemma merchant_rule_ok : rule_ok _merchant_risk_rule.
Proof.
  intros txn d Hd. unfold _merchant_risk_rule in Hd. bind_inv Hd.
  destruct (existsb _ _); rule_result_tac.
Qed.

Lemma load_rules_ok : Forall (fun nr => rule_ok nr.2) _load_rules.
Proof.
  unfold _load_rules. repeat constructor; simpl.
  - apply amount_rule_ok. - apply velocity_rule_ok. - apply location_rule_ok.
  - apply time_rule_ok. - apply merchant_rule_ok.
Qed.

Lemma run_rules_wf rs txn :
  Forall (fun nr => rule_ok nr.2) rs ->
  Forall (fun kv => rule_entry_wf kv.2) (_run_rules rs txn).
Proof.
  unfold _run_rules. intros Hrs.
  assert (Hgen : forall acc, Forall (fun kv => rule_entry_wf kv.2) acc ->
            Forall (fun kv => rule_entry_wf kv.2) (fold_left (run_rule txn) rs acc)).
  { induction Hrs as [|[name f] rs Hf Hrs IH]; intros acc Hacc; simpl; [exact Hacc|].
    apply IH. destruct (f txn) as [e|d] eqn:E.
    - apply Forall_odict_set; [exact Hacc|]. left. eexists. reflexivity.
    - apply Forall_odict_set; [exact Hacc|]. right.
      destruct (Hf txn d E) as (t & r & s & -> & Hr). eauto 6. }
  apply Hgen. constructor.
Qed.

Lemma ml_loop_wf ml ps cs :
  Forall (fun kv => ml_entry_wf kv.2) ml ->
  ml_loop ml ps cs =
    inr (ps ++ map VNum (successful "fraud_probability" ml),
         cs ++ map VNum (successful "confidence_score" ml)).
Proof.
  intros Hml. revert ps cs.
  induction Hml as [|[name e] ml He Hml IH]; intros ps cs; simpl.
  - now rewrite !app_nil_r.
  - simpl in He. destruct He as [[msg ->]|(p & c & ->)]; simpl.
    + unfold successful in *. simpl. apply IH.
    + unfold successful in *. simpl. rewrite IH. rewrite <- !app_assoc. reflexivity.
Qed.

Lemma rule_loop_wf rp ss :
  Forall (fun kv => rule_entry_wf kv.2) rp ->
  rule_loop rp ss = inr (ss ++ map VNum (triggered_scores rp)).
Proof.
  intros Hrp. revert ss.
  induction Hrp as [|[name e] rp He Hrp IH]; intros ss; simpl.
  - now rewrite app_nil_r.
  - simpl in He. destruct He as [[msg ->]|(t & r & s & -> & _)]; simpl.
    + apply IH.
    + destruct t; simpl.
      * rewrite IH, <- app_assoc. reflexivity.
      * apply IH.
Qed.

Lemma np_mean_nums (l : list Q) : np_mean (map VNum l) = inr (Qmean l).
Proof.
  unfold np_mean.
  assert (Hn : np_numbers (map VNum l) = inr l).
  { induction l as [|q l IH]; simpl; [reflexivity|]. now rewrite IH. }
  now rewrite Hn.
Qed.

Lemma fold_left_Qplus (l : list Q) (a : Q) :
  fold_left Qplus l a == a + fold_right Qplus 0 l.
Proof.
  revert a. induction l as [|x l IH]; intros a; simpl.
  - lra.
  - rewrite IH. lra.
Qed.

Lemma Qmean_arithmetic_mean (l : list Q) : Qmean l == arithmetic_mean l.
Proof.
  unfold Qmean, arithmetic_mean, Qsum. rewrite fold_left_Qplus.
  apply Qdiv_comp; [lra|reflexivity].
Qed.

Lemma mean_or_ml_aggregate ml :
  mean_or 0.5 (successful "fraud_probability" ml) == ml_aggregate ml.
Proof.
  unfold ml_aggregate. destruct (successful "fraud_probability" ml); simpl;
    [reflexivity|apply Qmean_arithmetic_mean].
Qed.

Lemma mean_or_rule_aggregate rp :
  mean_or 0.1 (triggered_scores rp) == rule_aggregate rp.
Proof.
  unfold rule_aggregate. destruct (triggered_scores rp); simpl;
    [reflexivity|apply Qmean_arithmetic_mean].
Qed.

Lemma successful_cons_error key name msg ml :
  successful key ((name, EDict {[ "error"%string := VStr msg ]}) :: ml)
  = successful key ml.
Proof. reflexivity. Qed.

Lemma successful_cons_probability name p c ml :
  successful "fraud_probability" ((name, EDict (ml_result p c)) :: ml)
  = p :: successful "fraud_probability" ml.
Proof. reflexivity. Qed.

Lemma successful_cons_confidence name p c ml :
  successful "confidence_score" ((name, EDict (ml_result p c)) :: ml)
  = c :: successful "confidence_score" ml.
Proof. reflexivity. Qed.

Lemma successful_same_length ml :
  Forall (fun kv => ml_entry_wf kv.2) ml ->
  length (successful "fraud_probability" ml) = length (successful "confidence_score" ml).
Proof.
  induction 1 as [|[name e] ml He Hml IH]; [reflexivity|].
  simpl in He. destruct He as [[msg ->]|(p & c & ->)].
  - now rewrite !successful_cons_error.
  - rewrite successful_cons_probability, successful_cons_confidence.
    simpl. now f_equal.
Qed.

Lemma ensemble_try_wf settings ml rp :
  Forall (fun kv => ml_entry_wf kv.2) ml ->
  Forall (fun kv => rule_entry_wf kv.2) rp ->
  let A := mean_or 0.5 (successful "fraud_probability" ml) in
  let C := mean_or 0.5 (successful "confidence_score" ml) in
  let B := mean_or 0.1 (triggered_scores rp) in
  _ensemble_predictions_try settings ml rp =
    inr {| fraud_probability := 0.7 * A + 0.3 * B;
           risk_score := B;
           confidence_score := C;
           is_fraud := Qgtb (0.7 * A + 0.3 * B) (FRAUD_THRESHOLD settings);
           method := "ensemble" |}.
Proof.
  intros Hml Hrp. unfold _ensemble_predictions_try.
  rewrite (ml_loop_wf ml [] [] Hml), (rule_loop_wf rp [] Hrp).
  pose proof (successful_same_length ml Hml) as Hlen.
  cbn [bind app].
  destruct (successful "fraud_probability" ml) as [|p ps];
    destruct (successful "confidence_score" ml) as [|c cs]; try discriminate Hlen;
    destruct (triggered_scores rp) as [|s ss]; cbn [map mean_or].
  - reflexivity.
  - change (VNum s :: map VNum ss) with (map VNum (s :: ss)).
    rewrite np_mean_nums. reflexivity.
  - change (VNum p :: map VNum ps) with (map VNum (p :: ps)).
    change (VNum c :: map VNum cs) with (map VNum (c :: cs)).
    rewrite !np_mean_nums. reflexivity.
  - change (VNum p :: map VNum ps) with (map VNum (p :: ps)).
    change (VNum c :: map VNum cs) with (map VNum (c :: cs)).
    change (VNum s :: map VNum ss) with (map VNum (s :: ss)).
    rewrite !np_mean_nums. reflexivity.
Qed.

Lemma detect_fraud_returns settings self txn clk data :
  _preprocess_transaction (preprocessor_of self) txn = inr data ->
  record_prediction_time (elapsed_ms clk) = inr tt ->
  let ml := _run_ml_models (models self) data in
  let rp := _run_rules (rules self) txn in
  let p := _ensemble_predictions settings ml rp in
  exists r,
    detect_fraud settings self txn clk
      = (inr r, _update_performance_metrics self (elapsed_ms clk))
    /\ r_ml_predictions r = ml
    /\ r_rule_predictions r = rp
    /\ r_fraud_probability r = fraud_probability p
    /\ r_risk_score r = risk_score p
    /\ r_confidence_score r = confidence_score p
    /\ r_is_fraud r = is_fraud p
    /\ r_risk_metrics r = _calculate_risk_metrics p txn.
Proof.
  intros Hpre Hrec ml rp p. unfold detect_fraud. rewrite Hpre, Hrec.
  eexists. split; [reflexivity|]. cbn. repeat split; reflexivity.
Qed.

Lemma detect_fraud_inr settings self txn clk r self' :
  detect_fraud settings self txn clk = (inr r, self') ->
  let ml := r_ml_predictions r in
  let rp := r_rule_predictions r in
  let p := _ensemble_predictions settings ml rp in
  (exists data, _preprocess_transaction (preprocessor_of self) txn = inr data
                /\ ml = _run_ml_models (models self) data)
  /\ rp = _run_rules (rules self) txn
  /\ r_fraud_probability r = fraud_probability p
  /\ r_risk_score r = risk_score p
  /\ r_confidence_score r = confidence_score p
  /\ r_is_fraud r = is_fraud p
  /\ r_detection_method r = method p
  /\ r_risk_metrics r = _calculate_risk_metrics p txn
  /\ r_prediction_time_ms r = elapsed_ms clk
  /\ self' = _update_performance_metrics self (elapsed_ms clk).
Proof.
  unfold detect_fraud. intros Hcall.
  destruct (_preprocess_transaction (preprocessor_of self) txn) as [e|data]; [discriminate|].
  destruct (record_prediction_time (elapsed_ms clk)) as [e|[]]; [discriminate|].
  inversion Hcall; subst; clear Hcall. simpl.
  repeat split; try reflexivity. exists data. split; reflexivity.
Qed.

(** ** The rule loop *)

Lemma odict_set_fresh {V} (d : odict V) (k : string) (v : V) :
  ~ In k (map fst d) -> odict_set d k v = d ++ [(k, v)].
Proof.
  induction d as [|[k' v'] d IH]; simpl; intros Hk; [reflexivity|].
  destruct (String.eqb_spec k' k) as [->|Hne].
  - exfalso. apply Hk. now left.
  - rewrite IH; [reflexivity|]. intros Hin. apply Hk. now right.
Qed.

Lemma run_rule_outcome txn acc name f :
  run_rule txn acc (name, f) = odict_set acc name (rule_outcome f txn).
Proof. unfold run_rule, rule_outcome, error_entry. now destruct (f txn). Qed.

Lemma fold_run_rules txn rs acc :
  NoDup (map fst acc ++ map fst rs) ->
  fold_left (run_rule txn) rs acc
  = acc ++ map (fun nr => (nr.1, rule_outcome nr.2 txn)) rs.
Proof.
  revert acc. induction rs as [|[name f] rs IH]; intros acc Hnd; cbn [fold_left map].
  - now rewrite app_nil_r.
  - rewrite run_rule_outcome, odict_set_fresh.
    + rewrite IH.
      * now rewrite <- app_assoc.
      * rewrite map_app. simpl. rewrite <- app_assoc. exact Hnd.
    + simpl in Hnd. apply NoDup_app in Hnd as (_ & Hdisj & _).
      intros Hin. apply (Hdisj name).
      * now apply list_elem_of_In.
      * left.
Qed.

Lemma run_rules_outcomes rs txn :
  NoDup (map fst rs) ->
  _run_rules rs txn = map (fun nr => (nr.1, rule_outcome nr.2 txn)) rs.
Proof. intros Hnd. unfold _run_rules. now rewrite fold_run_rules. Qed.

(** ** Risk metrics and ranges *)

Lemma py_min_Qmin (x : Q) : py_min 1 x == Qmin 1 x.
Proof.
  unfold py_min. destruct (Qltb x 1) eqn:E.
  - apply Qltb_true in E. symmetry. apply Q.min_r. lra.
  - apply Qltb_false in E. symmetry. apply Q.min_l. exact E.
Qed.

Lemma clamp01_nonneg (x : Q) : 0 <= x -> clamp01 x == Qmin 1 x.
Proof.
  intros Hx. unfold clamp01. apply Q.max_r.
  apply Q.min_glb; [lra|exact Hx].
Qed.

Lemma risk_metrics_try_inr (p : prediction) txn amount :
  py_float (dict_get_default txn "amount" (VNum 0)) = inr amount ->
  exists m, _calculate_risk_metrics_try p txn = inr m
    /\ risk_factors m = enumerated_risk_factors amount txn
    /\ composite_risk_score m
       = py_min 1 (fraud_probability p
                   * (1 + inject_Z (Z.of_nat (length (enumerated_risk_factors amount txn))) * 0.1)).
Proof.
  intros Ha. unfold _calculate_risk_metrics_try. rewrite Ha. cbn [bind].
  unfold enumerated_risk_factors, Qgtb.
  destruct (Qltb 10000 amount), (is_none (dict_get txn "latitude")),
    (is_none (dict_get txn "ip_address")); eexists; repeat split; reflexivity.
Qed.

Lemma Qsum_bounds (l : list Q) :
  Forall in_unit l ->
  0 <= fold_right Qplus 0 l /\ fold_right Qplus 0 l <= inject_Z (Z.of_nat (length l)).
Proof.
  induction 1 as [|x l [Hx0 Hx1] Hl [IH0 IH1]].
  - split; apply Qle_refl.
  - cbn [fold_right length]. rewrite Nat2Z.inj_succ, <- Z.add_1_r, inject_Z_plus.
    change (inject_Z 1) with 1. split; lra.
Qed.

Lemma arithmetic_mean_in_unit (l : list Q) :
  l <> [] -> Forall in_unit l -> in_unit (arithmetic_mean l).
Proof.
  intros Hne Hl. destruct (Qsum_bounds l Hl) as [H0 H1].
  assert (Hn : 0 < inject_Z (Z.of_nat (length l))).
  { change 0 with (inject_Z 0). rewrite <- Zlt_Qlt.
    destruct l; [congruence|simpl; lia]. }
  unfold arithmetic_mean. split.
  - apply Qle_shift_div_l; [exact Hn|]. lra.
  - apply Qle_shift_div_r; [exact Hn|]. lra.
Qed.

Lemma mean_or_in_unit (dflt : Q) (l : list Q) :
  in_unit dflt -> Forall in_unit l -> in_unit (mean_or dflt l).
Proof.
  intros Hd Hl. destruct l as [|x l]; [exact Hd|].
  unfold mean_or. unfold in_unit. rewrite Qmean_arithmetic_mean.
  apply arithmetic_mean_in_unit; [discriminate|exact Hl].
Qed.

Lemma triggered_scores_in_unit rp :
  Forall (fun kv => rule_entry_wf kv.2) rp -> Forall in_unit (triggered_scores rp).
Proof.
  induction 1 as [|[name e] rp He Hrp IH]; [constructor|].
  simpl in He. destruct He as [[msg ->]|(t & r & s & -> & Hr)].
  - exact IH.
  - destruct t.
    + change (Forall in_unit (r :: triggered_scores rp)). now constructor.
    + exact IH.
Qed.

Lemma risk_metrics_in_unit (p : prediction) txn :
  in_unit (fraud_probability p) ->
  in_unit (composite_risk_score (_calculate_risk_metrics p txn)).
Proof.
  intros [Hp0 Hp1]. unfold _calculate_risk_metrics.
  destruct (_calculate_risk_metrics_try p txn) as [e|m] eqn:E.
  - simpl. split; lra.
  - unfold _calculate_risk_metrics_try in E. apply bind_inr in E as (amount & _ & E).
    inversion E; subst; clear E. cbn [composite_risk_score].
    match goal with |- in_unit (py_min 1 (_ * (1 + inject_Z (Z.of_nat ?n) * 0.1))) =>
      assert (Hn : 0 <= inject_Z (Z.of_nat n))
        by (change 0 with (inject_Z 0); rewrite <- Zle_Qle; lia);
      generalize dependent (inject_Z (Z.of_nat n)) end.
    intros k Hk. unfold in_unit. rewrite py_min_Qmin. split.
    + apply Q.min_glb; [lra|]. apply Qmult_le_0_compat; lra.
    + apply Q.le_min_l.
Qed.

(** ** Performance counters *)

Lemma detect_fraud_inl settings self txn clk e self' :
  detect_fraud settings self txn clk = (inl e, self') -> self' = self.
Proof.
  unfold detect_fraud. intros Hcall.
  destruct (_preprocess_transaction (preprocessor_of self) txn); [now inversion Hcall|].
  destruct (record_prediction_time (elapsed_ms clk)); now inversion Hcall.
Qed.

Lemma inject_Z_succ (n : nat) :
  inject_Z (Z.of_nat (S n)) == inject_Z (Z.of_nat n) + 1.
Proof. rewrite Nat2Z.inj_succ, <- Z.add_1_r, inject_Z_plus. reflexivity. Qed.

Lemma inject_Z_nat_nonneg (n : nat) : 0 <= inject_Z (Z.of_nat n).
Proof. change 0 with (inject_Z 0). rewrite <- Zle_Qle. lia. Qed.

Lemma fold_right_Qplus_app (l1 l2 : list Q) :
  fold_right Qplus 0 (l1 ++ l2) == fold_right Qplus 0 l1 + fold_right Qplus 0 l2.
Proof. induction l1 as [|x l1 IH]; simpl; [lra|]. rewrite IH. lra. Qed.

Lemma update_tracks self ts t :
  counters_track self ts ->
  counters_track (_update_performance_metrics self t) (ts ++ [t]).
Proof.
  intros [Hc Ha]. unfold counters_track, _update_performance_metrics.
  cbn [prediction_count avg_prediction_time].
  rewrite length_app, Nat.add_1_r, Hc. split; [lia|].
  replace (Z.of_nat (length ts) + 1 - 1)%Z with (Z.of_nat (length ts)) by lia.
  replace (Z.of_nat (length ts) + 1)%Z with (Z.of_nat (S (length ts))) by lia.
  rewrite fold_right_Qplus_app. cbn [fold_right].
  pose proof (inject_Z_nat_nonneg (length ts)) as Hn.
  pose proof (inject_Z_succ (length ts)) as Hs.
  set (n := inject_Z (Z.of_nat (length ts))) in *.
  set (n1 := inject_Z (Z.of_nat (S (length ts)))) in *.
  rewrite <- Ha. field. lra.
Qed.

Lemma run_calls_tracks settings calls : forall self ts rs self',
  counters_track self ts ->
  run_calls settings self calls = (rs, self') ->
  counters_track self' (ts ++ successful_times rs).
Proof.
  induction calls as [|[txn clk] calls IH]; intros self ts rs self' Hinv Hrun.
  - simpl in Hrun. inversion Hrun; subst. simpl. now rewrite app_nil_r.
  - cbn [run_calls] in Hrun.
    destruct (detect_fraud settings self txn clk) as [[e|r] self1] eqn:Hcall.
    + destruct (run_calls settings self1 calls) as [rs' self2] eqn:Hrest.
      inversion Hrun; subst; clear Hrun.
      apply detect_fraud_inl in Hcall. subst self1.
      simpl. now apply (IH self ts rs').
    + destruct (run_calls settings self1 calls) as [rs' self2] eqn:Hrest.
      inversion Hrun; subst; clear Hrun.
      destruct (detect_fraud_inr _ _ _ _ _ _ Hcall)
        as (_ & _ & _ & _ & _ & _ & _ & _ & Htime & Hself).
      change (successful_times (inr r :: rs'))
        with ([r_prediction_time_ms r] ++ successful_times rs').
      rewrite app_assoc. apply (IH self1 _ rs'); [|exact Hrest].
      rewrite Hself, Htime. now apply update_tracks.
Qed.

(** C9: for every composite risk score, [_get_risk_level] and
    [_get_recommended_action] fall in the same tier of the shared ladder:
    at least 0.8 gives (critical, block), from 0.6 up to 0.8 (high, review),
    from 0.4 up to 0.6 (medium, monitor), below 0.4 (low, approve). *)
Theorem risk_ladders_in_lockstep (s : Q) :
  (0.8 <= s ->
   _get_risk_level s = "critical"%string
   /\ _get_recommended_action s = "block"%string)
  /\ (0.6 <= s -> s < 0.8 ->
      _get_risk_level s = "high"%string
      /\ _get_recommended_action s = "review"%string)
  /\ (0.4 <= s -> s < 0.6 ->
      _get_risk_level s = "medium"%string
      /\ _get_recommended_action s = "monitor"%string)
  /\ (s < 0.4 ->
      _get_risk_level s = "low"%string
      /\ _get_recommended_action s = "approve"%string).
Proof.
  unfold _get_risk_level, _get_recommended_action, Qgeb.
  destruct (Qle_bool 0.8 s) eqn:E8.
  { apply Qle_bool_iff in E8. repeat split; intros; try reflexivity; lra. }
  apply Qle_bool_false_lt in E8.
  destruct (Qle_bool 0.6 s) eqn:E6.
  { apply Qle_bool_iff in E6. repeat split; intros; try reflexivity; lra. }
  apply Qle_bool_false_lt in E6.
  destruct (Qle_bool 0.4 s) eqn:E4.
  { apply Qle_bool_iff in E4. repeat split; intros; try reflexivity; lra. }
  apply Qle_bool_false_lt in E4.
  repeat split; intros; try reflexivity; lra.
Qed.

Lemma risk_ladders_in_lockstep_witness :
  0.8 <= 0.85
  /\ _get_risk_level 0.85 = "critical"%string
  /\ _get_recommended_action 0.85 = "block"%string.
Proof.
  assert (Hs : 0.8 <= 0.85) by (unfold Qle; simpl; lia).
  split; [exact Hs|].
  exact (proj1 (risk_ladders_in_lockstep 0.85) Hs).
Defined.

(** C2: when the body of [_ensemble_predictions] raises, the combiner does
    not propagate the exception; it returns the fallback verdict with
    probability, risk and confidence 0.5, [is_fraud] false and method
    "fallback". *)
Theorem ensemble_fallback_on_exception (settings : Settings)
    (ml rp : odict entry) (e : exn) :
  _ensemble_predictions_try settings ml rp = inl e ->
  _ensemble_predictions settings ml rp =
    {| fraud_probability := 0.5;
       risk_score := 0.5;
       confidence_score := 0.5;
       is_fraud := false;
       method := "fallback" |}.
Proof.
  intros Hraise. unfold _ensemble_predictions. rewrite Hraise. reflexivity.
Qed.

(** C1: in every scoring call the final fraud probability is
    0.7 times the ML aggregate (the arithmetic mean of [fraud_probability]
    over the model predictions not marked error, 0.5 if there is none) plus
    0.3 times the rule aggregate (the arithmetic mean of [risk_score] over the
    triggered rule results not marked error, 0.1 if there is none), and
    [is_fraud] holds exactly when that probability is strictly greater than
    the configured threshold, whose default is 0.7. *)
Theorem ensemble_formula (settings : Settings) (self self' : detector)
    (txn : gmap string val) (clk : clock) (r : detection) :
  rules self = _load_rules ->
  detect_fraud settings self txn clk = (inr r, self') ->
  r_fraud_probability r ==
    0.7 * ml_aggregate (r_ml_predictions r)
    + 0.3 * rule_aggregate (r_rule_predictions r)
  /\ (r_is_fraud r = true <-> FRAUD_THRESHOLD settings < r_fraud_probability r)
  /\ FRAUD_THRESHOLD default_settings == 0.7.
Proof.
  intros Hrules Hcall.
  destruct (detect_fraud_inr _ _ _ _ _ _ Hcall)
    as ((data & _ & Hml) & Hrp & Hfp & _ & _ & Hfraud & _).
  assert (Hmlwf : Forall (fun kv => ml_entry_wf kv.2) (r_ml_predictions r)).
  { rewrite Hml. apply run_ml_models_wf. }
  assert (Hrpwf : Forall (fun kv => rule_entry_wf kv.2) (r_rule_predictions r)).
  { rewrite Hrp, Hrules. apply run_rules_wf, load_rules_ok. }
  unfold _ensemble_predictions in Hfp, Hfraud.
  rewrite (ensemble_try_wf settings _ _ Hmlwf Hrpwf) in Hfp, Hfraud.
  cbn [fraud_probability is_fraud] in Hfp, Hfraud.
  split; [|split; [|reflexivity]].
  - rewrite Hfp, mean_or_ml_aggregate, mean_or_rule_aggregate. reflexivity.
  - rewrite Hfraud, Hfp. unfold Qgtb. apply Qltb_true.
Qed.

(** C4: [_run_rules] records one entry per rule of the battery, in order:
    the rule's own result, or an error entry when that rule raised, so a
    failing rule changes no other entry; and once preprocessing has
    succeeded the scoring call returns a result carrying these entries,
    whatever the rules did. *)
Theorem rule_failures_are_isolated (settings : Settings) (self : detector)
    (txn : gmap string val) (clk : clock) :
  NoDup (map fst (rules self)) ->
  _run_rules (rules self) txn
    = map (fun nr => (nr.1, rule_outcome nr.2 txn)) (rules self)
  /\ (forall data,
        _preprocess_transaction (preprocessor_of self) txn = inr data ->
        record_prediction_time (elapsed_ms clk) = inr tt ->
        exists r self',
          detect_fraud settings self txn clk = (inr r, self')
          /\ r_rule_predictions r = _run_rules (rules self) txn).
Proof.
  intros Hnd. split; [now apply run_rules_outcomes|].
  intros data Hpre Hrec. unfold detect_fraud. rewrite Hpre, Hrec.
  eexists _, _. split; reflexivity.
Qed.

(** C3 (amended): in every scoring call in which each model prediction that
    is not marked error has its fraud_probability and confidence_score in
    [0, 1], the verdict's fraud_probability, risk_score, confidence_score
    and composite_risk_score all lie in [0, 1]. *)
Theorem verdict_scores_in_unit_interval (settings : Settings)
    (self self' : detector) (txn : gmap string val) (clk : clock)
    (r : detection) :
  rules self = _load_rules ->
  detect_fraud settings self txn clk = (inr r, self') ->
  Forall in_unit (successful "fraud_probability" (r_ml_predictions r)) ->
  Forall in_unit (successful "confidence_score" (r_ml_predictions r)) ->
  in_unit (r_fraud_probability r)
  /\ in_unit (r_risk_score r)
  /\ in_unit (r_confidence_score r)
  /\ in_unit (composite_risk_score (r_risk_metrics r)).
Proof.
  intros Hrules Hcall Hprob Hconf.
  destruct (detect_fraud_inr _ _ _ _ _ _ Hcall)
    as ((data & _ & Hml) & Hrp & Hfp & Hrs & Hcs & _ & _ & Hrm & _).
  assert (Hmlwf : Forall (fun kv => ml_entry_wf kv.2) (r_ml_predictions r)).
  { rewrite Hml. apply run_ml_models_wf. }
  assert (Hrpwf : Forall (fun kv => rule_entry_wf kv.2) (r_rule_predictions r)).
  { rewrite Hrp, Hrules. apply run_rules_wf, load_rules_ok. }
  assert (HA : in_unit (mean_or 0.5 (successful "fraud_probability" (r_ml_predictions r)))).
  { apply mean_or_in_unit; [split; lra|exact Hprob]. }
  assert (HC : in_unit (mean_or 0.5 (successful "confidence_score" (r_ml_predictions r)))).
  { apply mean_or_in_unit; [split; lra|exact Hconf]. }
  assert (HB : in_unit (mean_or 0.1 (triggered_scores (r_rule_predictions r)))).
  { apply mean_or_in_unit; [split; lra|now apply triggered_scores_in_unit]. }
  assert (Hfinal : in_unit (r_fraud_probability r)).
  { rewrite Hfp. unfold _ensemble_predictions.
    rewrite (ensemble_try_wf settings _ _ Hmlwf Hrpwf). cbn [fraud_probability].
    destruct HA, HB. split; lra. }
  split; [exact Hfinal|]. split; [|split].
  - rewrite Hrs. unfold _ensemble_predictions.
    rewrite (ensemble_try_wf settings _ _ Hmlwf Hrpwf). exact HB.
  - rewrite Hcs. unfold _ensemble_predictions.
    rewrite (ensemble_try_wf settings _ _ Hmlwf Hrpwf). exact HC.
  - rewrite Hrm. apply risk_metrics_in_unit. rewrite <- Hfp. exact Hfinal.
Qed.

(** C8 (amended): in every scoring call whose amount converts to a number,
    the risk factors are exactly the enumerated ones (amount above 10,000,
    latitude absent, ip_address absent) and the composite risk score is
    base_fraud_probability x (1 + 0.1 x number of risk factors) capped at 1
    from above only; it equals the clamp to [0, 1] whenever the base
    probability is not negative. *)
Theorem composite_risk_is_capped_product (settings : Settings)
    (self self' : detector) (txn : gmap string val) (clk : clock)
    (r : detection) (amount : Q) :
  detect_fraud settings self txn clk = (inr r, self') ->
  py_float (dict_get_default txn "amount" (VNum 0)) = inr amount ->
  let factors := enumerated_risk_factors amount txn in
  let x := composite_formula (r_fraud_probability r) (length factors) in
  risk_factors (r_risk_metrics r) = factors
  /\ composite_risk_score (r_risk_metrics r) == Qmin 1 x
  /\ (0 <= r_fraud_probability r ->
      composite_risk_score (r_risk_metrics r) == clamp01 x).
Proof.
  intros Hcall Hamount factors x.
  destruct (detect_fraud_inr _ _ _ _ _ _ Hcall)
    as (_ & _ & Hfp & _ & _ & _ & _ & Hrm & _).
  destruct (risk_metrics_try_inr (_ensemble_predictions settings
              (r_ml_predictions r) (r_rule_predictions r)) txn amount Hamount)
    as (m & Hm & Hfactors & Hcomp).
  unfold _calculate_risk_metrics in Hrm. rewrite Hm in Hrm. subst m.
  rewrite <- Hfp in Hcomp.
  assert (Hx : composite_risk_score (r_risk_metrics r) == Qmin 1 x).
  { rewrite Hcomp, py_min_Qmin. subst x factors. unfold composite_formula.
    apply Q.min_compat; [reflexivity|]. lra. }
  split; [exact Hfactors|]. split; [exact Hx|].
  intros Hbase. rewrite Hx. symmetry. apply clamp01_nonneg.
  subst x. unfold composite_formula. apply Qmult_le_0_compat; [exact Hbase|].
  assert (0 <= inject_Z (Z.of_nat (length factors))).
  { change 0 with (inject_Z 0). rewrite <- Zle_Qle. lia. }
  lra.
Qed.

(** C10 (amended): a successful scoring call increments [prediction_count]
    by exactly one, and after any run of calls from a fresh detector the
    count is the number of successful calls and, when there is one,
    [avg_prediction_time], with the update of [_update_performance_metrics]
    evaluated in exact arithmetic, is the arithmetic mean of their recorded
    prediction times.  In binary64 the update rounds at every call and the
    stored value can differ from the mean in the last bits. *)
Theorem performance_counters_track_mean (settings : Settings)
    (ms : odict model) (pre : option preprocessor)
    (calls : list (gmap string val * clock)) :
  (forall self txn clk r self',
      detect_fraud settings self txn clk = (inr r, self') ->
      prediction_count self' = (prediction_count self + 1)%Z)
  /\ (let out := run_calls settings (init ms pre) calls in
      let ts := successful_times out.1 in
      prediction_count out.2 = Z.of_nat (length ts)
      /\ (ts <> [] -> avg_prediction_time out.2 == arithmetic_mean ts)).
Proof.
  split.
  - intros self txn clk r self' Hcall.
    destruct (detect_fraud_inr _ _ _ _ _ _ Hcall)
      as (_ & _ & _ & _ & _ & _ & _ & _ & _ & ->). reflexivity.
  - intros out ts.
    destruct out as [rs self'] eqn:Hout. subst out. cbn [fst snd] in *.
    assert (Hinit : counters_track (init ms pre) []).
    { split; [reflexivity|]. simpl. lra. }
    destruct (run_calls_tracks settings calls _ _ _ _ Hinit Hout) as [Hc Ha].
    cbn [app] in Hc, Ha. fold ts in Hc, Ha. split; [exact Hc|].
    intros Hne. unfold arithmetic_mean.
    assert (Hn : 0 < inject_Z (Z.of_nat (length ts))).
    { change 0 with (inject_Z 0). rewrite <- Zlt_Qlt.
      destruct ts; [congruence|simpl; lia]. }
    rewrite <- Ha. field. lra.
Qed.

End FraudDetectorProperties.

(** * The fraud detector on sample inputs *)

Section FraudDetectorExamples.
Import FraudDetector Spec Samples.
#[local] Existing Instance stub_externals.

Lemma features_of_payment :
  _preprocess_transaction None payment
  = inr (Arr2 [[50; 50; 12; 0; 3; 4; 48; 2; 1; 0; 0; 1]]).
Proof. vm_compute. reflexivity. Qed.

Lemma features_of_large_payment :
  _preprocess_transaction None large_payment
  = inr (Arr2 [[15000; 15000; 12; 0; 3; 4; 48; 2; 1; 0; 0; 1]]).
Proof. vm_compute. reflexivity. Qed.

Lemma features_of_payment_without_category :
  _preprocess_transaction None payment_without_category
  = inr (Arr2 [[50; 50; 12; 0; 3; 4; 48; 2; 1; 0; 0; 0]]).
Proof. vm_compute. reflexivity. Qed.

Lemma ensemble_formula_witness :
  exists r self',
    detect_fraud default_settings (detector_with "classifier" (classifier 0.9))
      large_payment (tick 5) = (inr r, self')
    /\ r_fraud_probability r == 0.87
    /\ r_is_fraud r = true
    /\ r_fraud_probability r ==
         0.7 * ml_aggregate (r_ml_predictions r)
         + 0.3 * rule_aggregate (r_rule_predictions r)
    /\ (r_is_fraud r = true
        <-> FRAUD_THRESHOLD default_settings < r_fraud_probability r).
Proof.
  destruct (detect_fraud_returns default_settings
              (detector_with "classifier" (classifier 0.9)) large_payment (tick 5) _
              features_of_large_payment eq_refl)
    as (r & Hcall & _ & _ & Hfp & _ & _ & Hfraud & _).
  exists r, (_update_performance_metrics
               (detector_with "classifier" (classifier 0.9)) (elapsed_ms (tick 5))).
  split; [exact Hcall|].
  split; [rewrite Hfp; vm_compute; reflexivity|].
  split; [rewrite Hfraud; vm_compute; reflexivity|].
  destruct (ensemble_formula default_settings
              (detector_with "classifier" (classifier 0.9)) _ _ _ _ eq_refl Hcall)
    as (Hformula & Hiff & _).
  split; [exact Hformula|exact Hiff].
Defined.

Lemma ensemble_fallback_witness :
  _ensemble_predictions_try default_settings [("error"%string, EStr "boom")] []
    = inl (Raise AttributeError "'str' object has no attribute 'get'")
  /\ _ensemble_predictions default_settings [("error"%string, EStr "boom")] []
     = {| fraud_probability := 0.5;
          risk_score := 0.5;
          confidence_score := 0.5;
          is_fraud := false;
          method := "fallback" |}.
Proof.
  split; [reflexivity|].
  apply (ensemble_fallback_on_exception default_settings _ _
           (Raise AttributeError "'str' object has no attribute 'get'")).
  reflexivity.
Defined.

(** A model without [predict_proba] that scores 2 pushes the final
    probability of a valid payment to 1.43. *)
Lemma verdict_scores_counterexample :
  exists r self',
    valid_transaction payment
    /\ detect_fraud default_settings (detector_with "scorer" (scorer 2))
         payment (tick 5) = (inr r, self')
    /\ r_fraud_probability r == 1.43
    /\ ~ in_unit (r_fraud_probability r).
Proof.
  destruct (detect_fraud_returns default_settings
              (detector_with "scorer" (scorer 2)) payment (tick 5) _
              features_of_payment eq_refl)
    as (r & Hcall & _ & _ & Hfp & _).
  assert (Hvalue : r_fraud_probability r == 1.43).
  { rewrite Hfp. vm_compute. reflexivity. }
  exists r, (_update_performance_metrics
               (detector_with "scorer" (scorer 2)) (elapsed_ms (tick 5))).
  split; [exists 50; split; [reflexivity|lra]|].
  split; [exact Hcall|]. split; [exact Hvalue|].
  intros [_ Hle]. rewrite Hvalue in Hle. lra.
Qed.

Lemma verdict_scores_in_unit_interval_witness :
  exists r self',
    detect_fraud default_settings (detector_with "classifier" (classifier 0.9))
      large_payment (tick 5) = (inr r, self')
    /\ in_unit (r_fraud_probability r)
    /\ in_unit (r_risk_score r)
    /\ in_unit (r_confidence_score r)
    /\ in_unit (composite_risk_score (r_risk_metrics r)).
Proof.
  destruct (detect_fraud_returns default_settings
              (detector_with "classifier" (classifier 0.9)) large_payment (tick 5) _
              features_of_large_payment eq_refl)
    as (r & Hcall & Hml & _).
  exists r, (_update_performance_metrics
               (detector_with "classifier" (classifier 0.9)) (elapsed_ms (tick 5))).
  split; [exact Hcall|].
  apply (verdict_scores_in_unit_interval default_settings
           (detector_with "classifier" (classifier 0.9)) _ _ _ _ eq_refl Hcall).
  - rewrite Hml.
    replace (successful "fraud_probability" _) with [0.9]
      by (vm_compute; reflexivity).
    constructor; [split; lra|constructor].
  - rewrite Hml.
    replace (successful "confidence_score" _) with [0.9]
      by (vm_compute; reflexivity).
    constructor; [split; lra|constructor].
Defined.

Lemma rule_failures_are_isolated_witness :
  NoDup (map fst (rules (init [] None)))
  /\ _merchant_risk_rule payment_without_category
     = inl (Raise AttributeError "object has no attribute 'lower'")
  /\ _run_rules (rules (init [] None)) payment_without_category
     = map (fun nr => (nr.1, rule_outcome nr.2 payment_without_category))
         (rules (init [] None))
  /\ exists r self',
       detect_fraud default_settings (init [] None) payment_without_category
         (tick 5) = (inr r, self')
       /\ r_rule_predictions r
          = _run_rules (rules (init [] None)) payment_without_category.
Proof.
  assert (Hnd : NoDup (map fst (rules (init [] None)))).
  { apply (bool_decide_unpack _). vm_compute. exact I. }
  split; [exact Hnd|]. split; [vm_compute; reflexivity|].
  destruct (rule_failures_are_isolated default_settings (init [] None)
              payment_without_category (tick 5) Hnd) as [Hentries Hcall].
  split; [exact Hentries|].
  exact (Hcall _ features_of_payment_without_category eq_refl).
Defined.

(** A model without [predict_proba] that scores -1 drives the base
    probability of a payment to -0.67; the composite score is -0.67 as well,
    where the clamp to [0, 1] would give 0. *)
Lemma composite_risk_counterexample :
  exists r self',
    detect_fraud default_settings (detector_with "scorer" (scorer (-1)))
      payment (tick 5) = (inr r, self')
    /\ py_float (dict_get_default payment "amount" (VNum 0)) = inr 50
    /\ enumerated_risk_factors 50 payment = []
    /\ r_fraud_probability r == -0.67
    /\ composite_risk_score (r_risk_metrics r) == -0.67
    /\ ~ composite_risk_score (r_risk_metrics r)
         == clamp01 (composite_formula (r_fraud_probability r)
                       (length (enumerated_risk_factors 50 payment))).
Proof.
  destruct (detect_fraud_returns default_settings
              (detector_with "scorer" (scorer (-1))) payment (tick 5) _
              features_of_payment eq_refl)
    as (r & Hcall & _ & _ & Hfp & _ & _ & _ & Hrm).
  assert (Hbase : r_fraud_probability r == -0.67).
  { rewrite Hfp. vm_compute. reflexivity. }
  assert (Hcomp : composite_risk_score (r_risk_metrics r) == -0.67).
  { rewrite Hrm. vm_compute. reflexivity. }
  assert (Hfactors : enumerated_risk_factors 50 payment = []).
  { vm_compute. reflexivity. }
  exists r, (_update_performance_metrics
               (detector_with "scorer" (scorer (-1))) (elapsed_ms (tick 5))).
  split; [exact Hcall|]. split; [vm_compute; reflexivity|].
  split; [exact Hfactors|]. split; [exact Hbase|]. split; [exact Hcomp|].
  rewrite Hfactors, Hcomp. intros Heq.
  assert (Hclamp : 0 <= clamp01 (composite_formula (r_fraud_probability r) (length (@nil string)))).
  { unfold clamp01. apply Q.le_max_l. }
  rewrite <- Heq in Hclamp. lra.
Qed.

Lemma composite_risk_is_capped_product_witness :
  exists r self',
    detect_fraud default_settings (detector_with "classifier" (classifier 0.9))
      large_payment (tick 5) = (inr r, self')
    /\ py_float (dict_get_default large_payment "amount" (VNum 0)) = inr 15000
    /\ risk_factors (r_risk_metrics r) = ["high_amount"%string]
    /\ composite_risk_score (r_risk_metrics r) == 0.957.
Proof.
  destruct (detect_fraud_returns default_settings
              (detector_with "classifier" (classifier 0.9)) large_payment (tick 5) _
              features_of_large_payment eq_refl)
    as (r & Hcall & _ & _ & Hfp & _).
  assert (Hamount : py_float (dict_get_default large_payment "amount" (VNum 0))
                    = inr 15000) by (vm_compute; reflexivity).
  assert (Hbase : r_fraud_probability r == 0.87).
  { rewrite Hfp. vm_compute. reflexivity. }
  exists r, (_update_performance_metrics
               (detector_with "classifier" (classifier 0.9)) (elapsed_ms (tick 5))).
  split; [exact Hcall|]. split; [exact Hamount|].
  destruct (composite_risk_is_capped_product default_settings _ _ _ _ _ _
              Hcall Hamount) as (Hfactors & Hcomp & _).
  split.
  - rewrite Hfactors. vm_compute. reflexivity.
  - rewrite Hcomp.
    replace (enumerated_risk_factors 15000 large_payment)
      with ["high_amount"%string] by (vm_compute; reflexivity).
    unfold composite_formula. rewrite Hbase. vm_compute. reflexivity.
Defined.

Lemma performance_counters_witness :
  let out := run_calls default_settings (init [] None)
               [(payment, tick 4); (large_payment, tick 6)] in
  successful_times out.1 = [4; 6]
  /\ prediction_count out.2 = 2%Z
  /\ avg_prediction_time out.2 == 5.
Proof.
  intros out.
  assert (Hts : successful_times out.1 = [4; 6]) by (vm_compute; reflexivity).
  destruct (performance_counters_track_mean default_settings [] None
              [(payment, tick 4); (large_payment, tick 6)]) as [_ [Hcount Havg]].
  fold out in Hcount, Havg. rewrite Hts in Hcount, Havg.
  split; [exact Hts|]. split; [exact Hcount|].
  rewrite (Havg ltac:(discriminate)). vm_compute. reflexivity.
Defined.

End FraudDetectorExamples.

(** ** The running average in binary64 *)

Section RunningAverageBinary64.
Import Floats Spec FraudDetectorBinary64 Binary64Spec.

(** Four successful calls that take 0.1, 0.2, 0.6 and 0.1 ms leave
    [avg_prediction_time] at 0.24999999999999997.  The mean of the four
    recorded times is larger; computed in binary64 it is 0.25. *)
Lemma running_average_counterexample :
  let out := run_updates recorded_times in
  prediction_count out = 4%Z
  /\ avg_prediction_time out = 0x1.fffffffffffffp-3%float
  /\ float_mean recorded_times = 0x1p-2%float
  /\ exists a ts,
       exact (avg_prediction_time out) = Some a
       /\ map exact recorded_times = map Some ts
       /\ a < arithmetic_mean ts.
Proof.
  intros out.
  split; [vm_compute; reflexivity|].
  split; [vm_compute; reflexivity|].
  split; [vm_compute; reflexivity|].
  eexists _, [_; _; _; _].
  split; [vm_compute; reflexivity|].
  split; [vm_compute; reflexivity|].
  vm_compute. reflexivity.
Qed.

End RunningAverageBinary64.

(** * Properties of the anomaly model *)

Section AutoencoderProperties.
Import AutoencoderModel AutoencoderSpec.

(** ** Sorting *)

Lemma Qinsert_In (a x : Q) (l : list Q) :
  In x (Qinsert a l) <-> x = a \/ In x l.
Proof.
  induction l as [|y l IH]; simpl.
  - intuition.
  - destruct (Qle_bool a y); simpl; [intuition|]. rewrite IH. intuition.
Qed.

Lemma Qsort_In (x : Q) (l : list Q) : In x (Qsort l) <-> In x l.
Proof.
  unfold Qsort. induction l as [|a l IH]; simpl; [reflexivity|].
  rewrite Qinsert_In, IH. intuition.
Qed.

Lemma Qinsert_length (a : Q) (l : list Q) : length (Qinsert a l) = S (length l).
Proof.
  induction l as [|y l IH]; simpl; [reflexivity|].
  destruct (Qle_bool a y); simpl; [reflexivity|]. now rewrite IH.
Qed.

Lemma Qsort_length (l : list Q) : length (Qsort l) = length l.
Proof.
  unfold Qsort. induction l as [|a l IH]; simpl; [reflexivity|].
  now rewrite Qinsert_length, IH.
Qed.

Lemma Qinsert_increasing (a : Q) (l : list Q) :
  increasing l -> increasing (Qinsert a l).
Proof.
  induction l as [|y l IH]; simpl; intros Hl.
  - split; [constructor|exact I].
  - destruct Hl as [Hy Hl]. destruct (Qle_bool a y) eqn:E; simpl.
    + apply Qle_bool_iff in E. split; [|split; assumption].
      constructor; [exact E|].
      eapply Forall_impl; [exact Hy|]. intros z Hz. simpl in Hz. lra.
    + assert (Hya : y <= a).
      { apply Qlt_le_weak, Qnot_le_lt. intros Hle.
        apply Qle_bool_iff in Hle. congruence. }
      split; [|now apply IH].
      apply List.Forall_forall. intros z Hz. apply Qinsert_In in Hz as [->|Hz].
      * exact Hya.
      * rewrite List.Forall_forall in Hy. now apply Hy.
Qed.

Lemma Qsort_increasing (l : list Q) : increasing (Qsort l).
Proof.
  unfold Qsort. induction l as [|a l IH]; simpl; [exact I|].
  now apply Qinsert_increasing.
Qed.

Lemma increasing_nth (l : list Q) (d : Q) : forall i j,
  increasing l -> (i <= j)%nat -> (j < length l)%nat -> nth i l d <= nth j l d.
Proof.
  induction l as [|x l IH]; intros i j Hl Hij Hj; simpl in Hj; [lia|].
  destruct Hl as [Hx Hl]. destruct i as [|i], j as [|j]; simpl; try lia.
  - lra.
  - rewrite List.Forall_forall in Hx. apply Hx, nth_In. lia.
  - apply IH; [assumption|lia|lia].
Qed.

(** ** Percentiles *)

(** Inside its range and on a non-empty sample, [np_percentile] returns a
    value between two elements of the sample. *)
Lemma np_percentile_between (a : list Q) (q : Q) :
  a <> [] -> 0 <= q -> q <= 100 ->
  exists t lo hi,
    np_percentile a q = inr t /\ In lo a /\ In hi a /\ lo <= t /\ t <= hi.
Proof.
  intros Hne Hq0 Hq100. unfold np_percentile.
  assert (Hr : Qltb q 0 || Qltb 100 q = false).
  { apply orb_false_iff. split; apply Qltb_false; assumption. }
  rewrite Hr.
  pose proof (Qsort_length a) as Hlen.
  pose proof (Qsort_increasing a) as Hinc.
  assert (Hin : forall x, In x (Qsort a) -> In x a) by (intros x; apply Qsort_In).
  destruct (Qsort a) as [|x0 s'] eqn:Es.
  { destruct a; [congruence|discriminate Hlen]. }
  set (s := x0 :: s') in *. set (n := length s).
  set (h := inject_Z (Z.of_nat (n - 1)) * q / 100).
  assert (Hn : (1 <= n)%nat) by (subst n s; simpl; lia).
  assert (Hn0 : 0 <= inject_Z (Z.of_nat (n - 1))) by apply inject_Z_nat_nonneg.
  assert (Hh0 : 0 <= h).
  { subst h. apply Qle_shift_div_l; [lra|]. rewrite Qmult_0_l.
    apply Qmult_le_0_compat; assumption. }
  assert (Hh1 : h <= inject_Z (Z.of_nat (n - 1))).
  { subst h. apply Qle_shift_div_r; [lra|]. nra. }
  pose proof (Qfloor_le h) as Hfl. pose proof (Qlt_floor h) as Hfu.
  assert (Hf0 : (0 <= Qfloor h)%Z).
  { rewrite <- (Qfloor_Z 0). now apply Qfloor_resp_le. }
  assert (Hf1 : (Qfloor h <= Z.of_nat (n - 1))%Z).
  { rewrite <- (Qfloor_Z (Z.of_nat (n - 1))). now apply Qfloor_resp_le. }
  set (lo := Z.to_nat (Qfloor h)). set (hi := Nat.min (lo + 1) (n - 1)).
  assert (Hlo : (lo <= n - 1)%nat) by (subst lo; lia).
  assert (Hlohi : (lo <= hi)%nat) by (subst hi; lia).
  assert (Hhi : (hi < n)%nat) by (subst hi; lia).
  set (gamma := h - inject_Z (Qfloor h)).
  assert (Hg0 : 0 <= gamma) by (subst gamma; lra).
  assert (Hg1 : gamma <= 1).
  { subst gamma. rewrite inject_Z_plus in Hfu. change (inject_Z 1) with 1 in Hfu. lra. }
  pose proof (increasing_nth s x0 lo hi Hinc Hlohi Hhi) as Hle.
  exists (nth lo s x0 + gamma * (nth hi s x0 - nth lo s x0)), (nth lo s x0), (nth hi s x0).
  split; [reflexivity|].
  split; [apply Hin, nth_In; fold n; lia|].
  split; [apply Hin, nth_In; exact Hhi|].
  split; nra.
Qed.
(** C5 (amended): after fitting, [_calculate_threshold] sets the decision
    threshold to the 95th percentile of the per-sample reconstruction error on
    the training data, a value between two of these errors, whatever else is
    asked; there is no contamination rate to choose the percentile.  When the
    errors cannot be computed the threshold is the constant 0.1. *)
Theorem calculate_threshold_is_95th_percentile (self : model) (X : matrix) :
  (forall errs,
      reconstruction_errors X (predict self X) = inr errs -> errs <> [] ->
      exists t lo hi,
        threshold (_calculate_threshold self X) = Some t
        /\ np_percentile errs 95 = inr t
        /\ In lo errs /\ In hi errs /\ lo <= t /\ t <= hi)
  /\ (forall e,
        reconstruction_errors X (predict self X) = inl e ->
        threshold (_calculate_threshold self X) = Some 0.1).
Proof.
  split.
  - intros errs Herrs Hne.
    destruct (np_percentile_between errs 95 Hne) as (t & lo & hi & Ht & Hrest);
      [lra|lra|].
    exists t, lo, hi. split; [|split; [exact Ht|exact Hrest]].
    unfold _calculate_threshold. rewrite Herrs. cbn [bind]. rewrite Ht.
    reflexivity.
  - intros e Herrs. unfold _calculate_threshold. rewrite Herrs. reflexivity.
Qed.

End AutoencoderProperties.

Section AutoencoderExamples.
Import AutoencoderModel AutoencoderSpec.

Lemma calculate_threshold_is_95th_percentile_witness :
  reconstruction_errors [[0]; [1]; [2]] (predict origin_network [[0]; [1]; [2]])
    = inr [0 * 0 / 1; 1 * 1 / 1; 2 * 2 / 1]
  /\ exists t,
       threshold (_calculate_threshold origin_network [[0]; [1]; [2]]) = Some t
       /\ t == 3.7.
Proof.
  assert (Herrs : reconstruction_errors [[0]; [1]; [2]]
                    (predict origin_network [[0]; [1]; [2]])
                  = inr [0 * 0 / 1; 1 * 1 / 1; 2 * 2 / 1]).
  { vm_compute. reflexivity. }
  split; [exact Herrs|].
  destruct (proj1 (calculate_threshold_is_95th_percentile origin_network
                     [[0]; [1]; [2]]) _ Herrs ltac:(discriminate))
    as (t & lo & hi & Ht & Hp & _).
  exists t. split; [exact Ht|].
  assert (Hv : exists v, np_percentile [0 * 0 / 1; 1 * 1 / 1; 2 * 2 / 1] 95 = inr v
                         /\ v == 3.7).
  { eexists. split; [vm_compute; reflexivity|reflexivity]. }
  destruct Hv as (v & Hv & Hv37). rewrite Hv in Hp.
  injection Hp as <-. exact Hv37.
Defined.

(** On the errors 0 and 1 the code sets the threshold 0.95 where the 90th
    percentile of the specification is 0.9. *)
Lemma calibrate_threshold_counterexample :
  exists t s,
    threshold (_calculate_threshold origin_network [[0]; [1]]) = Some t
    /\ spec_calibrate_threshold origin_network [[0]; [1]] spec_default_percentile
       = inr s
    /\ t == 0.95 /\ s == 0.9 /\ ~ t == s.
Proof.
  eexists _, _. split; [vm_compute; reflexivity|].
  split; [vm_compute; reflexivity|].
  split; [reflexivity|]. split; [reflexivity|].
  intros Heq. vm_compute in Heq. discriminate Heq.
Qed.

End AutoencoderExamples.

(** * Properties of the preprocessor *)

Section PreprocessorProperties.
Import TransactionPreprocessor PreprocessorSpec PreprocessorSamples.
Context `{Externals}.

(** ** Shape of the frame of features *)

Lemma insert_by_key_length (x : features) (l : list features) :
  length (insert_by_key x l) = S (length l).
Proof.
  induction l as [|y l IH]; simpl; [reflexivity|].
  destruct (key_le x y); simpl; [reflexivity|]. now rewrite IH.
Qed.

Lemma sort_by_key_length (l : list features) :
  length (sort_by_key l) = length l.
Proof.
  unfold sort_by_key. induction l as [|x l IH]; simpl; [reflexivity|].
  now rewrite insert_by_key_length, IH.
Qed.

Lemma add_velocity_length (l : list features) : forall prev,
  length (add_velocity prev l) = length l.
Proof. induction l as [|f l IH]; intros prev; simpl; [reflexivity|]. now rewrite IH. Qed.

Lemma create_features_length (df : frame) :
  length (create_features df) = length (rows df).
Proof.
  unfold create_features.
  now rewrite add_velocity_length, sort_by_key_length, length_map.
Qed.

Lemma create_features_nonempty (df : frame) :
  rows df <> [] -> create_features df <> [].
Proof.
  intros Hne Hnil. apply (f_equal (@length _)) in Hnil.
  rewrite create_features_length in Hnil. destruct (rows df); [congruence|discriminate].
Qed.

(** ** Scalers *)

Lemma robust_fit_inr (col : list Q) :
  col <> [] -> exists sc, robust_fit col = inr sc.
Proof.
  intros Hne. unfold robust_fit. destruct col as [|x col]; [congruence|].
  destruct (np_percentile_between (x :: col) 50 Hne) as (med & _ & _ & -> & _); [lra|lra|].
  destruct (np_percentile_between (x :: col) 25 Hne) as (q25 & _ & _ & -> & _); [lra|lra|].
  destruct (np_percentile_between (x :: col) 75 Hne) as (q75 & _ & _ & -> & _); [lra|lra|].
  eexists. reflexivity.
Qed.

Lemma column_fillna0_nonempty get (fs : list features) :
  fs <> [] -> column_fillna0 get fs <> [].
Proof. unfold column_fillna0. destruct fs; [congruence|discriminate]. Qed.

Lemma fit_scalers_inr (fs : list features) (names : list string) :
  fs <> [] -> forall acc, exists scs, fit_scalers fs names acc = inr scs.
Proof.
  intros Hne. induction names as [|name names IH]; intros acc; cbn [fit_scalers].
  - eexists. reflexivity.
  - destruct (odict_get numeric_columns name) as [get|]; [|apply IH].
    destruct (robust_fit_inr (column_fillna0 get fs)) as (sc & ->).
    { now apply column_fillna0_nonempty. }
    cbn [bind]. apply IH.
Qed.

Lemma fit_succeeds (self : state) (df : frame) :
  rows df <> [] ->
  exists scs,
    fit self df =
      inr {| scalers := scs;
             encoders := fit_encoders df (create_features df)
                           categorical_features (encoders self);
             feature_names :=
               numerical_features
               ++ map (fun feat => feat +:+ "_encoded") categorical_features
               ++ binary_features;
             is_fitted := true |}.
Proof.
  intros Hne. unfold fit.
  destruct (fit_scalers_inr (create_features df) numerical_features
              (create_features_nonempty df Hne) (scalers self)) as (scs & ->).
  exists scs. reflexivity.
Qed.

Lemma transform_numerical_inr (fs : list features) :
  fs <> [] -> forall scs, exists cols, transform_numerical fs scs = inr cols.
Proof.
  intros Hne. induction scs as [|[name sc] scs (cols & IH)]; cbn [transform_numerical].
  - eexists. reflexivity.
  - destruct (odict_get numeric_columns name) as [get|]; [|eauto].
    unfold robust_transform.
    destruct (column_fillna0 get fs) eqn:E.
    { exfalso. now apply (column_fillna0_nonempty get fs Hne). }
    cbn [bind]. rewrite IH. eexists. reflexivity.
Qed.

(** ** Label encoding *)

Lemma encode_values_unseen (classes vals : list string) (v : string) :
  In v vals ->
  index_of v classes 0 = None ->
  index_of "unknown" classes 0 = None ->
  encode_values classes vals
  = inl (Raise ValueError "y contains previously unseen labels").
Proof.
  intros Hin Hv Hu. induction vals as [|w vals IH]; [destruct Hin|].
  cbn [encode_values]. unfold label_transform at 1.
  destruct (index_of w classes 0) as [i|] eqn:Ew.
  - cbn [bind ret]. destruct Hin as [->|Hin]; [congruence|].
    rewrite (IH Hin). reflexivity.
  - unfold label_transform. rewrite Hu. reflexivity.
Qed.

Lemma encode_values_with_unknown (classes : list string) (v : string) (u : nat) :
  index_of "unknown" classes 0 = Some u ->
  unseen_maps_to_unknown classes v.
Proof.
  intros Hu. unfold unseen_maps_to_unknown. cbn [encode_values].
  unfold label_transform. destruct (index_of v classes 0) as [i|] eqn:Ev.
  - eexists. split; [reflexivity|]. discriminate.
  - rewrite Hu. eexists. split; [reflexivity|]. reflexivity.
Qed.

(** C7 (the code on the failing input): fitted on a frame whose merchant
    column has no missing value, the label encoder has no class ['unknown'],
    and [transform] raises [ValueError] on a transaction with an unseen
    merchant instead of mapping it to the unknown bucket. *)
Theorem unseen_category_raises_without_unknown_class :
  exists st,
    fit new corpus = inr st
    /\ index_of "kiosk" (default [] (odict_get (encoders st) "merchant")) 0 = None
    /\ transform st (single (incoming 100 "kiosk"))
       = inl (Raise ValueError "y contains previously unseen labels")
    /\ ~ unseen_maps_to_unknown
           (default [] (odict_get (encoders st) "merchant")) "kiosk".
Proof.
  destruct (fit_succeeds new corpus) as (scs & Hfit); [discriminate|].
  eexists. split; [exact Hfit|].
  split; [vm_compute; reflexivity|]. split.
  - unfold transform. cbn [is_fitted negb scalers encoders].
    destruct (transform_numerical_inr
                (create_features (single (incoming 100 "kiosk")))
                (create_features_nonempty (single (incoming 100 "kiosk"))
                   ltac:(simpl; discriminate)) scs) as (cols & ->).
    cbn [bind]. vm_compute. reflexivity.
  - intros (code & Hcode & _).
    rewrite (encode_values_unseen _ ["kiosk"%string] "kiosk") in Hcode.
    + discriminate Hcode.
    + now left.
    + vm_compute. reflexivity.
    + vm_compute. reflexivity.
Qed.


Lemma fit_scalers_cons fs name rest acc scs get :
  odict_get numeric_columns name = Some get ->
  fit_scalers fs (name :: rest) acc = inr scs ->
  exists sc, fit_scalers fs rest (odict_set acc name sc) = inr scs.
Proof.
  intros Hget Hfit. cbn [fit_scalers] in Hfit. rewrite Hget in Hfit.
  apply bind_inr in Hfit as (sc & _ & Hfit). now exists sc.
Qed.

(** [fit] on a fresh preprocessor stores one scaler per numerical feature,
    in the order of [numerical_features]. *)
Lemma fit_scalers_shape (df : frame) (st : state) :
  fit new df = inr st ->
  is_fitted st = true
  /\ exists s0 s1 s2 s3 s4 s5 s6 s7 s8 s9,
       scalers st =
         [ ("amount"%string, s0); ("amount_log"%string, s1);
           ("hour"%string, s2); ("day_of_week"%string, s3);
           ("amount_mean"%string, s4); ("amount_std"%string, s5);
           ("amount_min"%string, s6); ("amount_max"%string, s7);
           ("merchant_frequency"%string, s8);
           ("time_since_last"%string, s9) ].
Proof.
  unfold fit. intros Hfit. apply bind_inr in Hfit as (scs & Hscs & Hst).
  inversion Hst; subst; clear Hst. cbn [is_fitted scalers]. split; [reflexivity|].
  unfold numerical_features in Hscs. cbn [scalers new] in Hscs.
  eapply fit_scalers_cons in Hscs as (s0 & Hscs); [|reflexivity].
  eapply fit_scalers_cons in Hscs as (s1 & Hscs); [|reflexivity].
  eapply fit_scalers_cons in Hscs as (s2 & Hscs); [|reflexivity].
  eapply fit_scalers_cons in Hscs as (s3 & Hscs); [|reflexivity].
  eapply fit_scalers_cons in Hscs as (s4 & Hscs); [|reflexivity].
  eapply fit_scalers_cons in Hscs as (s5 & Hscs); [|reflexivity].
  eapply fit_scalers_cons in Hscs as (s6 & Hscs); [|reflexivity].
  eapply fit_scalers_cons in Hscs as (s7 & Hscs); [|reflexivity].
  eapply fit_scalers_cons in Hscs as (s8 & Hscs); [|reflexivity].
  eapply fit_scalers_cons in Hscs as (s9 & Hscs); [|reflexivity].
  cbn [fit_scalers] in Hscs. inversion Hscs; subst; clear Hscs.
  exists s0, s1, s2, s3, s4, s5, s6, s7, s8, s9. reflexivity.
Qed.

Lemma transform_numerical_cons (f : features) name sc rest get :
  odict_get numeric_columns name = Some get ->
  transform_numerical [f] ((name, sc) :: rest)
  = (do cols <- transform_numerical [f] rest ;;
     ret ([(default 0 (get f) - center sc) / scale sc] :: cols)).
Proof. intros Hget. cbn [transform_numerical]. rewrite Hget. reflexivity. Qed.

Lemma create_features_single (df : frame) (r : row) :
  rows df = [r] ->
  create_features df = [with_velocity (features_of [r] r) 24].
Proof. intros Hrows. unfold create_features. rewrite Hrows. reflexivity. Qed.

(** The aggregates of a frame that holds one transaction are those of that
    transaction alone. *)
Lemma Qlist_min_single (a : Q) : Qlist_min a [a] == a.
Proof. unfold Qlist_min. cbn [fold_left]. destruct (Qltb a a); reflexivity. Qed.

Lemma Qlist_max_single (a : Q) : Qlist_max a [a] == a.
Proof. unfold Qlist_max. cbn [fold_left]. destruct (Qltb a a); reflexivity. Qed.

Lemma Qmean_single (a : Q) : Qmean [a] == a.
Proof.
  unfold Qmean, Qsum. cbn [fold_left length].
  change (inject_Z (Z.of_nat 1)) with 1. field.
Qed.

Lemma group_of_single (r : row) : group_of [r] (user_id r) = [r].
Proof. unfold group_of. cbn [List.filter]. now rewrite String.eqb_refl. Qed.

(** The aggregates of a frame that holds one transaction are those of that
    transaction alone. *)
Lemma stats_of_single (r : row) :
  let s := stats_of [r] (user_id r) in
  amount_mean s == amount r /\ amount_std s == 0
  /\ amount_min s == amount r /\ amount_max s == amount r
  /\ amount_count s == 1.
Proof.
  unfold stats_of. rewrite group_of_single.
  cbn [map amount_mean amount_std amount_min amount_max amount_count hd length
       sample_std].
  split; [apply Qmean_single|]. split; [reflexivity|].
  split; [apply Qlist_min_single|]. split; [apply Qlist_max_single|].
  reflexivity.
Qed.

(** C6 (amended): at inference time [transform] recomputes the per-identity
    aggregates from the frame it is given, with [create_features]; the
    fitted state only holds scalers and encoders.  For a single incoming
    transaction the aggregate entries of the feature vector are therefore
    those of that transaction alone (mean, minimum and maximum equal to its
    amount, standard deviation 0), scaled by the fitted scalers. *)
Theorem single_transaction_aggregates_are_its_own (corpus df : frame)
    (st : state) (r : row) (out : list (list Q)) :
  fit new corpus = inr st ->
  rows df = [r] ->
  transform st df = inr out ->
  exists v sc_mean sc_std sc_min sc_max,
    out = [v]
    /\ odict_get (scalers st) "amount_mean" = Some sc_mean
    /\ odict_get (scalers st) "amount_std" = Some sc_std
    /\ odict_get (scalers st) "amount_min" = Some sc_min
    /\ odict_get (scalers st) "amount_max" = Some sc_max
    /\ nth mean_index v 0 == (amount r - center sc_mean) / scale sc_mean
    /\ nth std_index v 0 == (0 - center sc_std) / scale sc_std
    /\ nth min_index v 0 == (amount r - center sc_min) / scale sc_min
    /\ nth max_index v 0 == (amount r - center sc_max) / scale sc_max.
Proof.
  intros Hfit Hrows Htransform.
  destruct (fit_scalers_shape corpus st Hfit)
    as (Hfitted & s0 & s1 & s2 & s3 & s4 & s5 & s6 & s7 & s8 & s9 & Hscalers).
  unfold transform in Htransform.
  rewrite Hfitted, (create_features_single df r Hrows), Hscalers in Htransform.
  cbn [negb] in Htransform.
  set (f := with_velocity (features_of [r] r) 24) in *.
  repeat (erewrite transform_numerical_cons in Htransform by reflexivity).
  cbn [transform_numerical bind ret] in Htransform.
  apply bind_inr in Htransform as (cats & _ & Hout).
  inversion Hout; subst out; clear Hout.
  cbn [length column_stack seq map app nth].
  eexists _, s4, s5, s6, s7. split; [reflexivity|].
  rewrite Hscalers. repeat (split; [reflexivity|]).
  destruct (stats_of_single r) as (Hmean & Hstd & Hmin & Hmax & _).
  unfold mean_index, std_index, min_index, max_index.
  cbn [nth default stats f with_velocity features_of].
  rewrite Hmean, Hstd, Hmin, Hmax. repeat split; reflexivity.
Qed.

Lemma insert_by_key_In (x f : features) (l : list features) :
  In f (insert_by_key x l) -> f = x \/ In f l.
Proof.
  induction l as [|y l IH]; simpl.
  - intuition.
  - destruct (key_le x y); simpl; [intuition|]. intros [->|Hin]; [auto|].
    destruct (IH Hin); auto.
Qed.

Lemma sort_by_key_In (f : features) (l : list features) :
  In f (sort_by_key l) -> In f l.
Proof.
  unfold sort_by_key. induction l as [|x l IH]; simpl; [auto|].
  intros Hin. apply insert_by_key_In in Hin as [->|Hin]; auto.
Qed.

Lemma add_velocity_In (f : features) (l : list features) : forall prev,
  In f (add_velocity prev l) -> exists g tsl, In g l /\ f = with_velocity g tsl.
Proof.
  induction l as [|x l IH]; intros prev; simpl; [intros []|].
  intros [<-|Hin].
  - eexists x, _. split; [now left|reflexivity].
  - destruct (IH _ Hin) as (g & tsl & Hg & ->). exists g, tsl. split; [now right|reflexivity].
Qed.

(** Every record of [create_features df] carries the statistics of its
    user's group in [df] itself. *)
Lemma create_features_stats (df : frame) (f : features) :
  In f (create_features df) ->
  In (raw f) (rows df) /\ stats f = stats_of (rows df) (user_id (raw f)).
Proof.
  unfold create_features. intros Hin.
  apply add_velocity_In in Hin as (g & tsl & Hg & ->).
  apply sort_by_key_In, in_map_iff in Hg as (r & <- & Hr).
  split; [exact Hr|reflexivity].
Qed.

(** When the training column had a missing value, ['unknown'] is a fitted
    class and an unseen value is encoded as that class. *)
Lemma unseen_category_maps_to_unknown_after_gap :
  exists st,
    fit new corpus_with_gap = inr st
    /\ odict_get (encoders st) "merchant" = Some ["market"; "unknown"]%string
    /\ unseen_maps_to_unknown ["market"; "unknown"]%string "kiosk"
    /\ exists out, transform st (single (incoming 100 "kiosk")) = inr out.
Proof.
  destruct (fit_succeeds new corpus_with_gap) as (scs & Hfit); [discriminate|].
  eexists. split; [exact Hfit|].
  split; [vm_compute; reflexivity|].
  split; [apply (encode_values_with_unknown _ _ 1); reflexivity|].
  unfold transform. cbn [is_fitted negb scalers encoders].
  destruct (transform_numerical_inr
              (create_features (single (incoming 100 "kiosk")))
              (create_features_nonempty (single (incoming 100 "kiosk"))
                 ltac:(simpl; discriminate)) scs) as (cols & ->).
  cbn [bind].
  assert (Hcat : exists cats,
             transform_categorical (single (incoming 100 "kiosk"))
               (create_features (single (incoming 100 "kiosk")))
               (fit_encoders corpus_with_gap (create_features corpus_with_gap)
                  categorical_features (encoders new)) = inr cats).
  { eexists. vm_compute. reflexivity. }
  destruct Hcat as (cats & ->). eexists. reflexivity.
Qed.
End PreprocessorProperties.

Section PreprocessorExamples.
Import TransactionPreprocessor PreprocessorSpec PreprocessorSamples.
#[local] Existing Instance stub_externals.

Lemma fit_corpus : fit new corpus = inr fitted.
Proof. vm_compute. reflexivity. Qed.

Lemma transform_incoming_100 :
  transform fitted (single (incoming 100 "market")) = inr [vector_of_100].
Proof. vm_compute. reflexivity. Qed.

Lemma transform_incoming_200 :
  transform fitted (single (incoming 200 "market")) = inr [vector_of_200].
Proof. vm_compute. reflexivity. Qed.

Lemma single_transaction_aggregates_witness :
  fit new corpus = inr fitted
  /\ transform fitted (single (incoming 100 "market")) = inr [vector_of_100]
  /\ exists sc_mean,
       odict_get (scalers fitted) "amount_mean" = Some sc_mean
       /\ nth mean_index vector_of_100 0 == (100 - center sc_mean) / scale sc_mean.
Proof.
  split; [exact fit_corpus|]. split; [exact transform_incoming_100|].
  destruct (single_transaction_aggregates_are_its_own corpus
              (single (incoming 100 "market")) fitted (incoming 100 "market")
              [vector_of_100] fit_corpus eq_refl transform_incoming_100)
    as (v & sc_mean & _ & _ & _ & Hout & Hsc & _ & _ & _ & Hmean & _).
  injection Hout as <-. exists sc_mean. split; [exact Hsc|exact Hmean].
Defined.

(** With the same fitted state, two transactions of the same user get
    different aggregate entries: each carries its own amount, where alice's
    mean amount in the training frame is 20. *)
Lemma aggregates_lookup_counterexample : ~ aggregates_looked_up_from_state.
Proof.
  intros (lookup & Hlookup).
  pose proof (Hlookup corpus fitted (incoming 100 "market") vector_of_100
                fit_corpus transform_incoming_100) as H100.
  pose proof (Hlookup corpus fitted (incoming 200 "market") vector_of_200
                fit_corpus transform_incoming_200) as H200.
  change (user_id (incoming 200 "market")) with (user_id (incoming 100 "market")) in H200.
  rewrite <- H200 in H100. vm_compute in H100. discriminate H100.
Qed.

End PreprocessorExamples.

(** * Further properties of the fraud detector *)

Section FraudDetectorFurther.
Import FraudDetector Spec ExtraSpec RiskSpec ModelSpec.
Context `{Externals}.

Lemma number_or_absent_float txn k :
  number_or_absent txn k ->
  exists q, py_float (dict_get_default txn k (VNum 0)) = inr q.
Proof.
  unfold dict_get_default. intros [->|[q ->]]; simpl; eauto.
Qed.

Lemma time_none_or_absent_cases txn :
  time_none_or_absent txn "timestamp" ->
  dict_get txn "timestamp" = VNone \/ exists t, dict_get txn "timestamp" = VTime t.
Proof.
  unfold dict_get. intros [->|[->|[t ->]]]; simpl; eauto.
Qed.

Lemma basic_preprocessing_twelve (txn : gmap string val) (a : ndarray) :
  _basic_preprocessing txn = inr a ->
  exists row, a = Arr2 [row] /\ length row = 12%nat.
Proof.
  intros Ha. unfold _basic_preprocessing in Ha.
  apply bind_inr in Ha as (amount & _ & Ha).
  apply bind_inr in Ha as (features & Hf & Ha).
  apply bind_inr in Ha as (lat & _ & Ha).
  apply bind_inr in Ha as (lon & _ & Ha).
  inversion Ha; subst; clear Ha. eexists. split; [reflexivity|].
  assert (Hlen : length features = 6%nat).
  { destruct (truthy (dict_get txn "timestamp")).
    - apply bind_inr in Hf as (dt & _ & Hf).
      apply bind_inr in Hf as (hour & _ & Hf).
      apply bind_inr in Hf as (weekday & _ & Hf).
      apply bind_inr in Hf as (month & _ & Hf).
      apply bind_inr in Hf as (day & _ & Hf).
      inversion Hf. reflexivity.
    - inversion Hf. reflexivity. }
  rewrite !length_app, Hlen. reflexivity.
Qed.

Lemma basic_preprocessing_returns (txn : gmap string val) :
  basic_inputs_ok txn -> exists row, _basic_preprocessing txn = inr (Arr2 [row]).
Proof.
  intros (Hamount & Htime & Hlat & Hlon). unfold _basic_preprocessing.
  destruct (number_or_absent_float _ _ Hamount) as (a & ->).
  destruct (number_or_absent_float _ _ Hlat) as (lat & ->).
  destruct (number_or_absent_float _ _ Hlon) as (lon & ->).
  destruct (time_none_or_absent_cases _ Htime) as [->|[t ->]]; cbn; eauto.
Qed.

(** X1: [_basic_preprocessing] returns one row of twelve features whenever it
    returns, and it returns on every transaction whose amount, latitude and
    longitude are numbers or absent and whose timestamp is a datetime, [None]
    or absent. *)
Theorem basic_preprocessing_shape (txn : gmap string val) :
  (forall a, _basic_preprocessing txn = inr a ->
     exists row, a = Arr2 [row] /\ length row = 12%nat)
  /\ (basic_inputs_ok txn -> exists row, _basic_preprocessing txn = inr (Arr2 [row])).
Proof.
  split; [apply basic_preprocessing_twelve|apply basic_preprocessing_returns].
Qed.
Lemma dict_get_cases (txn : gmap string val) (k : string) :
  number_none_or_absent txn k ->
  dict_get txn k = VNone \/ exists q, dict_get txn k = VNum q.
Proof. unfold dict_get. intros [->|[->|[q ->]]]; simpl; eauto. Qed.

Lemma rule_result_no_error t r s :
  contains_error (EDict (rule_result t r s)) = false.
Proof. reflexivity. Qed.

Lemma amount_rule_returns txn :
  number_or_absent txn "amount" -> exists d, _amount_threshold_rule txn = inr d.
Proof.
  intros Ha. unfold _amount_threshold_rule.
  destruct (number_or_absent_float _ _ Ha) as (a & ->). cbn [bind].
  destruct (Qgtb a 10000); [eauto|]. destruct (Qgtb a 5000); eauto.
Qed.

Lemma location_rule_returns txn :
  number_none_or_absent txn "latitude" ->
  number_none_or_absent txn "longitude" ->
  exists d, _location_rule txn = inr d.
Proof.
  intros Hlat Hlon. unfold _location_rule.
  destruct (dict_get_cases _ _ Hlat) as [->|[lat ->]]; [cbn; eauto|].
  destruct (dict_get_cases _ _ Hlon) as [->|[lon ->]]; [cbn; eauto|].
  cbn [is_none orb py_abs bind ret].
  destruct (Qgtb (Qabs lat) 90); cbn [bind]; [eauto|].
  destruct (Qgtb (Qabs lon) 180); eauto.
Qed.

Lemma time_rule_returns txn :
  time_none_or_absent txn "timestamp" -> exists d, _time_pattern_rule txn = inr d.
Proof.
  intros Ht. unfold _time_pattern_rule.
  destruct (time_none_or_absent_cases _ Ht) as [->|[t ->]]; [cbn; eauto|].
  cbn [truthy negb to_datetime dt_attr bind ret].
  destruct ((2 <=? dt_hour t)%Z && (dt_hour t <=? 5)%Z); eauto.
Qed.

Lemma merchant_rule_returns txn :
  string_or_absent txn "merchant_category" ->
  exists d, _merchant_risk_rule txn = inr d.
Proof.
  intros Hm. unfold _merchant_risk_rule, dict_get_default.
  destruct Hm as [->|[s ->]]; cbn [default id bind ret];
    match goal with |- context [if ?b then _ else _] => destruct b end; eauto.
Qed.

(** X2: on a transaction whose fields have the types the rules handle, no rule
    of the battery raises: [_run_rules] records five results and no error
    entry. *)
Theorem battery_records_no_error_on_typed_input (txn : gmap string val) :
  rule_inputs_ok txn ->
  map fst (_run_rules _load_rules txn)
    = ["_amount_threshold_rule"; "_velocity_rule"; "_location_rule";
       "_time_pattern_rule"; "_merchant_risk_rule"]%string
  /\ Forall (fun kv => contains_error kv.2 = false) (_run_rules _load_rules txn).
Proof.
  intros (Ha & Ht & Hlat & Hlon & Hm).
  assert (Hnd : NoDup (map fst _load_rules)).
  { apply (bool_decide_unpack _). vm_compute. exact I. }
  rewrite (run_rules_outcomes _ txn Hnd). split; [reflexivity|].
  destruct (amount_rule_returns txn Ha) as (d1 & H1).
  destruct (location_rule_returns txn Hlat Hlon) as (d3 & H3).
  destruct (time_rule_returns txn Ht) as (d4 & H4).
  destruct (merchant_rule_returns txn Hm) as (d5 & H5).
  destruct (amount_rule_ok txn d1 H1) as (? & ? & ? & -> & _).
  destruct (location_rule_ok txn d3 H3) as (? & ? & ? & -> & _).
  destruct (time_rule_ok txn d4 H4) as (? & ? & ? & -> & _).
  destruct (merchant_rule_ok txn d5 H5) as (? & ? & ? & -> & _).
  unfold _load_rules. cbn [map fst snd]. unfold rule_outcome.
  rewrite H1, H3, H4, H5. repeat constructor.
Qed.

Lemma preprocess_returns_on_typed_input pre txn :
  basic_inputs_ok txn -> exists a, _preprocess_transaction pre txn = inr a.
Proof.
  intros Hok. destruct (basic_preprocessing_returns txn Hok) as (row & Hrow).
  unfold _preprocess_transaction. destruct pre as [f|]; [|eauto].
  destruct (f txn); eauto.
Qed.

(** X3: on a transaction whose amount, latitude and longitude are numbers or
    absent and whose timestamp is a datetime, [None] or absent,
    [detect_fraud] returns a verdict and counts the call, whatever the
    models, the rules and the preprocessor do, provided the metrics sink
    accepts the prediction time. *)
Theorem detect_fraud_returns_on_typed_input (settings : Settings)
    (self : detector) (txn : gmap string val) (clk : clock) :
  basic_inputs_ok txn ->
  record_prediction_time (elapsed_ms clk) = inr tt ->
  exists r,
    detect_fraud settings self txn clk
      = (inr r, _update_performance_metrics self (elapsed_ms clk))
    /\ r_transaction_id r = dict_get txn "transaction_id"
    /\ r_prediction_time_ms r = elapsed_ms clk.
Proof.
  intros Hok Hrec.
  destruct (preprocess_returns_on_typed_input (preprocessor_of self) txn Hok)
    as (data & Hdata).
  unfold detect_fraud. rewrite Hdata, Hrec. eexists. split; [reflexivity|].
  split; reflexivity.
Qed.

Lemma float_none_raises txn k :
  txn !! k = Some VNone ->
  exists e, py_float (dict_get_default txn k (VNum 0)) = inl e.
Proof. unfold dict_get_default. intros ->. simpl. eauto. Qed.

Lemma basic_preprocessing_raises_on_none (txn : gmap string val) :
  txn !! "amount"%string = Some VNone
  \/ txn !! "latitude"%string = Some VNone
  \/ txn !! "longitude"%string = Some VNone ->
  exists e, _basic_preprocessing txn = inl e.
Proof.
  intros Hnone. unfold _basic_preprocessing.
  destruct (py_float (dict_get_default txn "amount" (VNum 0))) as [e|a] eqn:Ea;
    [cbn; eauto|].
  destruct Hnone as [Hn|Hnone].
  { destruct (float_none_raises _ _ Hn) as (e & He). congruence. }
  cbn [bind].
  match goal with |- context [bind ?m _] => destruct m as [e|features] end;
    [cbn; eauto|]. cbn [bind].
  destruct (py_float (dict_get_default txn "latitude" (VNum 0))) as [e|lat] eqn:Elat;
    [cbn; eauto|].
  destruct Hnone as [Hn|Hn].
  { destruct (float_none_raises _ _ Hn) as (e & He). congruence. }
  cbn [bind]. destruct (float_none_raises _ _ Hn) as (e & ->). cbn. eauto.
Qed.

(** X4: a key that is present with the value [None] is not a missing key.
    When the amount, the latitude or the longitude of a transaction is
    [None] and no preprocessor succeeds on it, [detect_fraud] raises and
    leaves the detector as it was; the rules and the risk factors for a
    missing location are never reached. *)
Theorem none_field_aborts_scoring (settings : Settings) (self : detector)
    (txn : gmap string val) (clk : clock) :
  (forall f, preprocessor_of self = Some f -> exists e, f txn = inl e) ->
  txn !! "amount"%string = Some VNone
  \/ txn !! "latitude"%string = Some VNone
  \/ txn !! "longitude"%string = Some VNone ->
  exists e, detect_fraud settings self txn clk = (inl e, self).
Proof.
  intros Hpre Hnone.
  destruct (basic_preprocessing_raises_on_none txn Hnone) as (e & He).
  exists e. unfold detect_fraud, _preprocess_transaction.
  destruct (preprocessor_of self) as [f|] eqn:Ef.
  - destruct (Hpre f eq_refl) as (e' & ->). now rewrite He.
  - now rewrite He.
Qed.

(** X5: when no model contributes a vote (no model is loaded, or every
    prediction is an error entry), the verdict of a scoring call with the
    rule battery is 0.35 plus 0.3 times the rule aggregate with confidence
    0.5; it lies between 0.35 and 0.65, so at any threshold of 0.65 or more,
    the default 0.7 included, the rules alone never flag fraud. *)
Theorem rules_alone_never_flag_fraud (settings : Settings)
    (self self' : detector) (txn : gmap string val) (clk : clock)
    (r : detection) :
  rules self = _load_rules ->
  detect_fraud settings self txn clk = (inr r, self') ->
  successful "fraud_probability" (r_ml_predictions r) = [] ->
  r_fraud_probability r == 0.35 + 0.3 * rule_aggregate (r_rule_predictions r)
  /\ r_confidence_score r == 0.5
  /\ 0.35 <= r_fraud_probability r /\ r_fraud_probability r <= 0.65
  /\ (0.65 <= FRAUD_THRESHOLD settings -> r_is_fraud r = false).
Proof.
  intros Hrules Hcall Hnone.
  destruct (detect_fraud_inr _ _ _ _ _ _ Hcall)
    as ((data & _ & Hml) & Hrp & Hfp & _ & Hcs & Hfraud & _).
  assert (Hmlwf : Forall (fun kv => ml_entry_wf kv.2) (r_ml_predictions r)).
  { rewrite Hml. apply run_ml_models_wf. }
  assert (Hrpwf : Forall (fun kv => rule_entry_wf kv.2) (r_rule_predictions r)).
  { rewrite Hrp, Hrules. apply run_rules_wf, load_rules_ok. }
  assert (Hconf : successful "confidence_score" (r_ml_predictions r) = []).
  { pose proof (successful_same_length _ Hmlwf) as Hlen. rewrite Hnone in Hlen.
    destruct (successful "confidence_score" (r_ml_predictions r)); [reflexivity|discriminate]. }
  unfold _ensemble_predictions in Hfp, Hcs, Hfraud.
  rewrite (ensemble_try_wf settings _ _ Hmlwf Hrpwf) in Hfp, Hcs, Hfraud.
  cbn [fraud_probability confidence_score is_fraud] in Hfp, Hcs, Hfraud.
  rewrite Hnone in Hfp, Hfraud. rewrite Hconf in Hcs. cbn [mean_or] in Hfp, Hcs, Hfraud.
  assert (HB : in_unit (mean_or 0.1 (triggered_scores (r_rule_predictions r)))).
  { apply mean_or_in_unit; [split; lra|now apply triggered_scores_in_unit]. }
  pose proof (mean_or_rule_aggregate (r_rule_predictions r)) as Hagg.
  destruct HB as [HB0 HB1].
  assert (Hvalue : r_fraud_probability r
                   == 0.35 + 0.3 * rule_aggregate (r_rule_predictions r)).
  { rewrite Hfp, <- Hagg. lra. }
  split; [exact Hvalue|]. split; [rewrite Hcs; reflexivity|].
  split; [rewrite Hfp; lra|]. split; [rewrite Hfp; lra|].
  intros Hthr. rewrite Hfraud. unfold Qgtb. apply Qltb_false. lra.
Qed.

(** X8: the amount rule is monotone.  Of two transactions with numeric
    amounts, the one with the larger amount gets at least the risk score of
    the other and is triggered whenever the other is; the rule triggers
    exactly above 5,000. *)
Theorem amount_rule_is_monotone (txn1 txn2 : gmap string val) (a1 a2 : Q) :
  py_float (dict_get_default txn1 "amount" (VNum 0)) = inr a1 ->
  py_float (dict_get_default txn2 "amount" (VNum 0)) = inr a2 ->
  a1 <= a2 ->
  exists t1 r1 s1 t2 r2 s2,
    _amount_threshold_rule txn1 = inr (rule_result t1 r1 s1)
    /\ _amount_threshold_rule txn2 = inr (rule_result t2 r2 s2)
    /\ r1 <= r2
    /\ (t1 = true -> t2 = true)
    /\ (t1 = true <-> 5000 < a1).
Proof.
  intros H1 H2 Hle. unfold _amount_threshold_rule. rewrite H1, H2. cbn [bind].
  unfold Qgtb.
  destruct (Qltb 10000 a1) eqn:E1; [apply Qltb_true in E1|apply Qltb_false in E1];
  destruct (Qltb 5000 a1) eqn:E1'; [apply Qltb_true in E1'|apply Qltb_false in E1'
                                   |apply Qltb_true in E1'|apply Qltb_false in E1'];
  destruct (Qltb 10000 a2) eqn:E2; [apply Qltb_true in E2|apply Qltb_false in E2
    |apply Qltb_true in E2|apply Qltb_false in E2|apply Qltb_true in E2
    |apply Qltb_false in E2|apply Qltb_true in E2|apply Qltb_false in E2];
  destruct (Qltb 5000 a2) eqn:E2'; try apply Qltb_true in E2';
    try apply Qltb_false in E2'; try lra;
  do 6 eexists; (split; [reflexivity|]); (split; [reflexivity|]);
  (split; [lra|]); (split; [intros; congruence || reflexivity|]);
  (split; [intros; congruence || lra|intros; reflexivity || lra]).
Qed.

(** X9: [_calculate_risk_metrics] reads the level and the action off the
    ladders at the composite score whenever the amount converts to a number.
    When it does not, the handler answers 0.5 with level "medium" and action
    "review", where the ladder gives "monitor" at 0.5. *)
Theorem risk_metrics_follow_ladders_unless_fallback (p : prediction)
    (txn : gmap string val) :
  let m := _calculate_risk_metrics p txn in
  (forall a, py_float (dict_get_default txn "amount" (VNum 0)) = inr a ->
     risk_level m = _get_risk_level (composite_risk_score m)
     /\ recommended_action m = _get_recommended_action (composite_risk_score m))
  /\ (forall e, py_float (dict_get_default txn "amount" (VNum 0)) = inl e ->
        composite_risk_score m = 0.5
        /\ risk_factors m = ["calculation_error"%string]
        /\ risk_level m = "medium"%string
        /\ recommended_action m = "review"%string
        /\ _get_recommended_action (composite_risk_score m) = "monitor"%string).
Proof.
  intros m. subst m. unfold _calculate_risk_metrics, _calculate_risk_metrics_try.
  split.
  - intros a ->. cbn. split; reflexivity.
  - intros e ->. cbn. repeat split; reflexivity.
Qed.

(** X10: the ladders are monotone: a higher score never gets a lower risk
    level or a milder action. *)
Theorem risk_ladders_are_monotone (s1 s2 : Q) :
  s1 <= s2 ->
  (level_rank (_get_risk_level s1) <= level_rank (_get_risk_level s2))%nat
  /\ (action_rank (_get_recommended_action s1)
      <= action_rank (_get_recommended_action s2))%nat.
Proof.
  intros Hle. unfold _get_risk_level, _get_recommended_action, Qgeb.
  destruct (Qle_bool 0.8 s1) eqn:A1; [apply Qle_bool_iff in A1|apply Qle_bool_false_lt in A1];
  destruct (Qle_bool 0.6 s1) eqn:B1; try apply Qle_bool_iff in B1;
    try apply Qle_bool_false_lt in B1;
  destruct (Qle_bool 0.4 s1) eqn:C1; try apply Qle_bool_iff in C1;
    try apply Qle_bool_false_lt in C1;
  destruct (Qle_bool 0.8 s2) eqn:A2; try apply Qle_bool_iff in A2;
    try apply Qle_bool_false_lt in A2;
  destruct (Qle_bool 0.6 s2) eqn:B2; try apply Qle_bool_iff in B2;
    try apply Qle_bool_false_lt in B2;
  destruct (Qle_bool 0.4 s2) eqn:C2; try apply Qle_bool_iff in C2;
    try apply Qle_bool_false_lt in C2;
  try lra; cbn; split; lia.
Qed.

(** ** Substrings *)

Lemma prefix_app (n h : string) :
  String.prefix n h = true <-> exists b, h = n +:+ b.
Proof.
  revert h. induction n as [|c n IH]; intros h.
  - split; [intros _; now exists h|intros _; destruct h; reflexivity].
  - destruct h as [|c' h]; simpl.
    { split; [discriminate|intros [b Hb]; discriminate]. }
    destruct (Ascii.ascii_dec c c') as [->|Hne].
    + rewrite IH. split; intros [b Hb]; exists b; [now rewrite Hb|now inversion Hb].
    + split; [discriminate|]. intros [b Hb]. inversion Hb. congruence.
Qed.

Lemma str_contains_app (n h : string) :
  str_contains n h = true <-> exists a b, h = a +:+ n +:+ b.
Proof.
  induction h as [|c h IH]; cbn [str_contains].
  - destruct (String.prefix n "") eqn:E.
    + split; [intros _|reflexivity]. apply prefix_app in E as [b Hb].
      exists ""%string, b. exact Hb.
    + split; [discriminate|]. intros (a & b & Hab).
      destruct a; [|discriminate]. simpl in Hab.
      assert (String.prefix n "" = true) by (apply prefix_app; eauto). congruence.
  - destruct (String.prefix n (String c h)) eqn:E.
    + split; [intros _|reflexivity]. apply prefix_app in E as [b Hb].
      exists ""%string, b. exact Hb.
    + rewrite IH. split.
      * intros (a & b & ->). exists (String c a), b. reflexivity.
      * intros (a & b & Hab). destruct a as [|c' a].
        -- simpl in Hab.
           assert (String.prefix n (String c h) = true) by (apply prefix_app; eauto).
           congruence.
        -- inversion Hab. eauto.
Qed.

(** X11: the merchant rule triggers, with risk 0.7, exactly when the
    lower-cased merchant category contains one of the words gambling,
    cryptocurrency, adult or pharmacy somewhere inside it. *)
Theorem merchant_rule_triggers_on_substring (txn : gmap string val) (s : string) :
  txn !! "merchant_category"%string = Some (VStr s) ->
  exists t r reason,
    _merchant_risk_rule txn = inr (rule_result t r reason)
    /\ (t = true <->
        exists word a b,
          In word ["gambling"; "cryptocurrency"; "adult"; "pharmacy"]%string
          /\ str_lower s = a +:+ word +:+ b)
    /\ (t = true -> r = 0.7)
    /\ (t = false -> r = 0.1).
Proof.
  intros Hs. unfold _merchant_risk_rule, dict_get_default. rewrite Hs.
  cbn [default id bind ret].
  destruct (existsb (fun cat => str_contains cat (str_lower s)) high_risk_categories)
    eqn:E.
  - do 3 eexists. split; [reflexivity|]. split; [|split; [reflexivity|discriminate]].
    split; [intros _|reflexivity].
    apply existsb_exists in E as (word & Hin & Hc).
    apply str_contains_app in Hc as (a & b & Hab). exists word, a, b. now split.
  - do 3 eexists. split; [reflexivity|]. split; [|split; [discriminate|reflexivity]].
    split; [discriminate|]. intros (word & a & b & Hin & Hab). exfalso.
    assert (Hex : existsb (fun cat => str_contains cat (str_lower s))
                    high_risk_categories = true).
    { apply existsb_exists. exists word. split; [exact Hin|].
      apply str_contains_app. eauto. }
    congruence.
Qed.

(** X12: [_predict_with_model] never raises and turns exactly the
    well-shaped answers into votes.  A model with [predict_proba] votes the
    second entry of the first row (the first when there is only one); a
    model with [predict] only votes the first entry of a one-dimensional
    answer, or the single entry of the first row, with confidence 0.8.
    Every other answer, such as a first row of several values, an empty
    array, an exception or a model with neither method, becomes an error
    entry. *)
Theorem model_votes_only_on_well_shaped_output (name : string) (m : model)
    (data : ndarray) :
  match model_vote m data with
  | Some (p, c) => _predict_with_model name m data = ml_result p c
  | None =>
      exists msg,
        _predict_with_model name m data = {[ "error"%string := VStr msg ]}
  end.
Proof.
  unfold model_vote, _predict_with_model, _predict_with_model_try.
  destruct (predict_proba m) as [f|]; [|destruct (predict m) as [g|]].
  - cbn [bind ret]. destruct (f data) as [e|[xs|rows]]; cbn [bind].
    + eexists. reflexivity.
    + destruct xs as [|x xs]; cbn; eexists; reflexivity.
    + destruct rows as [|row rows]; [cbn; eexists; reflexivity|].
      destruct row as [|p0 [|p1 row]]; cbn; try reflexivity.
      eexists. reflexivity.
  - cbn [bind ret]. destruct (g data) as [e|[xs|rows]]; cbn [bind].
    + eexists. reflexivity.
    + destruct xs as [|x xs]; cbn; [eexists; reflexivity|reflexivity].
    + destruct rows as [|row rows]; [cbn; eexists; reflexivity|].
      destruct row as [|p0 [|p1 row]]; cbn; try reflexivity;
        eexists; reflexivity.
  - cbn. eexists. reflexivity.
Qed.

(** ** Insertion-ordered dictionaries *)

Lemma odict_get_set_eq {V} (d : odict V) (k : string) (v : V) :
  odict_get (odict_set d k v) k = Some v.
Proof.
  induction d as [|[k' v'] d IH]; simpl.
  - now rewrite String.eqb_refl.
  - destruct (String.eqb k' k) eqn:E; simpl; rewrite E; [reflexivity|exact IH].
Qed.

Lemma odict_get_set_ne {V} (d : odict V) (k k' : string) (v : V) :
  k <> k' -> odict_get (odict_set d k v) k' = odict_get d k'.
Proof.
  intros Hne. induction d as [|[k0 v0] d IH]; simpl.
  - destruct (String.eqb_spec k k'); [congruence|reflexivity].
  - destruct (String.eqb_spec k0 k) as [->|Hk0]; simpl.
    + destruct (String.eqb_spec k k'); [congruence|reflexivity].
    + destruct (String.eqb k0 k'); [reflexivity|exact IH].
Qed.

Lemma odict_set_keeps_keys {V} (d : odict V) (k k' : string) (v : V) :
  is_Some (odict_get d k') -> is_Some (odict_get (odict_set d k v) k').
Proof.
  intros Hk'. destruct (String.eqb_spec k k') as [->|Hne].
  - rewrite odict_get_set_eq. eauto.
  - now rewrite odict_get_set_ne.
Qed.

Lemma load_if_exists_keeps_keys fs path name file (ms : odict model) k :
  is_Some (odict_get ms k) ->
  is_Some (odict_get (load_if_exists fs path name file ms).1 k).
Proof.
  intros Hk. unfold load_if_exists.
  destruct (fs (os_path_join path file)) as [[e|m]|]; cbn [fst]; [exact Hk| |exact Hk].
  now apply odict_set_keeps_keys.
Qed.

(** X13: [_load_models] and [reload_models] never drop a model: every name
    held before is still held afterwards, also when its file has disappeared
    and also when loading raises. *)
Theorem reload_never_drops_a_model (fs : disk) (model_path : string)
    (default_autoencoder default_lstm : model) (self : detector) (k : string) :
  is_Some (odict_get (models self) k) ->
  is_Some (odict_get
             (models (reload_models fs model_path default_autoencoder
                        default_lstm self)) k).
Proof.
  intros Hk. cbn [reload_models models]. unfold _load_models.
  pose proof (load_if_exists_keeps_keys fs model_path "autoencoder"
                "autoencoder.joblib" (models self) k Hk) as H1.
  destruct (load_if_exists fs model_path "autoencoder" "autoencoder.joblib"
              (models self)) as [ms1 [e1|]]; cbn [fst] in H1.
  { now apply odict_set_keeps_keys, odict_set_keeps_keys. }
  pose proof (load_if_exists_keeps_keys fs model_path "lstm" "lstm.joblib" ms1 k H1)
    as H2.
  destruct (load_if_exists fs model_path "lstm" "lstm.joblib" ms1)
    as [ms2 [e2|]]; cbn [fst] in H2.
  { now apply odict_set_keeps_keys, odict_set_keeps_keys. }
  pose proof (load_if_exists_keeps_keys fs model_path "ensemble" "ensemble.joblib"
                ms2 k H2) as H3.
  destruct (load_if_exists fs model_path "ensemble" "ensemble.joblib" ms2)
    as [ms3 [e3|]]; cbn [fst] in H3.
  { now apply odict_set_keeps_keys, odict_set_keeps_keys. }
  exact H3.
Qed.

(** X14: when one of the three model files exists but fails to load,
    [_load_models] ends with the default models under "autoencoder" and
    "lstm", also when those two files themselves had loaded. *)
Theorem load_failure_installs_defaults (fs : disk) (model_path : string)
    (default_autoencoder default_lstm : model) (ms : odict model)
    (file : string) (e : exn) :
  In file ["autoencoder.joblib"; "lstm.joblib"; "ensemble.joblib"]%string ->
  fs (os_path_join model_path file) = Some (inl e) ->
  let ms' := _load_models fs model_path default_autoencoder default_lstm ms in
  odict_get ms' "autoencoder" = Some default_autoencoder
  /\ odict_get ms' "lstm" = Some default_lstm.
Proof.
  intros Hfile Hfail ms'. subst ms'. unfold _load_models, load_if_exists.
  assert (Hdefaults : forall d : odict model,
             odict_get (odict_set (odict_set d "autoencoder" default_autoencoder)
                          "lstm" default_lstm) "autoencoder"
             = Some default_autoencoder
             /\ odict_get (odict_set (odict_set d "autoencoder" default_autoencoder)
                             "lstm" default_lstm) "lstm"
                = Some default_lstm).
  { intros d. split.
    - rewrite odict_get_set_ne by discriminate. apply odict_get_set_eq.
    - apply odict_get_set_eq. }
  destruct (fs (os_path_join model_path "autoencoder.joblib")) as [[e1|m1]|] eqn:E1;
    try apply Hdefaults;
  destruct (fs (os_path_join model_path "lstm.joblib")) as [[e2|m2]|] eqn:E2;
    try apply Hdefaults;
  destruct (fs (os_path_join model_path "ensemble.joblib")) as [[e3|m3]|] eqn:E3;
    try apply Hdefaults;
  exfalso; destruct Hfile as [<-|[<-|[<-|[]]]]; congruence.
Qed.

(** X15: when no file fails to load, [_load_models] stores each object
    found on disk under its name and leaves every other entry alone; a name
    whose file is missing keeps the model it had. *)
Theorem load_models_updates_what_exists (fs : disk) (model_path : string)
    (default_autoencoder default_lstm : model) (ms : odict model) :
  (forall file e,
      In file ["autoencoder.joblib"; "lstm.joblib"; "ensemble.joblib"]%string ->
      fs (os_path_join model_path file) <> Some (inl e)) ->
  let ms' := _load_models fs model_path default_autoencoder default_lstm ms in
  forall name,
    odict_get ms' name =
      if String.eqb name "autoencoder" || String.eqb name "lstm"
         || String.eqb name "ensemble"
      then match fs (os_path_join model_path (name +:+ ".joblib")) with
           | Some (inr m) => Some m
           | _ => odict_get ms name
           end
      else odict_get ms name.
Proof.
  intros Hok ms' name. subst ms'. unfold _load_models, load_if_exists.
  destruct (fs (os_path_join model_path "autoencoder.joblib")) as [[e1|m1]|] eqn:E1;
    [exfalso; eapply (Hok "autoencoder.joblib"%string); [simpl; auto|exact E1]| |];
  (destruct (fs (os_path_join model_path "lstm.joblib")) as [[e2|m2]|] eqn:E2;
    [exfalso; eapply (Hok "lstm.joblib"%string); [simpl; auto|exact E2]| |]);
  (destruct (fs (os_path_join model_path "ensemble.joblib")) as [[e3|m3]|] eqn:E3;
    [exfalso; eapply (Hok "ensemble.joblib"%string); [simpl; auto|exact E3]| |]);
  (destruct (String.eqb_spec name "autoencoder") as [->|Ha];
   [cbn [orb]; change ("autoencoder" +:+ ".joblib")%string with "autoencoder.joblib"%string;
    rewrite E1
   |destruct (String.eqb_spec name "lstm") as [->|Hl];
    [cbn [orb]; change ("lstm" +:+ ".joblib")%string with "lstm.joblib"%string;
     rewrite E2
    |destruct (String.eqb_spec name "ensemble") as [->|He];
     [cbn [orb]; change ("ensemble" +:+ ".joblib")%string with "ensemble.joblib"%string;
      rewrite E3
     |cbn [orb]]]]);
  repeat first [rewrite odict_get_set_eq | rewrite odict_get_set_ne by congruence];
  reflexivity.
Qed.

End FraudDetectorFurther.

(** * Further properties of the anomaly model *)

Section AutoencoderFurther.
Import AutoencoderModel AutoencoderSpec AnomalySpec Spec.

(** ** Reconstruction errors *)

Lemma Qsum_squares_nonneg (l : list Q) (acc : Q) :
  0 <= acc -> 0 <= fold_left Qplus (map (fun d => d * d) l) acc.
Proof.
  revert acc. induction l as [|d l IH]; intros acc Hacc; simpl; [exact Hacc|].
  apply IH. nra.
Qed.

Lemma Qmean_squares_nonneg (l : list Q) : 0 <= Qmean (map (fun d => d * d) l).
Proof.
  unfold Qmean, Qsum.
  pose proof (Qsum_squares_nonneg l 0 ltac:(lra)) as Hs.
  pose proof (inject_Z_nat_nonneg (length (map (fun d => d * d) l))) as Hn.
  destruct (Qeq_dec (inject_Z (Z.of_nat (length (map (fun d => d * d) l)))) 0) as [E|E].
  - rewrite E. unfold Qdiv. rewrite Qmult_comm.
    assert (Hinv : / 0 == 0) by reflexivity. rewrite Hinv. lra.
  - apply Qle_shift_div_l; [lra|]. lra.
Qed.

Lemma reconstruction_errors_nonneg (X Xr : matrix) (errs : list Q) :
  reconstruction_errors X Xr = inr errs -> Forall (fun e => 0 <= e) errs.
Proof.
  unfold reconstruction_errors. intros Herrs.
  apply bind_inr in Herrs as (D & _ & Herrs). inversion Herrs; subst; clear Herrs.
  apply List.Forall_forall. intros e He. apply in_map_iff in He as (r & <- & _).
  apply Qmean_squares_nonneg.
Qed.

(** X16: the threshold [_calculate_threshold] sets is never negative,
    whatever the network reconstructs. *)
Theorem calculated_threshold_is_not_negative (self : model) (X : matrix) :
  exists t, threshold (_calculate_threshold self X) = Some t /\ 0 <= t.
Proof.
  unfold _calculate_threshold.
  destruct (reconstruction_errors X (predict self X)) as [e|errs] eqn:Herrs.
  { cbn. exists 0.1. split; [reflexivity|lra]. }
  cbn [bind].
  destruct errs as [|e0 errs].
  { cbn. exists 0.1. split; [reflexivity|lra]. }
  destruct (np_percentile_between (e0 :: errs) 95 ltac:(discriminate))
    as (t & lo & hi & Ht & Hlo & _ & Hle & _); [lra|lra|].
  rewrite Ht. exists t. split; [reflexivity|].
  pose proof (reconstruction_errors_nonneg _ _ _ Herrs) as Hpos.
  rewrite List.Forall_forall in Hpos. specialize (Hpos lo Hlo). lra.
Qed.

Lemma np_clip01_in_unit (x : Q) : in_unit (np_clip01 x).
Proof.
  unfold np_clip01, in_unit.
  destruct (Qltb x 0) eqn:E0; [split; lra|apply Qltb_false in E0].
  destruct (Qltb 1 x) eqn:E1; [split; lra|apply Qltb_false in E1]. split; lra.
Qed.

Lemma np_clip01_high (x : Q) : 1 <= x -> np_clip01 x == 1.
Proof.
  intros Hx. unfold np_clip01.
  destruct (Qltb x 0) eqn:E0; [apply Qltb_true in E0; lra|].
  destruct (Qltb 1 x) eqn:E1; [reflexivity|apply Qltb_false in E1; lra].
Qed.

(** X17: with a positive threshold, [get_anomaly_score] gives every sample a
    score in [0, 1], one score per flag of [detect_anomalies], and every
    sample that [detect_anomalies] flags has the score 1. *)
Theorem anomaly_scores_agree_with_flags (self : model) (X : matrix) (t : Q) :
  threshold self = Some t -> 0 < t ->
  Forall2 (fun score flag => in_unit score /\ (flag = true -> score == 1))
    (get_anomaly_score self X) (detect_anomalies self X).2.
Proof.
  intros Ht Hpos. unfold get_anomaly_score, detect_anomalies. rewrite Ht.
  destruct (reconstruction_errors X (predict self X)) as [e|errs]; cbn [bind ret snd].
  - induction (length X) as [|n IH]; cbn [repeat]; constructor; [|exact IH].
    split; [split; lra|discriminate].
  - assert (Hnz : negb (Qeq_bool t 0) = true).
    { destruct (Qeq_bool t 0) eqn:E; [|reflexivity].
      apply Qeq_bool_iff in E. lra. }
    rewrite Hnz. induction errs as [|e errs IH]; cbn [map]; constructor; [|exact IH].
    split; [apply np_clip01_in_unit|]. unfold Qgtb. intros Hflag.
    apply Qltb_true in Hflag. apply np_clip01_high.
    apply Qle_shift_div_l; lra.
Qed.

(** ** Counting the samples above a value *)

Lemma count_above_le_length (t : Q) (l : list Q) :
  (count_above t l <= length l)%nat.
Proof. unfold count_above. apply List.filter_length_le. Qed.

Lemma count_above_Qinsert (t a : Q) (l : list Q) :
  count_above t (Qinsert a l) = count_above t (a :: l).
Proof.
  unfold count_above. induction l as [|y l IH]; [reflexivity|].
  cbn [Qinsert]. destruct (Qle_bool a y); [reflexivity|].
  cbn [List.filter] in *. destruct (Qgtb y t), (Qgtb a t); cbn [length] in *; lia.
Qed.

Lemma count_above_Qsort (t : Q) (l : list Q) :
  count_above t (Qsort l) = count_above t l.
Proof.
  unfold Qsort. induction l as [|a l IH]; [reflexivity|].
  cbn [fold_right]. rewrite count_above_Qinsert. unfold count_above in *.
  cbn [List.filter]. destruct (Qgtb a t); cbn [length]; lia.
Qed.

Lemma count_above_sorted (t d : Q) (s : list Q) : forall lo,
  increasing s -> (lo < length s)%nat -> nth lo s d <= t ->
  (count_above t s <= length s - (lo + 1))%nat.
Proof.
  induction s as [|x s IH]; intros lo Hinc Hlo Ht; [simpl in Hlo; lia|].
  destruct Hinc as [Hx Hinc]. cbn [length] in Hlo.
  assert (Hxt : x <= t).
  { destruct lo as [|lo]; [exact Ht|]. cbn [nth] in Ht.
    rewrite List.Forall_forall in Hx.
    assert (x <= nth lo s d) by (apply Hx, nth_In; lia). lra. }
  assert (Hnot : Qgtb x t = false) by (unfold Qgtb; now apply Qltb_false).
  unfold count_above. cbn [List.filter]. rewrite Hnot. fold (count_above t s).
  destruct lo as [|lo].
  - pose proof (count_above_le_length t s). cbn [length]. lia.
  - cbn [nth] in Ht. specialize (IH lo Hinc ltac:(lia) Ht). cbn [length]. lia.
Qed.

Lemma count_true_map (f : Q -> bool) (l : list Q) :
  count_true (map f l) = length (List.filter f l).
Proof.
  unfold count_true. induction l as [|x l IH]; [reflexivity|].
  cbn [map List.filter]. unfold id at 1. destruct (f x); cbn [length]; lia.
Qed.

Lemma count_true_repeat_false (n : nat) : count_true (repeat false n) = 0%nat.
Proof. unfold count_true. induction n; [reflexivity|exact IHn]. Qed.

(** The 95th percentile leaves at most one sample in twenty, rounded up,
    above it. *)
Lemma percentile_95_leaves_five_percent (a : list Q) (t : Q) :
  np_percentile a 95 = inr t ->
  (20 * count_above t a <= length a + 18)%nat.
Proof.
  unfold np_percentile. cbn [orb].
  assert (Hr : Qltb 95 0 || Qltb 100 95 = false) by reflexivity. rewrite Hr.
  pose proof (Qsort_length a) as Hlen. pose proof (Qsort_increasing a) as Hinc.
  rewrite <- (count_above_Qsort t a), <- Hlen.
  destruct (Qsort a) as [|x0 s'] eqn:Es; [discriminate|].
  set (s := x0 :: s') in *. set (n := length s).
  set (h := inject_Z (Z.of_nat (n - 1)) * 95 / 100).
  intros Ht.
  assert (Hn : (1 <= n)%nat) by (subst n s; simpl; lia).
  assert (Hn0 : 0 <= inject_Z (Z.of_nat (n - 1))) by apply inject_Z_nat_nonneg.
  assert (Hh0 : 0 <= h).
  { subst h. apply Qle_shift_div_l; [lra|]. nra. }
  assert (Hh1 : h <= inject_Z (Z.of_nat (n - 1))).
  { subst h. apply Qle_shift_div_r; [lra|]. nra. }
  pose proof (Qfloor_le h) as Hfl. pose proof (Qlt_floor h) as Hfu.
  assert (Hf0 : (0 <= Qfloor h)%Z).
  { rewrite <- (Qfloor_Z 0). now apply Qfloor_resp_le. }
  assert (Hf1 : (Qfloor h <= Z.of_nat (n - 1))%Z).
  { rewrite <- (Qfloor_Z (Z.of_nat (n - 1))). now apply Qfloor_resp_le. }
  set (lo := Z.to_nat (Qfloor h)) in *.
  set (hi := Nat.min (lo + 1) (n - 1)) in *.
  assert (Hlo : (lo <= n - 1)%nat) by (subst lo; lia).
  assert (Hlohi : (lo <= hi)%nat) by (subst hi; lia).
  assert (Hhi : (hi < n)%nat) by (subst hi; lia).
  pose proof (increasing_nth s x0 lo hi Hinc Hlohi Hhi) as Hle.
  assert (Hg0 : 0 <= h - inject_Z (Qfloor h)) by lra.
  change (inr (nth lo s x0
               + (h - inject_Z (Qfloor h)) * (nth hi s x0 - nth lo s x0))
          = (inr t : result Q)) in Ht.
  assert (Ht' : nth lo s x0
                + (h - inject_Z (Qfloor h)) * (nth hi s x0 - nth lo s x0) = t)
    by congruence.
  assert (Hprev : nth lo s x0 <= t).
  { rewrite <- Ht'.
    assert (Hgd : 0 <= (h - inject_Z (Qfloor h)) * (nth hi s x0 - nth lo s x0))
      by (apply Qmult_le_0_compat; lra).
    lra. }
  pose proof (count_above_sorted t x0 s lo Hinc ltac:(fold n; lia) Hprev) as Hcount.
  fold n in Hcount.
  assert (Hfloor : (95 * Z.of_nat (n - 1) < 100 * (Qfloor h + 1))%Z).
  { rewrite Zlt_Qlt, !inject_Z_mult.
    change (inject_Z 95) with 95. change (inject_Z 100) with 100.
    subst h. rewrite inject_Z_plus in *. change (inject_Z 1) with 1 in *.
    set (m := inject_Z (Z.of_nat (n - 1))) in *.
    set (f := inject_Z (Qfloor (m * 95 / 100))) in *.
    assert (Hdiv : m * 95 / 100 == m * 0.95) by (field).
    rewrite Hdiv in Hfu. lra. }
  assert (Hlo' : Z.of_nat lo = Qfloor h) by (subst lo; lia).
  lia.
Qed.

(** X18: on the data it was calibrated on, [detect_anomalies] flags at most
    one sample in twenty, rounded up: after [_calculate_threshold self X],
    twenty times the number of flagged samples of [X] is at most the number
    of samples plus 18.  In particular a single sample is never flagged. *)
Theorem calibration_data_has_few_anomalies (self : model) (X : matrix) :
  let flags := (detect_anomalies (_calculate_threshold self X) X).2 in
  (20 * count_true flags <= length flags + 18)%nat.
Proof.
  intros flags. subst flags. unfold detect_anomalies, _calculate_threshold.
  change (predict (set_threshold self ?t) X) with (predict self X).
  destruct (reconstruction_errors X (predict self X)) as [e|errs] eqn:Herrs.
  - cbn [bind]. unfold predict, preprocess_data, set_threshold in *.
    cbn [scaler_fit_transform autoencoder_predict threshold].
    unfold predict, preprocess_data in Herrs. rewrite Herrs. cbn [bind snd].
    rewrite count_true_repeat_false. lia.
  - cbn [bind].
    destruct (np_percentile errs 95) as [e|t] eqn:Ht.
    + unfold predict, preprocess_data, set_threshold in *.
      cbn [scaler_fit_transform autoencoder_predict threshold].
      unfold predict, preprocess_data in Herrs. rewrite Herrs. cbn [bind ret snd].
      destruct errs as [|e0 errs]; [cbn; lia|].
      exfalso. destruct (np_percentile_between (e0 :: errs) 95 ltac:(discriminate))
        as (t & _ & _ & Ht' & _); [lra|lra|congruence].
    + unfold predict, preprocess_data, set_threshold in *.
      cbn [scaler_fit_transform autoencoder_predict threshold].
      unfold predict, preprocess_data in Herrs. rewrite Herrs. cbn [bind ret snd].
      rewrite count_true_map, length_map.
      apply (percentile_95_leaves_five_percent errs t Ht).
Qed.

End AutoencoderFurther.

(** * Further properties of the preprocessor *)

Section PreprocessorFurther.
Import TransactionPreprocessor PreprocessorSpec PreprocessorSamples FeatureSpec EncodingSpec.
Context `{Externals}.

(** ** The order of the frame of features *)

Lemma string_compare_refl (s : string) : String.compare s s = Eq.
Proof.
  pose proof (String.compare_antisym s s) as Hanti.
  destruct (String.compare s s); [reflexivity|discriminate|discriminate].
Qed.

Lemma key_le_user_then_time (a b : features) :
  key_le a b = true <-> user_then_time (raw a) (raw b).
Proof.
  unfold key_le, user_then_time.
  destruct (String.compare (user_id (raw a)) (user_id (raw b))) eqn:E.
  - apply String.compare_eq_iff in E. rewrite Z.leb_le. split.
    + intros Hle. right. split; assumption.
    + intros [Hlt|[_ Hle]]; [discriminate|exact Hle].
  - split; [intros _; now left|reflexivity].
  - split; [discriminate|]. intros [Hlt|[Heq _]]; [discriminate|].
    rewrite Heq, string_compare_refl in E. discriminate.
Qed.

Lemma key_le_total (a b : features) : key_le a b = false -> key_le b a = true.
Proof.
  unfold key_le.
  rewrite (String.compare_antisym (user_id (raw a)) (user_id (raw b))).
  destruct (String.compare (user_id (raw b)) (user_id (raw a)));
    cbn [CompOpp]; intros Hle; try discriminate; try reflexivity.
  apply Z.leb_gt in Hle. apply Z.leb_le. lia.
Qed.

Lemma insert_by_key_sorted (x : features) (l : list features) :
  Sorted (fun a b => key_le a b = true) l ->
  Sorted (fun a b => key_le a b = true) (insert_by_key x l).
Proof.
  induction 1 as [|y l Hs IH Hhd]; cbn [insert_by_key].
  - repeat constructor.
  - destruct (key_le x y) eqn:E.
    + constructor; [constructor; assumption|]. constructor. exact E.
    + constructor; [exact IH|].
      destruct l as [|z l]; cbn [insert_by_key].
      * constructor. now apply key_le_total.
      * destruct (key_le x z); constructor.
        -- now apply key_le_total.
        -- now inversion Hhd.
Qed.

Lemma sort_by_key_sorted (l : list features) :
  Sorted (fun a b => key_le a b = true) (sort_by_key l).
Proof.
  unfold sort_by_key. induction l as [|x l IH]; cbn [fold_right].
  - constructor.
  - now apply insert_by_key_sorted.
Qed.

Lemma insert_by_key_perm (x : features) (l : list features) :
  Permutation (insert_by_key x l) (x :: l).
Proof.
  induction l as [|y l IH]; cbn [insert_by_key]; [reflexivity|].
  destruct (key_le x y); [reflexivity|].
  rewrite IH. apply perm_swap.
Qed.

Lemma sort_by_key_perm (l : list features) : Permutation (sort_by_key l) l.
Proof.
  unfold sort_by_key. induction l as [|x l IH]; cbn [fold_right]; [reflexivity|].
  rewrite insert_by_key_perm. now constructor.
Qed.

Lemma add_velocity_raw (l : list features) : forall prev,
  map raw (add_velocity prev l) = map raw l.
Proof.
  induction l as [|f l IH]; intros prev; cbn [add_velocity map]; [reflexivity|].
  now rewrite IH.
Qed.

Lemma Sorted_map_raw (l : list features) :
  Sorted (fun a b => key_le a b = true) l ->
  Sorted user_then_time (map raw l).
Proof.
  induction 1 as [|y l Hs IH Hhd]; cbn [map]; constructor; [exact IH|].
  destruct Hhd as [|z l Hyz]; cbn [map]; constructor.
  now apply key_le_user_then_time.
Qed.

(** X19: the frame [create_features] returns holds exactly the records of
    the frame it was given, ordered by user and, for one user, by time. *)
Theorem create_features_orders_by_user_then_time (df : frame) :
  Permutation (map raw (create_features df)) (rows df)
  /\ Sorted user_then_time (map raw (create_features df)).
Proof.
  unfold create_features. rewrite add_velocity_raw. split.
  - rewrite sort_by_key_perm, map_map. cbn [features_of raw].
    now rewrite map_id.
  - apply Sorted_map_raw, sort_by_key_sorted.
Qed.

(** ** Time since the previous record *)

Lemma user_order_transitive (a b c : string) :
  String.compare a b <> Gt -> String.compare b c <> Gt ->
  String.compare a c <> Gt.
Proof.
  intros Hab Hbc.
  destruct (String.compare a b) eqn:Eab; [|clear Hab|congruence].
  { apply String.compare_eq_iff in Eab. now subst. }
  destruct (String.compare b c) eqn:Ebc; [|clear Hbc|congruence].
  { apply String.compare_eq_iff in Ebc. subst. now rewrite Eab. }
  apply OrderedTypeEx.String_as_OT.cmp_lt in Eab, Ebc.
  pose proof (OrderedTypeEx.String_as_OT.lt_trans _ _ _ Eab Ebc) as Hac.
  apply OrderedTypeEx.String_as_OT.cmp_lt in Hac.
  unfold OrderedTypeEx.String_as_OT.cmp in Hac. now rewrite Hac.
Qed.

Lemma key_le_user_order (a b : features) :
  key_le a b = true ->
  String.compare (user_id (raw a)) (user_id (raw b)) <> Gt.
Proof.
  unfold key_le.
  destruct (String.compare (user_id (raw a)) (user_id (raw b)));
    [discriminate|discriminate|discriminate].
Qed.

Lemma sort_by_key_users_in_order (l : list features) :
  StronglySorted
    (fun a b => String.compare (user_id (raw a)) (user_id (raw b)) <> Gt)
    (sort_by_key l).
Proof.
  apply Sorted_StronglySorted.
  - intros a b c. apply user_order_transitive.
  - pose proof (sort_by_key_sorted l) as Hs.
    induction Hs as [|y s Hs IH Hhd]; constructor; [exact IH|].
    destruct Hhd as [|z s Hyz]; constructor. now apply key_le_user_order.
Qed.

Lemma StronglySorted_lookup {A} (R : A -> A -> Prop) (l : list A) :
  StronglySorted R l ->
  forall j i a b, (j < i)%nat -> l !! j = Some a -> l !! i = Some b -> R a b.
Proof.
  induction 1 as [|x l Hs IH Hall]; intros j i a b Hlt Ha Hb;
    [discriminate|].
  destruct i as [|i]; [lia|]. cbn in Hb.
  destruct j as [|j]; cbn in Ha.
  - injection Ha as <-. rewrite List.Forall_forall in Hall. apply Hall.
    eapply list_elem_of_In, list_elem_of_lookup_2. exact Hb.
  - apply (IH j i); [lia|exact Ha|exact Hb].
Qed.

Lemma Sorted_lookup_adjacent {A} (R : A -> A -> Prop) (l : list A) :
  Sorted R l ->
  forall j a b, l !! j = Some a -> l !! S j = Some b -> R a b.
Proof.
  induction 1 as [|x l Hs IH Hhd]; intros j a b Ha Hb; [discriminate|].
  destruct j as [|j]; cbn in Ha, Hb.
  - injection Ha as <-. destruct Hhd as [|y l Hxy]; [discriminate|].
    cbn in Hb. now injection Hb as <-.
  - apply (IH j); assumption.
Qed.

Lemma add_velocity_lookup (l : list features) : forall prev i f,
  add_velocity prev l !! i = Some f ->
  exists g,
    l !! i = Some g
    /\ f = with_velocity g
             match match i with O => prev | S j => l !! j end with
             | Some p =>
                 if String.eqb (user_id (raw p)) (user_id (raw g))
                 then inject_Z (timestamp (raw g) - timestamp (raw p)) / 3600
                 else 24
             | None => 24
             end.
Proof.
  induction l as [|x l IH]; intros prev i f Hf; [discriminate|].
  cbn [add_velocity] in Hf. destruct i as [|i]; cbn in Hf.
  - injection Hf as <-. exists x. split; reflexivity.
  - destruct (IH _ _ _ Hf) as (g & Hg & ->). exists g. split; [exact Hg|].
    destruct i; reflexivity.
Qed.

Lemma add_velocity_lookup_raw (l : list features) : forall prev j p,
  add_velocity prev l !! j = Some p ->
  exists g, l !! j = Some g /\ raw p = raw g.
Proof.
  intros prev j p Hp. destruct (add_velocity_lookup l prev j p Hp) as (g & Hg & ->).
  exists g. split; [exact Hg|reflexivity].
Qed.

Lemma add_velocity_lookup_some (l : list features) : forall prev j g,
  l !! j = Some g ->
  exists p, add_velocity prev l !! j = Some p /\ raw p = raw g.
Proof.
  induction l as [|x l IH]; intros prev j g Hg; [discriminate|].
  cbn [add_velocity]. destruct j as [|j]; cbn in Hg |- *.
  - injection Hg as <-. eexists. split; reflexivity.
  - apply IH. exact Hg.
Qed.

(** X20: [time_since_last] of a record is 24 when no earlier record of the
    returned frame belongs to its user, and otherwise the hours between the
    record just before it, which belongs to the same user and is not later,
    and the record itself; it is never negative. *)
Theorem time_since_last_is_hours_since_previous (df : frame) (i : nat)
    (f : features) :
  create_features df !! i = Some f ->
  0 <= time_since_last f
  /\ ((time_since_last f == 24
       /\ forall j p, (j < i)%nat -> create_features df !! j = Some p ->
            user_id (raw p) <> user_id (raw f))
      \/ exists j p,
           i = S j
           /\ create_features df !! j = Some p
           /\ user_id (raw p) = user_id (raw f)
           /\ (timestamp (raw p) <= timestamp (raw f))%Z
           /\ time_since_last f
              == inject_Z (timestamp (raw f) - timestamp (raw p)) / 3600).
Proof.
  unfold create_features.
  set (s := sort_by_key (map (features_of (rows df)) (rows df))).
  intros Hf. destruct (add_velocity_lookup s None i f Hf) as (g & Hg & ->).
  cbn [time_since_last with_velocity raw].
  destruct i as [|j].
  { split; [lra|]. left. split; [reflexivity|]. intros j p Hj. lia. }
  destruct (s !! j) as [q|] eqn:Hq.
  2:{ apply lookup_ge_None in Hq. apply lookup_lt_Some in Hg. lia. }
  pose proof (Sorted_lookup_adjacent _ s (sort_by_key_sorted _) j q g Hq Hg)
    as Hle.
  destruct (String.eqb (user_id (raw q)) (user_id (raw g))) eqn:E.
  - apply String.eqb_eq in E.
    apply key_le_user_then_time in Hle as [Hlt|[_ Hle]].
    { rewrite E, string_compare_refl in Hlt. discriminate. }
    assert (Hgap : 0 <= inject_Z (timestamp (raw g) - timestamp (raw q)) / 3600).
    { apply Qle_shift_div_l; [lra|].
      assert (Hz : inject_Z 0
                   <= inject_Z (timestamp (raw g) - timestamp (raw q)))
        by (rewrite <- Zle_Qle; lia).
      change (inject_Z 0) with 0 in Hz. lra. }
    split; [exact Hgap|]. right.
    destruct (add_velocity_lookup_some s None j q Hq) as (p & Hp & Hraw).
    exists j, p. rewrite Hraw.
    split; [reflexivity|]. split; [exact Hp|]. split; [exact E|].
    split; [exact Hle|reflexivity].
  - apply String.eqb_neq in E. split; [lra|]. left. split; [reflexivity|].
    intros j' p Hj' Hp Hsame.
    destruct (add_velocity_lookup_raw s None j' p Hp) as (g' & Hg' & Hraw).
    rewrite Hraw in Hsame.
    apply key_le_user_order in Hle.
    assert (Hq_g : String.compare (user_id (raw q)) (user_id (raw g)) = Lt).
    { destruct (String.compare (user_id (raw q)) (user_id (raw g))) eqn:C;
        [|reflexivity|congruence].
      apply String.compare_eq_iff in C. congruence. }
    assert (Hg'_q : String.compare (user_id (raw g')) (user_id (raw q)) <> Gt).
    { destruct (decide (j' = j)) as [->|Hne].
      - rewrite Hq in Hg'. injection Hg' as <-.
        now rewrite string_compare_refl.
      - apply (StronglySorted_lookup _ s (sort_by_key_users_in_order _) j' j);
          [lia|exact Hg'|exact Hq]. }
    rewrite Hsame, (String.compare_antisym (user_id (raw g))), Hq_g in Hg'_q.
    now apply Hg'_q.
Qed.

(** ** The per-user aggregates *)

Lemma Qlist_min_le_start (l : list Q) : forall m, Qlist_min m l <= m.
Proof.
  unfold Qlist_min. induction l as [|y l IH]; intros m; cbn [fold_left].
  - apply Qle_refl.
  - eapply Qle_trans; [apply IH|].
    destruct (Qltb y m) eqn:E; [|apply Qle_refl].
    apply Qltb_true in E. now apply Qlt_le_weak.
Qed.

Lemma Qlist_min_le (l : list Q) : forall m x, In x l -> Qlist_min m l <= x.
Proof.
  induction l as [|y l IH]; intros m x Hin; [destruct Hin|].
  destruct Hin as [->|Hin].
  - unfold Qlist_min. cbn [fold_left].
    eapply Qle_trans; [apply Qlist_min_le_start|].
    destruct (Qltb x m) eqn:E; [apply Qle_refl|].
    now apply Qltb_false in E.
  - unfold Qlist_min. cbn [fold_left]. now apply IH.
Qed.

Lemma Qlist_max_ge_start (l : list Q) : forall m, m <= Qlist_max m l.
Proof.
  unfold Qlist_max. induction l as [|y l IH]; intros m; cbn [fold_left].
  - apply Qle_refl.
  - eapply Qle_trans; [|apply IH].
    destruct (Qltb m y) eqn:E; [|apply Qle_refl].
    apply Qltb_true in E. now apply Qlt_le_weak.
Qed.

Lemma Qlist_max_ge (l : list Q) : forall m x, In x l -> x <= Qlist_max m l.
Proof.
  induction l as [|y l IH]; intros m x Hin; [destruct Hin|].
  destruct Hin as [->|Hin].
  - unfold Qlist_max. cbn [fold_left].
    eapply Qle_trans; [|apply Qlist_max_ge_start].
    destruct (Qltb m x) eqn:E; [apply Qle_refl|].
    now apply Qltb_false in E.
  - unfold Qlist_max. cbn [fold_left]. now apply IH.
Qed.

Lemma own_group (rs : list row) (r : row) :
  In r rs -> In r (group_of rs (user_id r)).
Proof.
  intros Hin. unfold group_of. apply filter_In. split; [exact Hin|].
  apply String.eqb_refl.
Qed.

Lemma Qlist_min_In (l : list Q) : forall m, In (Qlist_min m l) (m :: l).
Proof.
  unfold Qlist_min. induction l as [|y l IH]; intros m; cbn [fold_left].
  - now left.
  - destruct (IH (if Qltb y m then y else m)) as [Heq|Hin].
    + rewrite <- Heq. destruct (Qltb y m); [right; now left|now left].
    + right. now right.
Qed.

Lemma Qlist_max_In (l : list Q) : forall m, In (Qlist_max m l) (m :: l).
Proof.
  unfold Qlist_max. induction l as [|y l IH]; intros m; cbn [fold_left].
  - now left.
  - destruct (IH (if Qltb m y then y else m)) as [Heq|Hin].
    + rewrite <- Heq. destruct (Qltb m y); [right; now left|now left].
    + right. now right.
Qed.

Lemma group_amount (rs : list row) (u : string) (a : Q) :
  In a (map amount (group_of rs u)) ->
  exists r, In r rs /\ user_id r = u /\ amount r = a.
Proof.
  intros Hin. apply in_map_iff in Hin as (r & <- & Hr).
  unfold group_of in Hr. apply filter_In in Hr as [Hr Hu].
  apply String.eqb_eq in Hu. now exists r.
Qed.

(** X21: the aggregates a record carries are those of its own user in the
    frame: [amount_min] and [amount_max] are amounts of records of that
    user, every amount of that user, the record's own included, lies
    between them, and [amount_count] is at least 1. *)
Theorem user_aggregates_bracket_the_amount (df : frame) (f : features) :
  In f (create_features df) ->
  (amount_min (stats f) <= amount (raw f)
   /\ amount (raw f) <= amount_max (stats f))
  /\ (forall r, In r (rows df) -> user_id r = user_id (raw f) ->
        amount_min (stats f) <= amount r /\ amount r <= amount_max (stats f))
  /\ (exists r, In r (rows df) /\ user_id r = user_id (raw f)
                /\ amount r = amount_min (stats f))
  /\ (exists r, In r (rows df) /\ user_id r = user_id (raw f)
                /\ amount r = amount_max (stats f))
  /\ 1 <= amount_count (stats f).
Proof.
  intros Hin. destruct (create_features_stats df f Hin) as [Hraw ->].
  pose proof (own_group _ _ Hraw) as Hown.
  unfold stats_of.
  cbn [amount_min amount_max amount_mean amount_count].
  set (amounts := map amount (group_of (rows df) (user_id (raw f)))).
  assert (Hall : forall r, In r (rows df) -> user_id r = user_id (raw f) ->
                   In (amount r) amounts).
  { intros r Hr Hu. apply in_map. rewrite <- Hu. now apply own_group. }
  assert (Ha : In (amount (raw f)) amounts) by now apply Hall.
  assert (Hhd : In (hd 0 amounts) amounts).
  { destruct amounts; [destruct Ha|now left]. }
  split; [split; [now apply Qlist_min_le|now apply Qlist_max_ge]|].
  split.
  { intros r Hr Hu. specialize (Hall r Hr Hu).
    split; [now apply Qlist_min_le|now apply Qlist_max_ge]. }
  split.
  { apply group_amount.
    destruct (Qlist_min_In amounts (hd 0 amounts)) as [<-|Hm]; assumption. }
  split.
  { apply group_amount.
    destruct (Qlist_max_In amounts (hd 0 amounts)) as [<-|Hm]; assumption. }
  change 1 with (inject_Z 1). rewrite <- Zle_Qle.
  destruct amounts; [destruct Ha|cbn [length]; lia].
Qed.

(** ** Records of a user seen once *)

Lemma Qgtb_irrefl (a b : Q) : a == b -> Qgtb a (b + 2 * 0) = false.
Proof. intros Hab. unfold Qgtb. apply Qltb_false. lra. Qed.

(** X22: a record whose user occurs once in the frame is never marked
    [high_amount]: the standard deviation of a single amount is filled with
    0 and the mean is the amount itself.  In particular a frame of one
    transaction, as scored at inference time, never sets the flag. *)
Theorem lone_record_is_never_high_amount (df : frame) (f : features) :
  In f (create_features df) ->
  length (group_of (rows df) (user_id (raw f))) = 1%nat ->
  amount_std (stats f) == 0 /\ high_amount f == 0.
Proof.
  unfold create_features. intros Hin Hone.
  apply add_velocity_In in Hin as (g & tsl & Hg & ->).
  apply sort_by_key_In, in_map_iff in Hg as (r & <- & Hr).
  cbn [raw with_velocity features_of stats high_amount] in *.
  pose proof (own_group _ _ Hr) as Hown.
  unfold stats_of. cbn [amount_std amount_mean].
  destruct (group_of (rows df) (user_id r)) as [|r0 [|r1 g]];
    try discriminate.
  destruct Hown as [->|[]].
  cbn [map sample_std]. split; [reflexivity|].
  rewrite Qgtb_irrefl; [reflexivity|].
  symmetry. apply Qmean_single.
Qed.

(** ** Encoding of labels *)

Lemma index_of_existsb (x : string) (l : list string) : forall i,
  index_of x l i = None <-> existsb (String.eqb x) l = false.
Proof.
  induction l as [|y l IH]; intros i; cbn [index_of existsb]; [tauto|].
  rewrite (String.eqb_sym x y). destruct (String.eqb y x); cbn [orb].
  - split; discriminate.
  - apply IH.
Qed.

Lemma label_transform_cases (classes : list string) (v : string) :
  (existsb (String.eqb v) classes = true
   /\ exists c, label_transform classes v = inr c)
  \/ (existsb (String.eqb v) classes = false
      /\ label_transform classes v
         = inl (Raise ValueError "y contains previously unseen labels")).
Proof.
  unfold label_transform. destruct (index_of v classes 0) as [i|] eqn:E.
  - left. split; [|eexists; reflexivity].
    destruct (existsb (String.eqb v) classes) eqn:Ex; [reflexivity|].
    apply index_of_existsb with (i := 0%nat) in Ex. congruence.
  - right. split; [|reflexivity]. now apply index_of_existsb in E.
Qed.

Lemma encode_values_cases (classes vals : list string) :
  if forallb (encodable classes) vals
  then exists codes, encode_values classes vals = inr codes
                     /\ length codes = length vals
  else encode_values classes vals
       = inl (Raise ValueError "y contains previously unseen labels").
Proof.
  induction vals as [|v vals IH]; cbn [forallb encode_values].
  - eexists. split; reflexivity.
  - unfold encodable at 1.
    destruct (label_transform_cases classes v) as [[-> [c ->]]|[-> ->]];
      cbn [orb andb bind ret].
    + destruct (forallb (encodable classes) vals).
      * destruct IH as (codes & -> & Hlen). eexists. split; [reflexivity|].
        cbn [length]. now rewrite Hlen.
      * rewrite IH. reflexivity.
    + destruct (label_transform_cases classes "unknown") as [[-> [c ->]]|[-> ->]];
        cbn [orb andb bind ret]; [|reflexivity].
      destruct (forallb (encodable classes) vals).
      * destruct IH as (codes & -> & Hlen). eexists. split; [reflexivity|].
        cbn [length]. now rewrite Hlen.
      * rewrite IH. reflexivity.
Qed.

Lemma forallb_column {A B} (p : B -> bool) (g : A -> B) (l : list A) :
  forallb p (map g l) = forallb (fun a => p (g a)) l.
Proof. induction l as [|a l IH]; cbn [map forallb]; [reflexivity|]. now rewrite IH. Qed.

Lemma transform_categorical_cases (df : frame) (fs : list features)
    (encs : odict (list string)) :
  if forallb (fun '(feature, classes) =>
                match string_column df feature with
                | Some get =>
                    forallb (fun f => encodable classes
                                        (default "unknown"%string (get f))) fs
                | None => true
                end) encs
  then exists cols, transform_categorical df fs encs = inr cols
                    /\ Forall (fun c => length c = length fs) cols
  else transform_categorical df fs encs
       = inl (Raise ValueError "y contains previously unseen labels").
Proof.
  induction encs as [|[feature classes] encs IH];
    cbn [forallb transform_categorical].
  - eexists. split; [reflexivity|constructor].
  - destruct (string_column df feature) as [get|]; cbn [andb]; [|exact IH].
    pose proof (encode_values_cases classes (column_fillna_unknown get fs)) as Hv.
    unfold column_fillna_unknown in *. rewrite forallb_column in Hv.
    destruct (forallb _ fs); cbn [andb].
    + destruct Hv as (codes & -> & Hlen). cbn [bind ret].
      destruct (forallb _ encs).
      * destruct IH as (cols & -> & Hcols). eexists. split; [reflexivity|].
        constructor; [|exact Hcols]. now rewrite Hlen, length_map.
      * rewrite IH. reflexivity.
    + rewrite Hv. reflexivity.
Qed.

Lemma transform_numerical_columns (fs : list features) :
  fs <> [] -> forall scs,
  exists cols, transform_numerical fs scs = inr cols
               /\ Forall (fun c => length c = length fs) cols.
Proof.
  intros Hne. induction scs as [|[name sc] scs (cols & IH & Hcols)];
    cbn [transform_numerical].
  - eexists. split; [reflexivity|constructor].
  - destruct (odict_get numeric_columns name) as [get|]; [|eauto].
    unfold robust_transform.
    destruct (column_fillna0 get fs) eqn:E.
    { exfalso. now apply (column_fillna0_nonempty get fs Hne). }
    cbn [bind]. rewrite IH. eexists. split; [reflexivity|].
    constructor; [|exact Hcols].
    rewrite length_map, <- E. unfold column_fillna0. apply length_map.
Qed.

Lemma column_stack_rows (n : nat) (cols : list (list Q)) :
  length (column_stack n cols) = n
  /\ Forall (fun r => length r = length cols) (column_stack n cols).
Proof.
  unfold column_stack. split; [now rewrite length_map, length_seq|].
  apply List.Forall_forall. intros r Hr.
  apply in_map_iff in Hr as (i & <- & _). apply length_map.
Qed.

(** X23: on a fitted state and a frame with at least one record whose
    amounts are above -1 and of moderate size, so that every numerical
    column is a finite number, [transform] raises exactly when some label of
    a categorical column is neither a class of its encoder nor covered by a
    class ['unknown']; the error is the encoder's [ValueError].  Otherwise it
    returns one row per record. *)
Theorem transform_raises_exactly_on_unencodable_label (st : state) (df : frame) :
  is_fitted st = true ->
  rows df <> [] ->
  amounts_in_range df ->
  if labels_encodable st df
  then exists m, transform st df = inr m /\ length m = length (rows df)
  else transform st df
       = inl (Raise ValueError "y contains previously unseen labels").
Proof.
  intros Hfitted Hne _. unfold transform, labels_encodable.
  rewrite Hfitted. cbn [negb].
  destruct (transform_numerical_columns (create_features df)
              (create_features_nonempty df Hne) (scalers st)) as (nums & -> & _).
  cbn [bind].
  pose proof (transform_categorical_cases df (create_features df) (encoders st)) as Hc.
  destruct (forallb _ (encoders st)).
  - destruct Hc as (cats & -> & _). cbn [bind ret]. eexists.
    split; [reflexivity|].
    rewrite (proj1 (column_stack_rows _ _)). apply create_features_length.
  - rewrite Hc. reflexivity.
Qed.

(** ** Fitting and transforming the same frame *)

Lemma insert_label_In (x v : string) (l : list string) :
  In v (insert_label x l) <-> v = x \/ In v l.
Proof.
  induction l as [|y l IH]; cbn [insert_label In].
  - intuition.
  - destruct (String.leb x y); cbn [In]; [intuition|]. rewrite IH. intuition.
Qed.

Lemma label_fit_In (col : list string) (v : string) :
  In v (label_fit col) <-> In v col.
Proof.
  unfold label_fit. rewrite <- (nodup_In string_dec col v).
  induction (nodup string_dec col) as [|x l IH]; cbn [fold_right In]; [tauto|].
  rewrite insert_label_In, IH. intuition.
Qed.

Lemma label_fit_encodes_its_column (col : list string) :
  forallb (encodable (label_fit col)) col = true.
Proof.
  apply forallb_forall. intros v Hv. unfold encodable.
  apply orb_true_intro. left. apply existsb_exists. exists v.
  split; [now apply label_fit_In|apply String.eqb_refl].
Qed.

Lemma transform_numerical_count (fs : list features) :
  forall scs cols,
  transform_numerical fs scs = inr cols ->
  length cols
  = length (List.filter
              (fun p => match odict_get numeric_columns p.1 with
                        | Some _ => true
                        | None => false
                        end) scs).
Proof.
  induction scs as [|[name sc] scs IH]; intros cols;
    cbn [transform_numerical List.filter fst].
  - intros [= <-]. reflexivity.
  - destruct (odict_get numeric_columns name) as [get|]; [|apply IH].
    intros Hb. apply bind_inr in Hb as (scaled & _ & Hb).
    apply bind_inr in Hb as (rest & Hrest & [= <-]).
    cbn [length]. now rewrite (IH _ Hrest).
Qed.

Lemma transform_categorical_count (df : frame) (fs : list features) :
  forall encs cols,
  transform_categorical df fs encs = inr cols ->
  length cols
  = length (List.filter
              (fun p => match string_column df p.1 with
                        | Some _ => true
                        | None => false
                        end) encs).
Proof.
  induction encs as [|[name classes] encs IH]; intros cols;
    cbn [transform_categorical List.filter fst].
  - intros [= <-]. reflexivity.
  - destruct (string_column df name) as [get|]; [|apply IH].
    intros Hb. apply bind_inr in Hb as (encoded & _ & Hb).
    apply bind_inr in Hb as (rest & Hrest & [= <-]).
    cbn [length]. now rewrite (IH _ Hrest).
Qed.

Lemma fresh_encoders_encode_the_frame (df : frame) :
  let encs := fit_encoders df (create_features df) categorical_features [] in
  forallb (fun '(feature, classes) =>
             match string_column df feature with
             | Some get =>
                 forallb (fun f => encodable classes
                                     (default "unknown"%string (get f)))
                         (create_features df)
             | None => true
             end) encs = true
  /\ length (List.filter
               (fun p => match string_column df p.1 with
                         | Some _ => true
                         | None => false
                         end) encs)
     = (if has_location df then 3 else 2)%nat.
Proof.
  destruct df as [hl rs]. set (df := {| has_location := hl; rows := rs |}).
  set (fs := create_features df).
  assert (Hcol : forall get : features -> option string,
             forallb (fun f => encodable (label_fit (column_fillna_unknown get fs))
                                 (default "unknown"%string (get f))) fs = true).
  { intros get. rewrite <- (forallb_column _ (fun f => default "unknown"%string (get f))).
    apply label_fit_encodes_its_column. }
  destruct hl;
    cbv [categorical_features fit_encoders string_column has_location df
         String.eqb Ascii.eqb Bool.eqb odict_set];
    cbn [forallb List.filter fst length];
    rewrite !Hcol; split; reflexivity.
Qed.

(** X24: fitting a fresh preprocessor on a frame with at least one record,
    whose amounts are above -1 and of moderate size, and transforming that
    same frame does not fail, whatever the labels: every label met was seen
    by the encoders.  The matrix has one row per record and 18 columns, or
    19 when the frame has a [location] column. *)
Theorem fit_transform_returns_full_matrix (df : frame) :
  rows df <> [] ->
  amounts_in_range df ->
  exists m,
    fit_transform new df = inr m
    /\ length m = length (rows df)
    /\ Forall (fun r => length r = feature_count df) m.
Proof.
  intros Hne _. unfold fit_transform.
  destruct (fit_succeeds new df Hne) as (scs & Hfit).
  destruct (fit_scalers_shape df _ Hfit)
    as (_ & s0 & s1 & s2 & s3 & s4 & s5 & s6 & s7 & s8 & s9 & Hscalers).
  rewrite Hfit. cbn [bind]. cbn [scalers] in Hscalers. subst scs.
  unfold transform. cbn [is_fitted negb scalers encoders new].
  match goal with
  | |- context [transform_numerical ?fs ?scs] =>
      destruct (transform_numerical_columns fs
                  (create_features_nonempty df Hne) scs) as (nums & Hnums & _);
      pose proof (transform_numerical_count fs scs nums Hnums) as Hn
  end.
  rewrite Hnums. cbn [bind].
  destruct (fresh_encoders_encode_the_frame df) as [Henc Hk].
  pose proof (transform_categorical_cases df (create_features df)
                (fit_encoders df (create_features df) categorical_features []))
    as Hc.
  rewrite Henc in Hc. destruct Hc as (cats & Hcats & _).
  pose proof (transform_categorical_count df _ _ cats Hcats) as Hm.
  rewrite Hcats. cbn [bind ret]. eexists. split; [reflexivity|].
  destruct (column_stack_rows (length (create_features df))
              (nums ++ cats ++ transform_binary (create_features df)))
    as [Hrows Hwidth].
  split; [rewrite Hrows; apply create_features_length|].
  eapply List.Forall_impl; [|exact Hwidth].
  intros r ->. rewrite !length_app, Hn, Hm, Hk. unfold feature_count.
  rewrite Nat.add_assoc. reflexivity.
Qed.

End PreprocessorFurther.

(** * Further properties on sample inputs *)

Section FraudDetectorFurtherExamples.
Import FraudDetector Spec ExtraSpec RiskSpec ModelSpec Samples LoaderSamples.
#[local] Existing Instance stub_externals.

Lemma payment_basic_inputs_ok : basic_inputs_ok payment.
Proof.
  split; [right; exists 50; reflexivity|].
  split; [right; right; exists noon; reflexivity|].
  split; [right; exists 48; reflexivity|right; exists 2; reflexivity].
Qed.

Lemma payment_rule_inputs_ok : rule_inputs_ok payment.
Proof.
  split; [right; exists 50; reflexivity|].
  split; [right; right; exists noon; reflexivity|].
  split; [right; right; exists 48; reflexivity|].
  split; [right; right; exists 2; reflexivity|].
  right. exists "retail"%string. reflexivity.
Qed.

Lemma basic_preprocessing_shape_witness :
  basic_inputs_ok payment
  /\ exists row, _basic_preprocessing payment = inr (Arr2 [row]).
Proof.
  split; [exact payment_basic_inputs_ok|].
  exact (proj2 (basic_preprocessing_shape payment) payment_basic_inputs_ok).
Defined.

Lemma battery_records_no_error_witness :
  rule_inputs_ok payment
  /\ map fst (_run_rules _load_rules payment)
       = ["_amount_threshold_rule"; "_velocity_rule"; "_location_rule";
          "_time_pattern_rule"; "_merchant_risk_rule"]%string
  /\ Forall (fun kv => contains_error kv.2 = false)
       (_run_rules _load_rules payment).
Proof.
  split; [exact payment_rule_inputs_ok|].
  exact (battery_records_no_error_on_typed_input payment payment_rule_inputs_ok).
Defined.

Lemma detect_fraud_returns_on_typed_input_witness :
  basic_inputs_ok payment
  /\ record_prediction_time (elapsed_ms (tick 5)) = inr tt
  /\ exists r,
       detect_fraud default_settings (init [] None) payment (tick 5)
         = (inr r, _update_performance_metrics (init [] None) (elapsed_ms (tick 5)))
       /\ r_transaction_id r = dict_get payment "transaction_id"
       /\ r_prediction_time_ms r = elapsed_ms (tick 5).
Proof.
  split; [exact payment_basic_inputs_ok|]. split; [reflexivity|].
  exact (detect_fraud_returns_on_typed_input default_settings (init [] None)
           payment (tick 5) payment_basic_inputs_ok eq_refl).
Defined.

Lemma none_field_aborts_scoring_witness :
  payment_with_none_amount !! "amount"%string = Some VNone
  /\ exists e,
       detect_fraud default_settings (init [] None) payment_with_none_amount
         (tick 5) = (inl e, init [] None).
Proof.
  assert (Hnone : payment_with_none_amount !! "amount"%string = Some VNone)
    by reflexivity.
  split; [exact Hnone|].
  apply (none_field_aborts_scoring default_settings (init [] None)
           payment_with_none_amount (tick 5)).
  - intros f Hf. discriminate Hf.
  - left. exact Hnone.
Defined.

Lemma rules_alone_never_flag_fraud_witness :
  exists r self',
    detect_fraud default_settings (init [] None) large_payment (tick 5)
      = (inr r, self')
    /\ successful "fraud_probability" (r_ml_predictions r) = []
    /\ r_fraud_probability r
       == 0.35 + 0.3 * rule_aggregate (r_rule_predictions r)
    /\ r_is_fraud r = false.
Proof.
  destruct (detect_fraud_returns default_settings (init [] None) large_payment
              (tick 5) _ features_of_large_payment eq_refl)
    as (r & Hcall & Hml & _).
  assert (Hnone : successful "fraud_probability" (r_ml_predictions r) = []).
  { rewrite Hml. vm_compute. reflexivity. }
  exists r, (_update_performance_metrics (init [] None) (elapsed_ms (tick 5))).
  split; [exact Hcall|]. split; [exact Hnone|].
  destruct (rules_alone_never_flag_fraud default_settings (init [] None) _
              large_payment (tick 5) r eq_refl Hcall Hnone)
    as (Hvalue & _ & _ & _ & Hfraud).
  split; [exact Hvalue|]. apply Hfraud. vm_compute. discriminate.
Defined.

Lemma amount_rule_is_monotone_witness :
  py_float (dict_get_default payment "amount" (VNum 0)) = inr 50
  /\ py_float (dict_get_default large_payment "amount" (VNum 0)) = inr 15000
  /\ exists t1 r1 s1 t2 r2 s2,
       _amount_threshold_rule payment = inr (rule_result t1 r1 s1)
       /\ _amount_threshold_rule large_payment = inr (rule_result t2 r2 s2)
       /\ r1 <= r2
       /\ (t1 = true -> t2 = true)
       /\ (t1 = true <-> 5000 < 50).
Proof.
  split; [reflexivity|]. split; [reflexivity|].
  apply (amount_rule_is_monotone payment large_payment 50 15000);
    [reflexivity|reflexivity|lra].
Defined.

Lemma merchant_rule_triggers_on_substring_witness :
  betting_payment !! "merchant_category"%string = Some (VStr "Online Gambling")
  /\ exists t r reason,
       _merchant_risk_rule betting_payment = inr (rule_result t r reason)
       /\ (t = true <->
           exists word a b,
             In word ["gambling"; "cryptocurrency"; "adult"; "pharmacy"]%string
             /\ str_lower "Online Gambling" = a +:+ word +:+ b)
       /\ (t = true -> r = 0.7)
       /\ (t = false -> r = 0.1).
Proof.
  split; [reflexivity|].
  apply (merchant_rule_triggers_on_substring betting_payment "Online Gambling").
  reflexivity.
Defined.

Lemma risk_ladders_are_monotone_witness :
  0.5 <= 0.9
  /\ (level_rank (_get_risk_level 0.5) <= level_rank (_get_risk_level 0.9))%nat
  /\ (action_rank (_get_recommended_action 0.5)
      <= action_rank (_get_recommended_action 0.9))%nat.
Proof.
  assert (Hle : 0.5 <= 0.9) by lra.
  split; [exact Hle|]. exact (risk_ladders_are_monotone 0.5 0.9 Hle).
Defined.

Lemma reload_never_drops_a_model_witness :
  is_Some (odict_get (models (detector_with "classifier" (classifier 0.9)))
             "classifier")
  /\ is_Some (odict_get
                (models (reload_models broken_disk "models" (scorer 0) (scorer 1)
                           (detector_with "classifier" (classifier 0.9))))
                "classifier").
Proof.
  assert (Hheld : is_Some (odict_get
                    (models (detector_with "classifier" (classifier 0.9)))
                    "classifier")) by (eexists; reflexivity).
  split; [exact Hheld|].
  exact (reload_never_drops_a_model broken_disk "models" (scorer 0) (scorer 1)
           (detector_with "classifier" (classifier 0.9)) "classifier" Hheld).
Defined.

Lemma load_failure_installs_defaults_witness :
  broken_disk (os_path_join "models" "lstm.joblib")
    = Some (inl (Raise RuntimeError "corrupt file"))
  /\ odict_get (_load_models broken_disk "models" (scorer 0) (scorer 1) [])
       "autoencoder" = Some (scorer 0)
  /\ odict_get (_load_models broken_disk "models" (scorer 0) (scorer 1) [])
       "lstm" = Some (scorer 1).
Proof.
  split; [reflexivity|].
  apply (load_failure_installs_defaults broken_disk "models" (scorer 0)
           (scorer 1) [] "lstm.joblib" (Raise RuntimeError "corrupt file")).
  - right. left. reflexivity.
  - reflexivity.
Defined.

Lemma load_models_updates_what_exists_witness :
  odict_get (_load_models stocked_disk "models" (scorer 0) (scorer 1)
               [("ensemble"%string, scorer 2)]) "autoencoder"
    = Some (classifier 0.2)
  /\ odict_get (_load_models stocked_disk "models" (scorer 0) (scorer 1)
                  [("ensemble"%string, scorer 2)]) "ensemble"
     = Some (scorer 2).
Proof.
  assert (Hno : forall file e,
             In file ["autoencoder.joblib"; "lstm.joblib"; "ensemble.joblib"]%string ->
             stocked_disk (os_path_join "models" file) <> Some (inl e)).
  { intros file e [<-|[<-|[<-|[]]]]; discriminate. }
  split.
  - exact (load_models_updates_what_exists stocked_disk "models" (scorer 0)
             (scorer 1) [("ensemble"%string, scorer 2)] Hno "autoencoder").
  - exact (load_models_updates_what_exists stocked_disk "models" (scorer 0)
             (scorer 1) [("ensemble"%string, scorer 2)] Hno "ensemble").
Defined.

End FraudDetectorFurtherExamples.

Section AutoencoderFurtherExamples.
Import AutoencoderModel AutoencoderSpec AnomalySpec AnomalySamples Spec.

Lemma anomaly_scores_agree_with_flags_witness :
  threshold calibrated_network = Some 2
  /\ (detect_anomalies calibrated_network [[0]; [1]; [2]]).2
     = [false; false; true]
  /\ Forall2 (fun score flag => in_unit score /\ (flag = true -> score == 1))
       (get_anomaly_score calibrated_network [[0]; [1]; [2]])
       (detect_anomalies calibrated_network [[0]; [1]; [2]]).2.
Proof.
  split; [reflexivity|]. split; [vm_compute; reflexivity|].
  apply (anomaly_scores_agree_with_flags calibrated_network [[0]; [1]; [2]] 2);
    [reflexivity|lra].
Defined.

End AutoencoderFurtherExamples.

Section PreprocessorFurtherExamples.
Import TransactionPreprocessor PreprocessorSpec PreprocessorSamples.
Import FeatureSpec EncodingSpec FeatureSamples.
#[local] Existing Instance stub_externals.

Lemma bob_record_in_frame : In bob_record (create_features corpus).
Proof. vm_compute. right. right. left. reflexivity. Qed.

Lemma corpus_amounts_in_range : amounts_in_range corpus.
Proof. repeat constructor; cbn; lra. Qed.

Lemma incoming_amounts_in_range (m : string) :
  amounts_in_range (single (incoming 100 m)).
Proof. repeat constructor; cbn; lra. Qed.

Lemma time_since_last_is_hours_since_previous_witness :
  create_features corpus !! 1%nat = Some alice_second_record
  /\ 0 <= time_since_last alice_second_record
  /\ exists p,
       create_features corpus !! 0%nat = Some p
       /\ user_id (raw p) = "alice"%string
       /\ time_since_last alice_second_record
          == inject_Z (3600 - timestamp (raw p)) / 3600.
Proof.
  assert (Hat : create_features corpus !! 1%nat = Some alice_second_record)
    by (vm_compute; reflexivity).
  split; [exact Hat|].
  destruct (time_since_last_is_hours_since_previous corpus 1 alice_second_record
              Hat) as [Hpos [[_ Hfirst]|(j & p & Hj & Hp & Huser & _ & Hgap)]].
  - exfalso.
    assert (Hzero : exists p, create_features corpus !! 0%nat = Some p
                              /\ user_id (raw p) = "alice"%string)
      by (eexists; split; vm_compute; reflexivity).
    destruct Hzero as (p & Hp & Hu).
    apply (Hfirst 0%nat p ltac:(lia) Hp). rewrite Hu. reflexivity.
  - split; [exact Hpos|]. injection Hj as <-. exists p.
    split; [exact Hp|]. split; [exact Huser|exact Hgap].
Defined.

Lemma user_aggregates_bracket_the_amount_witness :
  In bob_record (create_features corpus)
  /\ (amount_min (stats bob_record) <= 20 /\ 20 <= amount_max (stats bob_record))
  /\ 1 <= amount_count (stats bob_record).
Proof.
  split; [exact bob_record_in_frame|].
  destruct (user_aggregates_bracket_the_amount corpus bob_record
              bob_record_in_frame) as (Hown & _ & _ & _ & Hcount).
  split; [exact Hown|exact Hcount].
Defined.

Lemma lone_record_is_never_high_amount_witness :
  length (group_of (rows corpus) "bob") = 1%nat
  /\ amount_std (stats bob_record) == 0 /\ high_amount bob_record == 0.
Proof.
  split; [reflexivity|].
  apply (lone_record_is_never_high_amount corpus bob_record bob_record_in_frame).
  reflexivity.
Defined.

Lemma transform_raises_exactly_on_unencodable_label_witness :
  (labels_encodable fitted (single (incoming 100 "market")) = true
   /\ exists m, transform fitted (single (incoming 100 "market")) = inr m
                /\ length m = 1%nat)
  /\ (labels_encodable fitted (single (incoming 100 "kiosk")) = false
      /\ transform fitted (single (incoming 100 "kiosk"))
         = inl (Raise ValueError "y contains previously unseen labels")).
Proof.
  split.
  - assert (Hok : labels_encodable fitted (single (incoming 100 "market")) = true)
      by (vm_compute; reflexivity).
    split; [exact Hok|].
    pose proof (transform_raises_exactly_on_unencodable_label fitted
                  (single (incoming 100 "market")) eq_refl
                  ltac:(discriminate) (incoming_amounts_in_range "market"))
      as Hcase.
    rewrite Hok in Hcase. exact Hcase.
  - assert (Hno : labels_encodable fitted (single (incoming 100 "kiosk")) = false)
      by (vm_compute; reflexivity).
    split; [exact Hno|].
    pose proof (transform_raises_exactly_on_unencodable_label fitted
                  (single (incoming 100 "kiosk")) eq_refl
                  ltac:(discriminate) (incoming_amounts_in_range "kiosk"))
      as Hcase.
    rewrite Hno in Hcase. exact Hcase.
Defined.

Lemma fit_transform_returns_full_matrix_witness :
  rows corpus <> []
  /\ amounts_in_range corpus
  /\ exists m,
       fit_transform new corpus = inr m
       /\ length m = 3%nat
       /\ Forall (fun r => length r = 18%nat) m.
Proof.
  assert (Hne : rows corpus <> []) by discriminate.
  split; [exact Hne|]. split; [exact corpus_amounts_in_range|].
  exact (fit_transform_returns_full_matrix corpus Hne corpus_amounts_in_range).
Defined.

End PreprocessorFurtherExamples.
